(** * Model Monitor notebooks: a shallow embedding of the workflow cells

    The repository scripts the SageMaker Model Monitor workflow from Jupyter
    notebooks.  Every cell is a straight-line sequence (or a loop) of calls
    to an external service, separated by fixed sleeps.  The embedding below
    keeps that shape:

    - the external service is an arbitrary state machine ([Service]): each
      call takes the current world, answers or raises, and moves the world;
    - a cell is a program in the monad [M]: it threads the world, collects
      the chronological trace of calls, sleeps and printed lines, and stops
      at the first exception (nothing in the notebooks catches one);
    - [for ... in enumerate(...)] is [for_enumerate], [while] is [while_]
      with a bound on the number of iterations (the source has none). *)

From stdpp Require Import gmap strings list pretty.

(** ** Python values the notebooks handle *)

(** Exceptions are never constructed by the notebooks themselves; they come
    from the client libraries and the Python runtime: [NameError] when a
    cell reads a global name that is not bound, [IndexError] when it asks
    for an item a list does not have. *)
Inductive exn : Type :=
  | ClientError (msg : string)
  | KeyError (key : string)
  | UnicodeDecodeError
  | NameError (name : string)
  | IndexError.

(** What an external call does: return a value or raise. *)
Inductive reply (A : Type) : Type :=
  | Returns (a : A)
  | Raises (e : exn).
Arguments Returns {A} a.
Arguments Raises {A} e.

(** [bytes], as returned by [Predictor.predict]. *)
Definition bytes : Type := list Byte.byte.

(** The argument of [predictor.predict]: a row of field values (a Python
    list) or an already serialized line (a Python [str]). *)
Inductive sample (value : Type) : Type :=
  | Row (fields : list value)
  | Text (line : string).
Arguments Row {value} fields.
Arguments Text {value} line.

(** Python's [len] on the two kinds of sample. *)
Definition len {value} (s : sample value) : nat :=
  match s with
  | Row fields => length fields
  | Text line => String.length line
  end.

(** ** Control-plane requests *)

Record production_variant : Type := ProductionVariant {
  VariantName : string;
  ModelName : string;
  InitialInstanceCount : nat;
  InstanceType : string
}.

Record data_capture_config : Type := DataCaptureConfig {
  EnableCapture : bool;
  InitialSamplingPercentage : nat;
  DestinationS3Uri : string;
  CaptureOptions : list string;
  CsvContentTypes : list string
}.

(** One constructor per client method the notebooks call: [sm_] is boto3's
    [sm_client], [dmm_] the SDK's [DefaultModelMonitor] object, [sess_] and
    [mp_] the SDK session and model package used by the oldest snapshot. *)
Inductive api : Type :=
  | sm_create_model (model_name model_package_name execution_role_arn : string)
      (enable_network_isolation : bool)
  | sm_create_endpoint_config (endpoint_config_name : string)
      (production_variants : list production_variant)
      (data_capture : data_capture_config)
  | sm_create_endpoint (endpoint_name endpoint_config_name : string)
  | sm_describe_endpoint (endpoint_name : string)
  | sm_describe_processing_job (processing_job_name : string)
  | sm_stop_monitoring_schedule (monitoring_schedule_name : string)
  | sm_delete_monitoring_schedule (monitoring_schedule_name : string)
  | sm_list_monitoring_schedules (endpoint_name : string)
  | sm_delete_endpoint (endpoint_name : string)
  | sm_list_endpoints (name_contains : string)
  | sm_delete_endpoint_config (endpoint_config_name : string)
  | sm_list_endpoint_configs (name_contains : string)
  | sm_delete_model (model_name : string)
  | sm_list_models (name_contains : string)
  | dmm_suggest_baseline (job_name baseline_dataset output_s3_uri : string)
      (wait logs : bool)
  | dmm_job_wait (logs : bool)
  | dmm_baseline_statistics
  | dmm_suggested_constraints
  | dmm_create_monitoring_schedule (monitor_schedule_name endpoint_input
      output_s3_uri : string) (statistics constraints : gmap string string)
      (schedule_cron_expression : string)
  | dmm_describe_schedule
  | sess_delete_endpoint (endpoint_name : string)
  | sess_delete_endpoint_config (endpoint_config_name : string)
  | mp_delete_model.

(** The service answers a control-plane request with a dictionary. *)
Abbreviation dict := (gmap string string).

(** ** The external world *)

Record Service (value : Type) : Type := {
  World : Type;
  (** any control-plane call *)
  control : api → World → reply dict * World;
  (** [predictor.predict(data)]: serialization, the request and the raw
      response all happen inside the SDK *)
  predictor_predict : sample value → World → reply bytes * World;
  (** [bytes.decode('utf-8')]; [None] is a [UnicodeDecodeError] *)
  decode_utf8 : bytes → option string;
  (** [strftime("%Y-%m-%d-%H-%M-%S", gmtime())] *)
  strftime_gmtime : World → string;
  (** [get_execution_role()] and [session.default_bucket()] *)
  role : string;
  BUCKET : string
}.
Arguments World {value} _.
Arguments control {value} _ _ _.
Arguments predictor_predict {value} _ _ _.
Arguments decode_utf8 {value} _ _.
Arguments strftime_gmtime {value} _ _.
Arguments role {value} _.
Arguments BUCKET {value} _.

(** ** What a cell leaves behind *)

(** A printed line.  The per-sample line
    ['Sample {0} >> Input: {1}: >> Prediction: {2}'.format(index, sample, response)]
    is kept as its three arguments; [response] is [None] when [predict]
    fell through its guard. *)
Inductive output (value : Type) : Type :=
  | Line (text : string)
  | SampleLine (index : nat) (input : sample value) (response : option string).
Arguments Line {value} text.
Arguments SampleLine {value} index input response.

Inductive event (value : Type) : Type :=
  | Call (op : api) (r : reply dict)
  | Predict (data : sample value) (r : reply bytes)
  | Sleep (milliseconds : N)
  | Printed (o : output value).
Arguments Call {value} op r.
Arguments Predict {value} data r.
Arguments Sleep {value} milliseconds.
Arguments Printed {value} o.

(** How a cell ends.  [OutOfFuel] is not a Python outcome: it marks a
    [while] loop that was still running when the iteration bound of the
    model was reached. *)
Inductive outcome (A : Type) : Type :=
  | Ok (a : A)
  | Raise (e : exn)
  | OutOfFuel.
Arguments Ok {A} a.
Arguments Raise {A} e.
Arguments OutOfFuel {A}.

Record run (value W A : Type) : Type := Run {
  result : outcome A;
  world_after : W;
  trace : list (event value)
}.
Arguments Run {value W A} result world_after trace.
Arguments result {value W A} _.
Arguments world_after {value W A} _.
Arguments trace {value W A} _.

(** ** The monad of notebook cells *)

Section Monad.
Context {value : Type} (svc : Service value).

Definition M (A : Type) : Type := World svc → run value (World svc) A.

Definition ret {A} (a : A) : M A := λ w, Run (Ok a) w [].

Definition raise {A} (e : exn) : M A := λ w, Run (Raise e) w [].

Definition out_of_fuel {A} : M A := λ w, Run OutOfFuel w [].

Definition bind {A B} (m : M A) (k : A → M B) : M B := λ w,
  let r := m w in
  match result r with
  | Ok a =>
      let r' := k a (world_after r) in
      Run (result r') (world_after r') (trace r ++ trace r')
  | Raise e => Run (Raise e) (world_after r) (trace r)
  | OutOfFuel => Run OutOfFuel (world_after r) (trace r)
  end.

(** A control-plane call: the request and its answer enter the trace. *)
Definition call (op : api) : M dict := λ w,
  let '(r, w') := control svc op w in
  match r with
  | Returns d => Run (Ok d) w' [Call op r]
  | Raises e => Run (Raise e) w' [Call op r]
  end.

Definition invoke (data : sample value) : M bytes := λ w,
  let '(r, w') := predictor_predict svc data w in
  match r with
  | Returns b => Run (Ok b) w' [Predict data r]
  | Raises e => Run (Raise e) w' [Predict data r]
  end.

(** [response.decode('utf-8')] *)
Definition decode (b : bytes) : M string :=
  match decode_utf8 svc b with
  | Some s => ret s
  | None => raise UnicodeDecodeError
  end.

(** [response[key]] *)
Definition getitem (d : dict) (key : string) : M string :=
  match d !! key with
  | Some v => ret v
  | None => raise (KeyError key)
  end.

(** [time.sleep]; durations are in milliseconds. *)
Definition sleep (milliseconds : N) : M unit :=
  λ w, Run (Ok tt) w [Sleep milliseconds].

Definition print (o : output value) : M unit :=
  λ w, Run (Ok tt) w [Printed o].

Definition gmtime_stamp : M string :=
  λ w, Run (Ok (strftime_gmtime svc w)) w [].
End Monad.

Arguments ret {value svc A} a.
Arguments raise {value svc A} e.
Arguments out_of_fuel {value svc A}.
Arguments bind {value svc A B} m k.
Arguments call {value svc} op.
Arguments invoke {value svc} data.
Arguments decode {value svc} b.
Arguments getitem {value svc} d key.
Arguments sleep {value svc} milliseconds.
Arguments print {value svc} o.
Arguments gmtime_stamp {value svc}.

Declare Scope cell_scope.
Delimit Scope cell_scope with cell.
Notation "x <- m ;; k" := (bind m (λ x, k))
  (at level 100, m at next level, right associativity) : cell_scope.
Notation "m ;; k" := (bind m (λ _, k))
  (at level 100, right associativity) : cell_scope.
Local Open Scope cell_scope.

Section Control.
Context {value : Type} {svc : Service value}.

(** [for index, x in enumerate(l): body], counting from [start]. *)
Fixpoint for_enumerate {A} (body : nat → A → M svc unit) (start : nat)
    (l : list A) : M svc unit :=
  match l with
  | [] => ret tt
  | x :: l' => body start x ;; for_enumerate body (S start) l'
  end.

(** [while cond(s): s = body(s)], cut off after [fuel] iterations. *)
Fixpoint while_ {S} (fuel : nat) (cond : S → bool) (body : S → M svc S)
    (s : S) : M svc S :=
  if cond s then
    match fuel with
    | 0 => out_of_fuel
    | S fuel' => s' <- body s ;; while_ fuel' cond body s'
    end
  else ret s.
End Control.

(** ** Reading a trace *)

Section Traces.
Context {value : Type}.

(** The control-plane requests, in the order they were issued. *)
Definition issued (t : list (event value)) : list api :=
  omap (λ ev, match ev with Call op _ => Some op | _ => None end) t.

(** The data handed to [predictor.predict], in order. *)
Definition submitted (t : list (event value)) : list (sample value) :=
  omap (λ ev, match ev with Predict data _ => Some data | _ => None end) t.

(** The raw responses the endpoint returned, in order. *)
Definition responses (t : list (event value)) : list bytes :=
  omap (λ ev, match ev with Predict _ (Returns b) => Some b | _ => None end) t.

(** The [(index, input, prediction)] triples printed, in order. *)
Definition triples (t : list (event value))
    : list (nat * sample value * option string) :=
  omap (λ ev, match ev with
              | Printed (SampleLine i x p) => Some (i, x, p)
              | _ => None
              end) t.

Definition sleeps (t : list (event value)) : list N :=
  omap (λ ev, match ev with Sleep ms => Some ms | _ => None end) t.

(** The answers to control-plane requests, in order. *)
Definition answers (t : list (event value)) : list (reply dict) :=
  omap (λ ev, match ev with Call _ r => Some r | _ => None end) t.
End Traces.

(** ** Python built-ins used by the cells *)

(** [sep.join(items)] *)
Fixpoint join (sep : string) (items : list string) : string :=
  match items with
  | [] => EmptyString
  | x :: rest =>
      match rest with
      | [] => x
      | _ :: _ => x +:+ sep +:+ join sep rest
      end
  end.

(** [s.split(sep)] for a one-character separator: the pieces between the
    occurrences of [sep], empty pieces included. *)
Fixpoint split_on (sep : Ascii.ascii) (s : string) : list string :=
  match s with
  | EmptyString => [EmptyString]
  | String c s' =>
      if decide (c = sep) then EmptyString :: split_on sep s'
      else match split_on sep s' with
           | [] => [String c EmptyString]
           | piece :: pieces => String c piece :: pieces
           end
  end.

(** [c in s] *)
Fixpoint has_char (c : Ascii.ascii) (s : string) : bool :=
  match s with
  | EmptyString => false
  | String a s' => bool_decide (a = c) || has_char c s'
  end.

(** The delimiter of the payload. *)
Definition comma : Ascii.ascii := Ascii.ascii_of_nat 44.

(** [l[start:stop]] for non-negative bounds. *)
Definition slice {A} (start stop : nat) (l : list A) : list A :=
  drop start (take stop l).

(** The effect of [random.shuffle(l)] in one run: the element that ends up
    at position [k] is the one that was at position [sigma !! k].  The
    random source picks [sigma], a permutation of the positions of [l]. *)
Definition shuffle {A} (sigma : list nat) (l : list A) : list A :=
  omap (λ i, l !! i) sigma.

(** The character [chr(34)], for the quoted names in status lines. *)
Definition dquote : string := String (Ascii.ascii_of_nat 34) EmptyString.

(** * The iris notebook (baseline traffic, then drifted traffic) *)

Module Iris.
Section Cells.
Context {value : Type} {svc : Service value}.

Definition endpoint_name : string := "third-party-model-endpoint".
Definition batch_size : nat := 15.

(** The body of the loop of the baseline cell. *)
Definition baseline_body (index : nat) (sample : list value) : M svc unit :=
  if bool_decide (0 < length sample) then
    response <- invoke (Row sample) ;;
    response <- decode response ;;
    print (SampleLine index (Row sample) (Some response)) ;;
    sleep 500%N
  else ret tt.

(** Cell "Generate baseline data to trigger 'No Issues'".  [samples] is
    [iris_df.values.tolist()] once the class column is gone; [sigma] is
    what [random.shuffle] draws. *)
Definition baseline (sigma : list nat) (samples : list (list value))
    : M svc unit :=
  let samples := drop 1 samples in
  let samples := shuffle sigma samples in
  for_enumerate baseline_body 0 (slice 0 batch_size samples) ;;
  print (Line "Completed!").

(** The body of the loop of the drift cell. *)
Definition drift_body (index : nat) (sample : string) : M svc unit :=
  if bool_decide (0 < String.length sample) then
    response <- invoke (Text sample) ;;
    response <- decode response ;;
    print (SampleLine index (Text sample) (Some response)) ;;
    sleep 500%N
  else ret tt.

(** Cell "Generate data to induce data quality constraint violations".
    [sample_drift_data] is the integer matrix that
    [np.random.uniform(...).astype('i')] produced; [astype(str)] renders
    each entry in decimal. *)
Definition drift (sample_drift_data : list (list Z)) : M svc unit :=
  let sample_drift_data :=
    (λ item, join "," item) <$> (fmap pretty <$> sample_drift_data) in
  for_enumerate drift_body 0 sample_drift_data ;;
  print (Line "Completed!").

(** Cell "Resource Cleanup" holds the five [aws sagemaker] shell commands
    of the teardown as comments only: there is nothing to run, so the
    cell has no program here. *)
End Cells.
End Iris.

(** * The marketplace notebook, oldest snapshot (SDK deploy) *)

Module Propensity.
Section Cells.
Context {value : Type} {svc : Service value}.

Definition MODEL_ENDPOINT : string := "propensity-model-endpoint".
Definition MODEL_ENDPOINT_CONFIG : string := "propensity-model-endpoint-config".
Definition MODEL_MONITOR_SCHEDULE_NAME : string :=
  "propensity-model-data-quality-schedule".

(** [def predict(sample)]; falling off the end returns [None]. *)
Definition predict (sample : list value) : M svc (option string) :=
  if bool_decide (0 < length sample) then
    response <- invoke (Row sample) ;;
    response <- decode response ;;
    ret (Some response)
  else ret None.

(** The body of the loop of the three violation cells. *)
Definition replay_body (index : nat) (sample : list value) : M svc unit :=
  response <- predict sample ;;
  sleep 500%N ;;
  print (SampleLine index (Row sample) response).

(** The loop shared by the three violation cells, over the slice the cell
    selects. *)
Definition replay (samples : list (list value)) : M svc unit :=
  for_enumerate replay_body 0 samples.

Definition data_type_check (samples : list (list value)) : M svc unit :=
  replay (slice 0 10 samples).

Definition completeness_check (samples : list (list value)) : M svc unit :=
  replay (slice 10 20 samples).

Definition baseline_drift_check (samples : list (list value)) : M svc unit :=
  replay (drop 20 samples).

(** "Cleanup Resources", two cells. *)
Definition cleanup : M svc unit :=
  print (Line "Stopping monitoring schedule...") ;;
  call (sm_stop_monitoring_schedule MODEL_MONITOR_SCHEDULE_NAME) ;;
  sleep 30000%N ;;
  call (sm_delete_monitoring_schedule MODEL_MONITOR_SCHEDULE_NAME) ;;
  call (sess_delete_endpoint MODEL_ENDPOINT) ;;
  call (sess_delete_endpoint_config MODEL_ENDPOINT_CONFIG) ;;
  call mp_delete_model ;;
  ret tt.
End Cells.
End Propensity.

(** * The marketplace notebook, boto3 snapshot (cells at top level) *)

Module ThirdParty.
Section Cells.
Context {value : Type} {svc : Service value}.

(** Cell "1.2 Globals". *)
Definition PREFIX : string := "third-party-model-seller-name".
Definition DATASETS : list string := ["baseline.csv"; "data_quality_drift.csv"].
Definition S3_DATA_CAPTURE_URI : string :=
  "s3://" +:+ BUCKET svc +:+ "/" +:+ PREFIX +:+ "/datacapture".
Definition S3_BASELINE_DATASET_URI : string :=
  "s3://" +:+ BUCKET svc +:+ "/" +:+ PREFIX +:+ "/train/" +:+ "baseline.csv".
Definition S3_BASELINE_ANALYSIS_RESULTS_URI : string :=
  "s3://" +:+ BUCKET svc +:+ "/" +:+ PREFIX +:+ "/baselining".
Definition S3_DATA_QUALITY_RPT_URI : string :=
  "s3://" +:+ BUCKET svc +:+ "/" +:+ PREFIX +:+ "/reports".
Definition MODEL_PACKAGE_ARN : string :=
  "arn:aws:sagemaker:us-east-1:865070037744:model-package/planning-to-buy-house-basic-28fcb3ca751705854a7171b255d8ef43".
Definition MODEL_NAME : string := "third-party-model".
Definition MODEL_ENDPOINT : string := "third-party-model-endpoint".
Definition MODEL_ENDPOINT_CONFIG : string := "third-party-model-endpoint-config".
Definition MODEL_BASELINE_JOB : string := "third-party-model-baseline-job".
Definition MODEL_MONITOR_SCHEDULE_NAME : string :=
  "third-party-model-data-quality-schedule".
Definition MODEL_MONITOR_INSTANCE_TYPE : string := "ml.m4.xlarge".
Definition MODEL_INFERENCE_INSTANCE_TYPE : string := "ml.m4.xlarge".
Definition MODEL_INSTANCE_COUNT : nat := 1.

(** Cells "2.1 Create the model": the call, then the line with the ARN. *)
Definition create_model_cells : M svc string :=
  response <- call (sm_create_model MODEL_NAME MODEL_PACKAGE_ARN (role svc) true) ;;
  arn <- getitem response "ModelArn" ;;
  print (Line (">> The ARN of the model is: " +:+ arn)) ;;
  ret arn.

Definition product_variant_params : production_variant :=
  {| VariantName := "AllTraffic";
     ModelName := MODEL_NAME;
     InitialInstanceCount := MODEL_INSTANCE_COUNT;
     InstanceType := MODEL_INFERENCE_INSTANCE_TYPE |}.

Definition data_capture_params : data_capture_config :=
  {| EnableCapture := true;
     InitialSamplingPercentage := 100;
     DestinationS3Uri := S3_DATA_CAPTURE_URI;
     CaptureOptions := ["Input"; "Output"];
     CsvContentTypes := ["text/csv"] |}.

(** Cells "2.2 Create the endpoint configuration with DataCapture". *)
Definition create_endpoint_config_cells : M svc string :=
  response <- call (sm_create_endpoint_config MODEL_ENDPOINT_CONFIG
                      [product_variant_params] data_capture_params) ;;
  arn <- getitem response "EndpointConfigArn" ;;
  print (Line (">> The ARN of the endpoint config is: " +:+ arn)) ;;
  ret arn.

(** Cells "2.3 Create the model endpoint". *)
Definition create_endpoint_cells : M svc string :=
  response <- call (sm_create_endpoint MODEL_ENDPOINT MODEL_ENDPOINT_CONFIG) ;;
  arn <- getitem response "EndpointArn" ;;
  print (Line (">> The ARN of the endpoint is: " +:+ arn)) ;;
  ret arn.

(** Sections 2.1 to 2.3 run one after the other. *)
Definition provision : M svc (string * string * string) :=
  model_arn <- create_model_cells ;;
  endpoint_config_arn <- create_endpoint_config_cells ;;
  endpoint_arn <- create_endpoint_cells ;;
  ret (model_arn, endpoint_config_arn, endpoint_arn).

(** The condition and the body of the loop of cell 2.4. *)
Definition still_creating (model_endpoint_status : string) : bool :=
  bool_decide (model_endpoint_status = "Creating").

Definition endpoint_poll_body (_ : string) : M svc string :=
  sleep 45000%N ;;
  response <- call (sm_describe_endpoint MODEL_ENDPOINT) ;;
  model_endpoint_status <- getitem response "EndpointStatus" ;;
  print (Line (">> The current status of model endpoint " +:+ dquote
               +:+ MODEL_ENDPOINT +:+ dquote +:+ " is "
               +:+ model_endpoint_status)) ;;
  ret model_endpoint_status.

(** Cell "2.4 Periodically check if the model's endpoint has changed from
    'Creating' to 'InService'".  The value is [model_endpoint_status] as
    the cell leaves it. *)
Definition wait_for_endpoint (fuel : nat) : M svc string :=
  response <- call (sm_describe_endpoint MODEL_ENDPOINT) ;;
  model_endpoint_status <- getitem response "EndpointStatus" ;;
  while_ fuel still_creating endpoint_poll_body model_endpoint_status.

(** Cell "3.1 Create a baselining job". *)
Definition baselining_job : M svc string :=
  stamp <- gmtime_stamp ;;
  let job_name := MODEL_BASELINE_JOB +:+ "-" +:+ stamp in
  call (dmm_suggest_baseline job_name S3_BASELINE_DATASET_URI
          S3_BASELINE_ANALYSIS_RESULTS_URI true false) ;;
  call (dmm_job_wait false) ;;
  ret job_name.

(** Cells "4.1 Create a monitoring schedule".  [hourly] is what
    [CronExpressionGenerator.hourly()] evaluates to. *)
Definition monitoring_schedule (hourly : string) : M svc unit :=
  statistics <- call dmm_baseline_statistics ;;
  constraints <- call dmm_suggested_constraints ;;
  call (dmm_create_monitoring_schedule MODEL_MONITOR_SCHEDULE_NAME
          MODEL_ENDPOINT S3_DATA_QUALITY_RPT_URI statistics constraints
          hourly) ;;
  sleep 30000%N ;;
  response <- call dmm_describe_schedule ;;
  monitor_schedule_details <- getitem response "MonitoringScheduleStatus" ;;
  print (Line (">> The current status of monitoring schedule " +:+ dquote
               +:+ MODEL_MONITOR_SCHEDULE_NAME +:+ dquote +:+ " is "
               +:+ monitor_schedule_details)).

(** Sections 2.4 and 3.1 run one after the other. *)
Definition wait_then_baseline (fuel : nat) : M svc string :=
  wait_for_endpoint fuel ;;
  baselining_job.

(** [def predict(sample, delay=0.5)] *)
Definition predict (sample : list value) (delay : N) : M svc (option string) :=
  if bool_decide (0 < length sample) then
    response <- invoke (Row sample) ;;
    response <- decode response ;;
    sleep delay ;;
    ret (Some response)
  else ret None.

(** The body of the inner loop of cell 5.2. *)
Definition replay_body (index : nat) (sample : list value) : M svc unit :=
  response <- predict sample 500%N ;;
  print (SampleLine index (Row sample) response).

(** The inner loop of cell "5.2 Create data quality constraint
    violations", over the rows read from the drift file. *)
Definition replay (samples : list (list value)) : M svc unit :=
  for_enumerate replay_body 0 samples.

(** "Cleanup Resources", steps 1 to 5. *)
Definition cleanup_step1 : M svc unit :=
  print (Line "Stopping monitoring schedule...") ;;
  call (sm_stop_monitoring_schedule MODEL_MONITOR_SCHEDULE_NAME) ;;
  sleep 30000%N ;;
  print (Line "Listing monitoring schedules") ;;
  call (sm_list_monitoring_schedules MODEL_ENDPOINT) ;;
  ret tt.

Definition cleanup_step2 : M svc unit :=
  print (Line "Deleting monitoring schedule...") ;;
  call (sm_delete_monitoring_schedule MODEL_MONITOR_SCHEDULE_NAME) ;;
  sleep 30000%N ;;
  print (Line "Listing monitoring schedules") ;;
  call (sm_list_monitoring_schedules MODEL_ENDPOINT) ;;
  ret tt.

Definition cleanup_step3 : M svc unit :=
  print (Line "Deleting model endpoint...") ;;
  call (sm_delete_endpoint MODEL_ENDPOINT) ;;
  sleep 30000%N ;;
  print (Line "Listing model endpoints") ;;
  call (sm_list_endpoints MODEL_ENDPOINT) ;;
  ret tt.

Definition cleanup_step4 : M svc unit :=
  print (Line "Deleting model endpoint config...") ;;
  call (sm_delete_endpoint_config MODEL_ENDPOINT_CONFIG) ;;
  sleep 30000%N ;;
  print (Line "Listing model endpoint configs") ;;
  call (sm_list_endpoint_configs MODEL_ENDPOINT_CONFIG) ;;
  ret tt.

Definition cleanup_step5 : M svc unit :=
  print (Line "Deleting model...") ;;
  call (sm_delete_model MODEL_NAME) ;;
  sleep 30000%N ;;
  print (Line "Listing models") ;;
  call (sm_list_models MODEL_NAME) ;;
  ret tt.

Definition cleanup : M svc unit :=
  cleanup_step1 ;; cleanup_step2 ;; cleanup_step3 ;; cleanup_step4 ;;
  cleanup_step5.
End Cells.
End ThirdParty.

(** * The marketplace notebook, latest snapshot (cells wrapped in functions)

    The cells of this snapshot read their configuration from the global
    names of the kernel, and its globals cell stops before it has bound
    most of them: it computes [S3_BASELINE_DATASET_URI] from a name,
    [TRAINING_KEYS], that no cell defines.  So the cells below take the
    kernel's names as they are, bound or not. *)

Module ThirdParty2.

(** [session.default_bucket()] *)
Definition default_bucket {value} (svc : Service value) : string := BUCKET svc.

(** The global names of the kernel that the cells of this snapshot read or
    bind.  A name is unbound ([None]) or holds a value.  The notebook
    binds each of them in one place only, so a bound name holds a value
    of the type that place gives it.  [TRAINING_KEYS] is read by the
    globals cell and bound by no cell: it is bound only when it was bound
    by hand, and then, as its use and its sibling [DATASETS] suggest, to
    a list of file names.  [default_model_monitor] is bound by the
    calling cell of section 3.1 when it ends normally (the object itself
    is the [dmm_] handle of the service); the others are bound by the
    globals cell. *)
Record namespace : Type := Namespace {
  BUCKET : option string;
  PREFIX : option string;
  DATASETS : option (list string);
  TRAINING_KEYS : option (list string);
  S3_DATA_CAPTURE_URI : option string;
  S3_BASELINE_DATASET_URI : option string;
  S3_BASELINE_ANALYSIS_RESULTS_URI : option string;
  S3_DATA_QUALITY_RPT_URI : option string;
  MODEL_PACKAGE_ARN : option string;
  MODEL_NAME : option string;
  MODEL_ENDPOINT : option string;
  MODEL_ENDPOINT_CONFIG : option string;
  MODEL_BASELINE_JOB : option string;
  MODEL_MONITOR_SCHEDULE_NAME : option string;
  MODEL_MONITOR_INSTANCE_TYPE : option string;
  MODEL_INFERENCE_INSTANCE_TYPE : option string;
  MODEL_INSTANCE_COUNT : option nat;
  TRAINING_DATASET_URI : option string;
  default_model_monitor : option unit
}.

(** The kernel before the globals cell has run: none of the names is
    bound. *)
Definition fresh : namespace :=
  {| BUCKET := None; PREFIX := None; DATASETS := None; TRAINING_KEYS := None;
     S3_DATA_CAPTURE_URI := None; S3_BASELINE_DATASET_URI := None;
     S3_BASELINE_ANALYSIS_RESULTS_URI := None;
     S3_DATA_QUALITY_RPT_URI := None; MODEL_PACKAGE_ARN := None;
     MODEL_NAME := None; MODEL_ENDPOINT := None;
     MODEL_ENDPOINT_CONFIG := None; MODEL_BASELINE_JOB := None;
     MODEL_MONITOR_SCHEDULE_NAME := None;
     MODEL_MONITOR_INSTANCE_TYPE := None;
     MODEL_INFERENCE_INSTANCE_TYPE := None; MODEL_INSTANCE_COUNT := None;
     TRAINING_DATASET_URI := None; default_model_monitor := None |}.

(** A fresh kernel in which [TRAINING_KEYS] was bound by hand. *)
Definition with_training_keys (keys : list string) : namespace :=
  {| BUCKET := None; PREFIX := None; DATASETS := None;
     TRAINING_KEYS := Some keys;
     S3_DATA_CAPTURE_URI := None; S3_BASELINE_DATASET_URI := None;
     S3_BASELINE_ANALYSIS_RESULTS_URI := None;
     S3_DATA_QUALITY_RPT_URI := None; MODEL_PACKAGE_ARN := None;
     MODEL_NAME := None; MODEL_ENDPOINT := None;
     MODEL_ENDPOINT_CONFIG := None; MODEL_BASELINE_JOB := None;
     MODEL_MONITOR_SCHEDULE_NAME := None;
     MODEL_MONITOR_INSTANCE_TYPE := None;
     MODEL_INFERENCE_INSTANCE_TYPE := None; MODEL_INSTANCE_COUNT := None;
     TRAINING_DATASET_URI := None; default_model_monitor := None |}.

Definition is_bound {A} (binding : option A) : bool :=
  match binding with Some _ => true | None => false end.

(** The names, each with whether it is bound. *)
Definition bindings (g : namespace) : list (string * bool) :=
  [("BUCKET", is_bound (BUCKET g));
   ("PREFIX", is_bound (PREFIX g));
   ("DATASETS", is_bound (DATASETS g));
   ("TRAINING_KEYS", is_bound (TRAINING_KEYS g));
   ("S3_DATA_CAPTURE_URI", is_bound (S3_DATA_CAPTURE_URI g));
   ("S3_BASELINE_DATASET_URI", is_bound (S3_BASELINE_DATASET_URI g));
   ("S3_BASELINE_ANALYSIS_RESULTS_URI",
    is_bound (S3_BASELINE_ANALYSIS_RESULTS_URI g));
   ("S3_DATA_QUALITY_RPT_URI", is_bound (S3_DATA_QUALITY_RPT_URI g));
   ("MODEL_PACKAGE_ARN", is_bound (MODEL_PACKAGE_ARN g));
   ("MODEL_NAME", is_bound (MODEL_NAME g));
   ("MODEL_ENDPOINT", is_bound (MODEL_ENDPOINT g));
   ("MODEL_ENDPOINT_CONFIG", is_bound (MODEL_ENDPOINT_CONFIG g));
   ("MODEL_BASELINE_JOB", is_bound (MODEL_BASELINE_JOB g));
   ("MODEL_MONITOR_SCHEDULE_NAME", is_bound (MODEL_MONITOR_SCHEDULE_NAME g));
   ("MODEL_MONITOR_INSTANCE_TYPE", is_bound (MODEL_MONITOR_INSTANCE_TYPE g));
   ("MODEL_INFERENCE_INSTANCE_TYPE",
    is_bound (MODEL_INFERENCE_INSTANCE_TYPE g));
   ("MODEL_INSTANCE_COUNT", is_bound (MODEL_INSTANCE_COUNT g));
   ("TRAINING_DATASET_URI", is_bound (TRAINING_DATASET_URI g));
   ("default_model_monitor", is_bound (default_model_monitor g))].

(** The names that are not bound. *)
Definition unbound (g : namespace) : list string :=
  (filter (λ b, b.2 = false) (bindings g)).*1.

Section Cells.
Context {value : Type} {svc : Service value}.

(** Cell "1.2 Globals", the cell of the assignments.  The first four are
    made; the fifth reads [TRAINING_KEYS[0]] and the cell stops there
    when the name is not bound or the list is empty, leaving every later
    name as it was. *)
Definition globals_cell (g : namespace) : outcome unit * namespace :=
  let bucket := default_bucket svc in
  let prefix := "third-party-model-seller-name" in
  let s3_data_capture_uri :=
    "s3://" +:+ bucket +:+ "/" +:+ prefix +:+ "/datacapture" in
  let stopped :=
    {| BUCKET := Some bucket;
       PREFIX := Some prefix;
       DATASETS := Some ["train.csv"; "datadrift.csv"];
       TRAINING_KEYS := TRAINING_KEYS g;
       S3_DATA_CAPTURE_URI := Some s3_data_capture_uri;
       S3_BASELINE_DATASET_URI := S3_BASELINE_DATASET_URI g;
       S3_BASELINE_ANALYSIS_RESULTS_URI := S3_BASELINE_ANALYSIS_RESULTS_URI g;
       S3_DATA_QUALITY_RPT_URI := S3_DATA_QUALITY_RPT_URI g;
       MODEL_PACKAGE_ARN := MODEL_PACKAGE_ARN g;
       MODEL_NAME := MODEL_NAME g;
       MODEL_ENDPOINT := MODEL_ENDPOINT g;
       MODEL_ENDPOINT_CONFIG := MODEL_ENDPOINT_CONFIG g;
       MODEL_BASELINE_JOB := MODEL_BASELINE_JOB g;
       MODEL_MONITOR_SCHEDULE_NAME := MODEL_MONITOR_SCHEDULE_NAME g;
       MODEL_MONITOR_INSTANCE_TYPE := MODEL_MONITOR_INSTANCE_TYPE g;
       MODEL_INFERENCE_INSTANCE_TYPE := MODEL_INFERENCE_INSTANCE_TYPE g;
       MODEL_INSTANCE_COUNT := MODEL_INSTANCE_COUNT g;
       TRAINING_DATASET_URI := TRAINING_DATASET_URI g;
       default_model_monitor := default_model_monitor g |} in
  match TRAINING_KEYS g with
  | None => (Raise (NameError "TRAINING_KEYS"), stopped)
  | Some [] => (Raise IndexError, stopped)
  | Some (key :: _) =>
      (Ok tt,
       {| BUCKET := Some bucket;
          PREFIX := Some prefix;
          DATASETS := Some ["train.csv"; "datadrift.csv"];
          TRAINING_KEYS := TRAINING_KEYS g;
          S3_DATA_CAPTURE_URI := Some s3_data_capture_uri;
          S3_BASELINE_DATASET_URI :=
            Some ("s3://" +:+ bucket +:+ "/" +:+ prefix +:+ "/train/" +:+ key);
          S3_BASELINE_ANALYSIS_RESULTS_URI :=
            Some ("s3://" +:+ bucket +:+ "/" +:+ prefix +:+ "/baselining");
          S3_DATA_QUALITY_RPT_URI :=
            Some ("s3://" +:+ bucket +:+ "/" +:+ prefix +:+ "/reports");
          MODEL_PACKAGE_ARN :=
            Some "arn:aws:sagemaker:us-east-1:865070037744:model-package/planning-to-buy-house-basic-28fcb3ca751705854a7171b255d8ef43";
          MODEL_NAME := Some "third-party-model-2";
          MODEL_ENDPOINT := Some "third-party-model-endpoint-2";
          MODEL_ENDPOINT_CONFIG := Some "third-party-model-endpoint-config-2";
          MODEL_BASELINE_JOB := Some "third-party-model-baseline-job-2";
          MODEL_MONITOR_SCHEDULE_NAME :=
            Some "third-party-model-data-quality-schedule-2";
          MODEL_MONITOR_INSTANCE_TYPE := Some "ml.m4.xlarge";
          MODEL_INFERENCE_INSTANCE_TYPE := Some "ml.m4.xlarge";
          MODEL_INSTANCE_COUNT := Some 1;
          TRAINING_DATASET_URI :=
            Some "https://raw.githubusercontent.com/william-screen/model-monitor/main/third-party-models/prosper/data";
          default_model_monitor := default_model_monitor g |})
  end.

(** Reading the global [name]: its value, or [NameError] when it is not
    bound. *)
Definition global {A} (name : string) (binding : option A) : M svc A :=
  match binding with
  | Some v => ret v
  | None => raise (NameError name)
  end.

Definition create_model (model_name model_package_name execution_role : string)
    : M svc string :=
  response <- call (sm_create_model model_name model_package_name
                      execution_role true) ;;
  response <- getitem response "ModelArn" ;;
  ret response.

(** [MODEL_INSTANCE_COUNT] and [MODEL_INFERENCE_INSTANCE_TYPE] are read
    in the body, when the first dictionary is built. *)
Definition create_model_endpoint_config (g : namespace)
    (enpoint_config_name model_name s3_data_catpure_uri : string)
    (int_sampling_pct : nat) : M svc string :=
  initial_instance_count <-
    global "MODEL_INSTANCE_COUNT" (MODEL_INSTANCE_COUNT g) ;;
  instance_type <-
    global "MODEL_INFERENCE_INSTANCE_TYPE" (MODEL_INFERENCE_INSTANCE_TYPE g) ;;
  let product_variant_params :=
    {| VariantName := "AllTraffic";
       ModelName := model_name;
       InitialInstanceCount := initial_instance_count;
       InstanceType := instance_type |} in
  let data_capture_params :=
    {| EnableCapture := true;
       InitialSamplingPercentage := int_sampling_pct;
       DestinationS3Uri := s3_data_catpure_uri;
       CaptureOptions := ["Input"; "Output"];
       CsvContentTypes := ["text/csv"] |} in
  response <- call (sm_create_endpoint_config enpoint_config_name
                      [product_variant_params] data_capture_params) ;;
  response <- getitem response "EndpointConfigArn" ;;
  ret response.

Definition create_model_endpoint (enpoint_name enpoint_config_name : string)
    : M svc string :=
  response <- call (sm_create_endpoint enpoint_name enpoint_config_name) ;;
  response <- getitem response "EndpointArn" ;;
  ret response.

(** The three calling cells of sections 2.1 to 2.3, in order; each reads
    its arguments from the globals, left to right, before it calls. *)
Definition provision (g : namespace) : M svc (string * string * string) :=
  model_name <- global "MODEL_NAME" (MODEL_NAME g) ;;
  model_package_name <- global "MODEL_PACKAGE_ARN" (MODEL_PACKAGE_ARN g) ;;
  model_arn <- create_model model_name model_package_name (role svc) ;;
  print (Line (">> The ARN of the model is: " +:+ model_arn)) ;;
  enpoint_config_name <-
    global "MODEL_ENDPOINT_CONFIG" (MODEL_ENDPOINT_CONFIG g) ;;
  model_name <- global "MODEL_NAME" (MODEL_NAME g) ;;
  s3_data_catpure_uri <-
    global "S3_DATA_CAPTURE_URI" (S3_DATA_CAPTURE_URI g) ;;
  endpoint_config_arn <-
    create_model_endpoint_config g enpoint_config_name model_name
      s3_data_catpure_uri 100 ;;
  print (Line (">> The ARN of the endpoint config is: " +:+ endpoint_config_arn)) ;;
  enpoint_name <- global "MODEL_ENDPOINT" (MODEL_ENDPOINT g) ;;
  enpoint_config_name <-
    global "MODEL_ENDPOINT_CONFIG" (MODEL_ENDPOINT_CONFIG g) ;;
  endpoint_arn <- create_model_endpoint enpoint_name enpoint_config_name ;;
  print (Line (">> The ARN of the endpoint is: " +:+ endpoint_arn)) ;;
  ret (model_arn, endpoint_config_arn, endpoint_arn).

(** The condition and the body of the loop of cell 3.2. *)
Definition still_in_progress (processing_job_status : string) : bool :=
  bool_decide (processing_job_status = "InProgress").

Definition job_poll_body (job_name : string) (_ : string) : M svc string :=
  sleep 45000%N ;;
  response <- call (sm_describe_processing_job job_name) ;;
  processing_job_status <- getitem response "ProcessingJobStatus" ;;
  print (Line (">> The current status of processing_job " +:+ dquote
               +:+ job_name +:+ dquote +:+ " is "
               +:+ processing_job_status)) ;;
  ret processing_job_status.

(** Cell "3.2 Periodically check if the baseline processing job has
    changed from 'InProgress' to 'Completed'"; [job_name] is the name
    [create_baselining_job] returned. *)
Definition wait_for_processing_job (job_name : string) (fuel : nat)
    : M svc string :=
  response <- call (sm_describe_processing_job job_name) ;;
  processing_job_status <- getitem response "ProcessingJobStatus" ;;
  while_ fuel still_in_progress (job_poll_body job_name)
    processing_job_status.

(** [def create_monitoring_schedule(default_model_monitor, monitor_schedule_name)];
    the keyword arguments are evaluated in the order they are written, so
    the two globals are read before the two artifacts are fetched. *)
Definition create_monitoring_schedule (g : namespace)
    (hourly monitor_schedule_name : string) : M svc unit :=
  endpoint_input <- global "MODEL_ENDPOINT" (MODEL_ENDPOINT g) ;;
  output_s3_uri <-
    global "S3_DATA_QUALITY_RPT_URI" (S3_DATA_QUALITY_RPT_URI g) ;;
  statistics <- call dmm_baseline_statistics ;;
  constraints <- call dmm_suggested_constraints ;;
  call (dmm_create_monitoring_schedule monitor_schedule_name endpoint_input
          output_s3_uri statistics constraints hourly) ;;
  ret tt.

(** The calling cell of section 4.1. *)
Definition monitoring_schedule (g : namespace) (hourly : string)
    : M svc unit :=
  global "default_model_monitor" (default_model_monitor g) ;;
  monitor_schedule_name <-
    global "MODEL_MONITOR_SCHEDULE_NAME" (MODEL_MONITOR_SCHEDULE_NAME g) ;;
  create_monitoring_schedule g hourly monitor_schedule_name ;;
  sleep 30000%N ;;
  global "default_model_monitor" (default_model_monitor g) ;;
  response <- call dmm_describe_schedule ;;
  monitor_schedule_details <- getitem response "MonitoringScheduleStatus" ;;
  monitor_schedule_name <-
    global "MODEL_MONITOR_SCHEDULE_NAME" (MODEL_MONITOR_SCHEDULE_NAME g) ;;
  print (Line (">> The current status of monitoring schedule " +:+ dquote
               +:+ monitor_schedule_name +:+ dquote +:+ " is "
               +:+ monitor_schedule_details)).

(** Sections 3.2 and 4.1 run one after the other. *)
Definition wait_then_schedule (g : namespace) (hourly job_name : string)
    (fuel : nat) : M svc unit :=
  wait_for_processing_job job_name fuel ;;
  monitoring_schedule g hourly.

(** [def predict(sample, delay=0.5)] *)
Definition predict (sample : list value) (delay : N) : M svc (option string) :=
  if bool_decide (0 < length sample) then
    response <- invoke (Row sample) ;;
    response <- decode response ;;
    sleep delay ;;
    ret (Some response)
  else ret None.

(** The body of the loop of cell 5.2. *)
Definition replay_body (index : nat) (sample : list value) : M svc unit :=
  response <- predict sample 500%N ;;
  print (SampleLine index (Row sample) response).

(** The loop of cell "5.2 Create a data quality constraint violations". *)
Definition replay (samples : list (list value)) : M svc unit :=
  for_enumerate replay_body 0 samples.
End Cells.
End ThirdParty2.

(** * Vocabulary for the statements about replay loops *)

(** A sample the zero-length guard lets through. *)
Definition nonempty {value} (s : sample value) : Prop := 0 < len s.

Global Instance nonempty_dec {value} (s : sample value) : Decision (nonempty s).
Proof. unfold nonempty. apply _. Defined.

(** The printed triples whose input is non-empty. *)
Definition keyed {value} (t : list (event value))
    : list (nat * sample value * option string) :=
  filter (λ tr, nonempty tr.1.2) (triples t).

(** The non-empty rows of [l] with their positions, counted from [start],
    in the order of [l]; [data] is how the loop hands a row to [predict]. *)
Definition rows_in_order {value A} (data : A → sample value) (start : nat)
    (l : list A) : list (nat * sample value) :=
  filter (λ ix, nonempty ix.2) (imap (λ i x, (start + i, data x)) l).

(** The common shape of every loop body in the notebooks: behind the guard,
    one invocation, its decoding, and then [tail]; [skip] when the guard
    fails.  Each body is proved equal to an instance of it below. *)
Definition guarded {value} {svc : Service value} {A}
    (data : A → sample value)
    (tail : nat → A → string → list (event value))
    (skip : nat → A → list (event value))
    (i : nat) (x : A) : M svc unit := λ w,
  if decide (nonempty (data x)) then
    match predictor_predict svc (data x) w with
    | (Returns b, w') =>
        match decode_utf8 svc b with
        | Some p => Run (Ok tt) w' (Predict (data x) (Returns b) :: tail i x p)
        | None => Run (Raise UnicodeDecodeError) w' [Predict (data x) (Returns b)]
        end
    | (Raises e, w') => Run (Raise e) w' [Predict (data x) (Raises e)]
    end
  else Run (Ok tt) w (skip i x).

Definition iris_tail {value A} (data : A → sample value) (i : nat) (x : A)
    (p : string) : list (event value) :=
  [Printed (SampleLine i (data x) (Some p)); Sleep 500].

Definition propensity_tail {value} (i : nat) (x : list value) (p : string)
    : list (event value) :=
  [Sleep 500; Printed (SampleLine i (Row x) (Some p))].

Definition propensity_skip {value} (i : nat) (x : list value)
    : list (event value) :=
  [Sleep 500; Printed (SampleLine i (Row x) None)].

Definition third_party_skip {value} (i : nat) (x : list value)
    : list (event value) :=
  [Printed (SampleLine i (Row x) None)].

(** * Vocabulary for the statements about polling *)

(** The statuses a cell read under [key], in the order it read them. *)
Definition observed {value} (key : string) (t : list (event value))
    : list string :=
  omap (λ r, match r with Returns d => d !! key | Raises _ => None end)
       (answers t).

(** The common shape of the two polling cells: the request [op], the field
    [key] of its answer, the value [in_progress] that keeps the loop going
    and the status line [line].  Each cell is an instance of it (by
    unfolding), see [wait_for_endpoint_poll] and
    [wait_for_processing_job_poll]. *)
Definition poll_body {value} {svc : Service value} (op : api) (key : string)
    (line : string → string) (_ : string) : M svc string :=
  (sleep 45000%N ;;
   response <- call op ;;
   status <- getitem response key ;;
   print (Line (line status)) ;;
   ret status)%cell.

Definition poll {value} {svc : Service value} (op : api)
    (key in_progress : string) (line : string → string) (fuel : nat)
    : M svc string :=
  (response <- call op ;;
   status <- getitem response key ;;
   while_ fuel (λ status, bool_decide (status = in_progress))
     (poll_body op key line) status)%cell.

(** The service answers [in_progress] to [k] status requests in a row and
    [status], some other value, to the next; [w'] is the world after that
    last answer. *)
Inductive settles {value} (svc : Service value) (op : api)
    (key in_progress : string)
    : nat → World svc → string → World svc → Prop :=
  | settles_now w d w' status :
      control svc op w = (Returns d, w') →
      d !! key = Some status →
      status ≠ in_progress →
      settles svc op key in_progress 0 w status w'
  | settles_later k w d w' status w'' :
      control svc op w = (Returns d, w') →
      d !! key = Some in_progress →
      settles svc op key in_progress k w' status w'' →
      settles svc op key in_progress (S k) w status w''.

(** * Vocabulary for the statements about provisioning and teardown *)

(** The requests that stop or delete a resource. *)
Definition tears_down (op : api) : bool :=
  match op with
  | sm_stop_monitoring_schedule _ | sm_delete_monitoring_schedule _
  | sm_delete_endpoint _ | sm_delete_endpoint_config _ | sm_delete_model _
  | sess_delete_endpoint _ | sess_delete_endpoint_config _ | mp_delete_model =>
      true
  | _ => false
  end.

(** The requests and the sleeps of a trace, in order; answers and printed
    lines left out. *)
Definition timeline {value} (t : list (event value)) : list (api + N) :=
  omap (λ ev, match ev with
              | Call op _ => Some (inl op)
              | Sleep ms => Some (inr ms)
              | _ => None
              end) t.

(** C1 as the spec words it: the inputs of the printed triples are the
    non-empty rows of the dataset, in dataset order. *)
Definition replays_dataset_in_order {value} (samples : list (list value))
    (t : list (event value)) : Prop :=
  (triples t).*1.*2 = filter nonempty (Row <$> samples).

(** * A small service to run the cells against

    Its world counts the calls made so far.  Status requests answer the
    in-progress value until the call numbered [settle], then [final]; the
    call numbered [fail_at], if any, raises. *)

Definition demo_answer (settle : nat) (final : string) (op : api) (w : nat)
    : dict :=
  match op with
  | sm_create_model _ _ _ _ => {[ "ModelArn" := "arn:model" ]}
  | sm_create_endpoint_config _ _ _ =>
      {[ "EndpointConfigArn" := "arn:endpoint-config" ]}
  | sm_create_endpoint _ _ => {[ "EndpointArn" := "arn:endpoint" ]}
  | sm_describe_endpoint _ =>
      {[ "EndpointStatus" := if bool_decide (w < settle) then "Creating" else final ]}
  | sm_describe_processing_job _ =>
      {[ "ProcessingJobStatus" :=
           if bool_decide (w < settle) then "InProgress" else final ]}
  | dmm_describe_schedule => {[ "MonitoringScheduleStatus" := "Scheduled" ]}
  | _ => ∅
  end.

Definition demo_control (fail_at : option nat) (settle : nat) (final : string)
    (op : api) (w : nat) : reply dict * nat :=
  if bool_decide (fail_at = Some w)
  then (Raises (ClientError "ServiceUnavailable"), S w)
  else (Returns (demo_answer settle final op w), S w).

(** The endpoint answers [b"ok"] to everything. *)
Definition demo_predict (fail_at : option nat) (data : sample Z) (w : nat)
    : reply bytes * nat :=
  if bool_decide (fail_at = Some w)
  then (Raises (ClientError "ServiceUnavailable"), S w)
  else (Returns [Byte.x6f; Byte.x6b], S w).

Definition demo (fail_at : option nat) (settle : nat) (final : string)
    : Service Z :=
  {| World := nat;
     control := demo_control fail_at settle final;
     predictor_predict := demo_predict fail_at;
     decode_utf8 := λ b, Some (String.string_of_list_byte b);
     strftime_gmtime := λ _, "2021-03-01-12-00-00";
     role := "arn:aws:iam::000000000000:role/notebook";
     BUCKET := "sagemaker-us-east-1-000000000000" |}.

(** A service that never fails and whose resources are ready at once. *)
Definition calm : Service Z := demo None 0 "InService".

(** A service that never fails and never finishes a deletion: every
    listing answers that the resource asked about is still there. *)
Definition lingering_answer (op : api) : dict :=
  match op with
  | sm_list_monitoring_schedules _ =>
      {[ "MonitoringScheduleSummaries" :=
           "third-party-model-data-quality-schedule" ]}
  | sm_list_endpoints name_contains => {[ "Endpoints" := name_contains ]}
  | sm_list_endpoint_configs name_contains =>
      {[ "EndpointConfigs" := name_contains ]}
  | sm_list_models name_contains => {[ "Models" := name_contains ]}
  | _ => ∅
  end.

Definition lingering : Service Z :=
  {| World := nat;
     control := λ op w, (Returns (lingering_answer op), S w);
     predictor_predict := demo_predict None;
     decode_utf8 := λ b, Some (String.string_of_list_byte b);
     strftime_gmtime := λ _, "2021-03-01-12-00-00";
     role := "arn:aws:iam::000000000000:role/notebook";
     BUCKET := "sagemaker-us-east-1-000000000000" |}.

(** The ten drifted rows of the recorded run of the iris notebook. *)
Definition recorded_drift : list (list Z) :=
  [[2; 4; 1; -3]; [0; 0; -4; 3]; [-4; 2; -4; 2]; [4; -4; -3; -3];
   [2; -2; 2; 3]; [1; -4; 3; -4]; [2; -1; 4; 0]; [2; -3; -4; -1];
   [3; -3; 2; 1]; [1; 0; -2; 4]]%Z.

(** [zip( *columns)], as the cells that read the drift file use it to turn
    the columns of the frame into rows: one row per step, made of the next
    entry of every column, until some column has no next entry; no rows
    when there is no column.  [n] bounds the number of steps. *)
Fixpoint zip_rows {A} (n : nat) (columns : list (list A)) : list (list A) :=
  match n with
  | 0 => []
  | S n' =>
      match mapM head columns with
      | Some row => row :: zip_rows n' (tail <$> columns)
      | None => []
      end
  end.

Definition zip_star {A} (columns : list (list A)) : list (list A) :=
  match columns with
  | [] => []
  | first :: _ => zip_rows (length first) columns
  end.

(** * Cells run one after the other *)

(** The three violation cells of the oldest snapshot, in notebook order:
    rows 0 to 9, rows 10 to 19, the rows from 20 on. *)
Module Violations.
Section Cells.
Context {value : Type} {svc : Service value}.

Definition run_all (samples : list (list value)) : M svc unit :=
  Propensity.data_type_check samples ;;
  Propensity.completeness_check samples ;;
  Propensity.baseline_drift_check samples.
End Cells.
End Violations.

(** The baselining job of the latest snapshot. *)
Module Baselining.
Section Cells.
Context {value : Type} {svc : Service value}.

(** [def create_baselining_job(job_name, wait_for_job_finish=False, show_logs=False)].
    The body reads four globals: two when it builds the monitor object,
    two when it submits the job, after the time stamp is taken.  Of the
    pair it returns, the monitor object is the [dmm_] handle of the
    service and the job name is the value. *)
Definition create_baselining_job (g : ThirdParty2.namespace)
    (job_name : string) (wait_for_job_finish show_logs : bool)
    : M svc string :=
  instance_count <-
    ThirdParty2.global "MODEL_INSTANCE_COUNT"
      (ThirdParty2.MODEL_INSTANCE_COUNT g) ;;
  instance_type <-
    ThirdParty2.global "MODEL_MONITOR_INSTANCE_TYPE"
      (ThirdParty2.MODEL_MONITOR_INSTANCE_TYPE g) ;;
  stamp <- gmtime_stamp ;;
  let job_name := job_name +:+ "-" +:+ stamp in
  baseline_dataset <-
    ThirdParty2.global "S3_BASELINE_DATASET_URI"
      (ThirdParty2.S3_BASELINE_DATASET_URI g) ;;
  output_s3_uri <-
    ThirdParty2.global "S3_BASELINE_ANALYSIS_RESULTS_URI"
      (ThirdParty2.S3_BASELINE_ANALYSIS_RESULTS_URI g) ;;
  call (dmm_suggest_baseline job_name baseline_dataset output_s3_uri
          wait_for_job_finish show_logs) ;;
  ret job_name.

(** The calling cell of section 3.1; when it ends normally it binds
    [default_model_monitor] and [job_name]. *)
Definition baselining_job (g : ThirdParty2.namespace) : M svc string :=
  job_name <-
    ThirdParty2.global "MODEL_BASELINE_JOB" (ThirdParty2.MODEL_BASELINE_JOB g) ;;
  create_baselining_job g job_name false false.

(** The calling cell of section 3.1, then the polling cell of section 3.2
    on the name it bound. *)
Definition baseline_and_wait (g : ThirdParty2.namespace) (fuel : nat)
    : M svc string :=
  job_name <- baselining_job g ;;
  ThirdParty2.wait_for_processing_job job_name fuel.
End Cells.
End Baselining.

(** The boto3 snapshot from section 2 to the cleanup, cell after cell, on
    the rows [samples] that cell 5.2 read from the drift file. *)
Module Notebook.
Section Cells.
Context {value : Type} {svc : Service value}.

Definition run_all (fuel : nat) (hourly : string)
    (samples : list (list value)) : M svc unit :=
  ThirdParty.provision ;;
  ThirdParty.wait_for_endpoint fuel ;;
  ThirdParty.baselining_job ;;
  ThirdParty.monitoring_schedule hourly ;;
  ThirdParty.replay samples ;;
  ThirdParty.cleanup.
End Cells.
End Notebook.

(** * Vocabulary for the statements about pacing *)

(** Whether the invocations of a trace are spaced out.  [pending] tells
    that an invocation has been made and no 500 ms sleep since;
    [pace pending t] is [None] when [t] makes an invocation while one is
    pending, and otherwise tells whether one is pending after [t]. *)
Fixpoint pace {value} (pending : bool) (t : list (event value)) : option bool :=
  match t with
  | [] => Some pending
  | Predict _ _ :: t' => if pending then None else pace true t'
  | Sleep ms :: t' => pace (if decide (ms = 500%N) then false else pending) t'
  | _ :: t' => pace pending t'
  end.

(** * More vocabulary for the statements about polling *)

(** The service answers [in_progress] to [k] status requests in a row;
    [w'] is the world after the last of them. *)
Inductive stalls {value} (svc : Service value) (op : api)
    (key in_progress : string) : nat → World svc → World svc → Prop :=
  | stalls_0 w : stalls svc op key in_progress 0 w w
  | stalls_S k w d w' w'' :
      control svc op w = (Returns d, w') →
      d !! key = Some in_progress →
      stalls svc op key in_progress k w' w'' →
      stalls svc op key in_progress (S k) w w''.

(** The service answers [in_progress] to every status request, for ever. *)
Definition stuck {value} (svc : Service value) (op : api)
    (key in_progress : string) : Prop :=
  ∀ w, ∃ d w', control svc op w = (Returns d, w') ∧ d !! key = Some in_progress.

(** The lines a cell printed, the per-sample lines left out, in order. *)
Definition lines {value} (t : list (event value)) : list string :=
  omap (λ ev, match ev with Printed (Line text) => Some text | _ => None end) t.

(** The datasets the baselining requests of a run name, in order. *)
Definition baseline_datasets (ops : list api) : list string :=
  omap (λ op, match op with
              | dmm_suggest_baseline _ baseline_dataset _ _ _ =>
                  Some baseline_dataset
              | _ => None
              end) ops.

(** * Vocabulary for the statements about resources *)

(** What the control plane holds under a name. *)
Inductive resource : Type :=
  | model_named (name : string)
  | endpoint_config_named (name : string)
  | endpoint_named (name : string)
  | baseline_job_named (name : string)
  | schedule_named (name : string).

Global Instance resource_eq_dec : EqDecision resource.
Proof. solve_decision. Defined.

(** The resource a request creates once it is answered. *)
Definition creates (op : api) : option resource :=
  match op with
  | sm_create_model name _ _ _ => Some (model_named name)
  | sm_create_endpoint_config name _ _ => Some (endpoint_config_named name)
  | sm_create_endpoint name _ => Some (endpoint_named name)
  | dmm_suggest_baseline name _ _ _ _ => Some (baseline_job_named name)
  | dmm_create_monitoring_schedule name _ _ _ _ _ => Some (schedule_named name)
  | _ => None
  end.

(** The resource a request deletes once it is answered. *)
Definition deletes (op : api) : option resource :=
  match op with
  | sm_delete_model name => Some (model_named name)
  | sm_delete_endpoint_config name => Some (endpoint_config_named name)
  | sm_delete_endpoint name => Some (endpoint_named name)
  | sm_delete_monitoring_schedule name => Some (schedule_named name)
  | _ => None
  end.

Definition is_baseline_job (r : resource) : bool :=
  match r with baseline_job_named _ => true | _ => false end.

Definition is_schedule (r : resource) : bool :=
  match r with schedule_named _ => true | _ => false end.

Definition is_model (r : resource) : bool :=
  match r with model_named _ => true | _ => false end.

(** What a request needs of the resources [live] at the time it is made:
    the resources it names are there, the one it creates is not; the
    requests of the monitor object need its baselining job, respectively
    its schedule.  A listing is a query with a name as its filter: it
    needs nothing to be there, and [listings] below tells what is there
    when one is made. *)
Definition requires (live : list resource) (op : api) : bool :=
  match op with
  | sm_create_model name _ _ _ => bool_decide (model_named name ∉ live)
  | sm_create_endpoint_config name variants _ =>
      bool_decide (endpoint_config_named name ∉ live)
      && forallb (λ v, bool_decide (model_named (ModelName v) ∈ live)) variants
  | sm_create_endpoint name config =>
      bool_decide (endpoint_named name ∉ live)
      && bool_decide (endpoint_config_named config ∈ live)
  | sm_describe_endpoint name | sm_delete_endpoint name =>
      bool_decide (endpoint_named name ∈ live)
  | sm_delete_endpoint_config name =>
      bool_decide (endpoint_config_named name ∈ live)
  | sm_delete_model name => bool_decide (model_named name ∈ live)
  | sm_describe_processing_job name =>
      bool_decide (baseline_job_named name ∈ live)
  | sm_stop_monitoring_schedule name | sm_delete_monitoring_schedule name =>
      bool_decide (schedule_named name ∈ live)
  | dmm_suggest_baseline name _ _ _ _ =>
      bool_decide (baseline_job_named name ∉ live)
  | dmm_job_wait _ | dmm_baseline_statistics | dmm_suggested_constraints =>
      existsb is_baseline_job live
  | dmm_create_monitoring_schedule name endpoint _ _ _ _ =>
      bool_decide (schedule_named name ∉ live)
      && bool_decide (endpoint_named endpoint ∈ live)
      && existsb is_baseline_job live
  | dmm_describe_schedule => existsb is_schedule live
  | sm_list_monitoring_schedules _ | sm_list_endpoints _
  | sm_list_endpoint_configs _ | sm_list_models _ => true
  | sess_delete_endpoint name => bool_decide (endpoint_named name ∈ live)
  | sess_delete_endpoint_config name =>
      bool_decide (endpoint_config_named name ∈ live)
  | mp_delete_model => existsb is_model live
  end.

(** The resources after an answered request. *)
Definition settle (live : list resource) (op : api) : list resource :=
  match creates op, deletes op with
  | Some r, _ => r :: live
  | None, Some r => filter (λ r', r' ≠ r) live
  | None, None => live
  end.

(** One event against the resources [live]; [endpoint] is the endpoint the
    predictor is bound to.  [None]: the event uses what is not there. *)
Definition scope_step {value} (endpoint : string) (live : list resource)
    (ev : event value) : option (list resource) :=
  match ev with
  | Call op (Returns _) => if requires live op then Some (settle live op) else None
  | Call op (Raises _) => if requires live op then Some live else None
  | Predict _ _ =>
      if bool_decide (endpoint_named endpoint ∈ live) then Some live else None
  | _ => Some live
  end.

(** A whole trace, event by event. *)
Fixpoint scope {value} (endpoint : string) (live : list resource)
    (t : list (event value)) : option (list resource) :=
  match t with
  | [] => Some live
  | ev :: t' => live' ← scope_step endpoint live ev; scope endpoint live' t'
  end.

(** The resource a listing asks about: the one its filter names. *)
Definition listed (op : api) : option resource :=
  match op with
  | sm_list_monitoring_schedules endpoint_name =>
      Some (endpoint_named endpoint_name)
  | sm_list_endpoints name_contains => Some (endpoint_named name_contains)
  | sm_list_endpoint_configs name_contains =>
      Some (endpoint_config_named name_contains)
  | sm_list_models name_contains => Some (model_named name_contains)
  | _ => None
  end.

(** The listings among the answered requests [ops], in order, each with
    whether the resource it asks about is there when it is made; [live]
    are the resources before the first request. *)
Fixpoint listings (live : list resource) (ops : list api)
    : list (api * bool) :=
  match ops with
  | [] => []
  | op :: ops' =>
      match listed op with
      | Some r => [(op, bool_decide (r ∈ live))]
      | None => []
      end ++ listings (settle live op) ops'
  end.

(** [m], entered with the resources [live], keeps to its scope in every
    run; when it ends normally with [a], the resources are as [post a]
    says. *)
Definition keeps_scope {value} {svc : Service value} {A} (endpoint : string)
    (live : list resource) (m : M svc A)
    (post : A → list resource → Prop) : Prop :=
  ∀ w, ∃ live', scope endpoint live (trace (m w)) = Some live'
                ∧ (∀ a, result (m w) = Ok a → post a live').

(** * Vocabulary for the statements about failures *)

(** What the exception [e] that ended a run is blamed on: the last event
    of the trace [t] is a request or an invocation that raised [e], an
    answer that lacks the key of the [KeyError] [e], or a response that
    cannot be decoded. *)
Definition blames {value} (svc : Service value) (t : list (event value))
    (e : exn) : Prop :=
  match last t with
  | Some (Call _ (Raises e')) => e' = e
  | Some (Call _ (Returns d)) => ∃ key, e = KeyError key ∧ d !! key = None
  | Some (Predict _ (Raises e')) => e' = e
  | Some (Predict _ (Returns b)) =>
      e = UnicodeDecodeError ∧ decode_utf8 svc b = None
  | _ => False
  end.

(** Every exception that ends a run of [m] is to blame on the last event
    of that run. *)
Definition blamed {value} {svc : Service value} {A} (m : M svc A) : Prop :=
  ∀ w e, result (m w) = Raise e → blames svc (trace (m w)) e.


(** * One more service to run the cells against *)

(** A service that answers every request with an empty dictionary. *)
Definition mute : Service Z :=
  {| World := nat;
     control := λ _ w, (Returns ∅, S w);
     predictor_predict := λ _ w, (Returns [Byte.x6f; Byte.x6b], S w);
     decode_utf8 := λ b, Some (String.string_of_list_byte b);
     strftime_gmtime := λ _, "2021-03-01-12-00-00";
     role := "arn:aws:iam::000000000000:role/notebook";
     BUCKET := "sagemaker-us-east-1-000000000000" |}.

(** * The cells that move the datasets *)

(** What these cells call besides the SageMaker clients: the HTTP client,
    the S3 client and the CSV reader.  They act on the same world as the
    service. *)
Record Storage (value : Type) (svc : Service value) : Type := {
  (** [requests.get(url, stream=True)]: the status code of the response
      and its [.content] *)
  requests_get : string → World svc → reply (nat * bytes) * World svc;
  (** [s3_client.put_object(Body, Bucket, Key, ContentType)] *)
  s3_put_object :
    bytes → string → string → string → World svc → reply dict * World svc;
  (** [s3_client.get_object(Bucket, Key)['Body'].read()] *)
  s3_get_object : string → string → World svc → reply bytes * World svc;
  (** [pd.read_csv(buf, header=None, na_filter=False)], as the list of its
      columns [[df[x].values.tolist() for x in df.columns]] *)
  read_csv : bytes → reply (list (list value))
}.
Arguments requests_get {value svc} _ _ _.
Arguments s3_put_object {value svc} _ _ _ _ _ _.
Arguments s3_get_object {value svc} _ _ _ _.
Arguments read_csv {value svc} _ _.

Inductive storage_event (value : Type) : Type :=
  | Cell (ev : event value)
  | Got (url : string) (r : reply (nat * bytes))
  | Put (Body : bytes) (Bucket Key ContentType : string) (r : reply dict)
  | Fetched (Bucket Key : string) (r : reply bytes)
  | Parsed (data : bytes) (r : reply (list (list value)))
  | PrintedDict (d : dict).
Arguments Cell {value} ev.
Arguments Got {value} url r.
Arguments Put {value} Body Bucket Key ContentType r.
Arguments Fetched {value} Bucket Key r.
Arguments Parsed {value} data r.
Arguments PrintedDict {value} d.

Record storage_run (value W A : Type) : Type := StorageRun {
  outcome_of : outcome A;
  world_of : W;
  events_of : list (storage_event value)
}.
Arguments StorageRun {value W A} outcome_of world_of events_of.
Arguments outcome_of {value W A} _.
Arguments world_of {value W A} _.
Arguments events_of {value W A} _.

Section StorageMonad.
Context {value : Type} {svc : Service value} (sto : Storage value svc).

Definition MS (A : Type) : Type :=
  World svc → storage_run value (World svc) A.

Definition then_ {A B} (m : MS A) (k : A → MS B) : MS B := λ w,
  let r := m w in
  match outcome_of r with
  | Ok a =>
      let r' := k a (world_of r) in
      StorageRun (outcome_of r') (world_of r') (events_of r ++ events_of r')
  | Raise e => StorageRun (Raise e) (world_of r) (events_of r)
  | OutOfFuel => StorageRun OutOfFuel (world_of r) (events_of r)
  end.

Definition done_ {A} (a : A) : MS A := λ w, StorageRun (Ok a) w [].

(** A cell of the service monad, run as it is. *)
Definition lift {A} (m : M svc A) : MS A := λ w,
  let r := m w in
  StorageRun (result r) (world_after r) (Cell <$> trace r).

Definition answered {A} (r : reply A) (w : World svc)
    (ev : storage_event value) : MS A := λ _,
  match r with
  | Returns a => StorageRun (Ok a) w [ev]
  | Raises e => StorageRun (Raise e) w [ev]
  end.

Definition get (url : string) : MS (nat * bytes) := λ w,
  let '(r, w') := requests_get sto url w in answered r w' (Got url r) w.

Definition put (Body : bytes) (Bucket Key ContentType : string) : MS dict :=
  λ w,
  let '(r, w') := s3_put_object sto Body Bucket Key ContentType w in
  answered r w' (Put Body Bucket Key ContentType r) w.

Definition fetch (Bucket Key : string) : MS bytes := λ w,
  let '(r, w') := s3_get_object sto Bucket Key w in
  answered r w' (Fetched Bucket Key r) w.

Definition parse (data : bytes) : MS (list (list value)) := λ w,
  answered (read_csv sto data) w (Parsed data (read_csv sto data)) w.

(** [print(response)] on the answer of [put_object] *)
Definition show (d : dict) : MS unit :=
  λ w, StorageRun (Ok tt) w [PrintedDict d].

(** [for x in l: body] *)
Fixpoint for_each {A} (body : A → MS unit) (l : list A) : MS unit :=
  match l with
  | [] => done_ tt
  | x :: l' => then_ (body x) (λ _, for_each body l')
  end.
End StorageMonad.

Arguments then_ {value svc A B} m k.
Arguments done_ {value svc A} a.
Arguments lift {value svc A} m.
Arguments for_each {value svc A} body l.

(** The boto3 snapshot: cell 1.3, which uploads the datasets, and cell
    5.2, which reads the drift file back and replays it. *)
Module Datasets.
Section Cells.
Context {value : Type} {svc : Service value} (sto : Storage value svc).

Definition TRAINING_DATASET_URI : string :=
  "https://raw.githubusercontent.com/william-screen/model-monitor/main/third-party-models/prosper/data".

(** The body of the loop of cell 1.3. *)
Definition upload_body (file_name : string) : MS (svc := svc) unit :=
  let dataset := TRAINING_DATASET_URI +:+ "/" +:+ file_name in
  then_ (get sto dataset) (λ response,
  let key := ThirdParty.PREFIX +:+ "/train/" +:+ file_name in
  then_ (put sto response.2 (BUCKET svc) key "text/csv") (λ response,
  show response)).

(** Cell "1.3 Uploading sample datasets to your S3 bucket". *)
Definition upload : MS (svc := svc) unit :=
  for_each upload_body ThirdParty.DATASETS.

(** The body of the outer loop of cell 5.2. *)
Definition violations_body (file_name : string) : MS (svc := svc) unit :=
  let key := ThirdParty.PREFIX +:+ "/train/" +:+ file_name in
  then_ (fetch sto (BUCKET svc) key) (λ datadrift_file_buf,
  then_ (parse sto datadrift_file_buf) (λ samples,
  let samples := zip_star samples in
  lift (ThirdParty.replay samples))).

(** Cell "5.2 Create data quality constraint violations". *)
Definition violations : MS (svc := svc) unit :=
  for_each violations_body (drop 1 ThirdParty.DATASETS).

(** The boto3 notebook from cell 1.3 to the cleanup, cell after cell. *)
Definition run_all (fuel : nat) (hourly : string) : MS (svc := svc) unit :=
  then_ upload (λ _,
  then_ (lift ThirdParty.provision) (λ _,
  then_ (lift (ThirdParty.wait_for_endpoint fuel)) (λ _,
  then_ (lift ThirdParty.baselining_job) (λ _,
  then_ (lift (ThirdParty.monitoring_schedule hourly)) (λ _,
  then_ violations (λ _,
  lift ThirdParty.cleanup)))))).
End Cells.
End Datasets.

(** * Vocabulary for the statements about the bucket *)

(** The bucket keeps what is put into it: [content_of w] is what it holds
    in the world [w].  An answered upload stores its body under its bucket
    and key; reading an object that is there returns its body; reading,
    downloading, the SageMaker requests and the invocations leave the
    content as it is. *)
Definition keeps_objects {value} {svc : Service value}
    (sto : Storage value svc)
    (content_of : World svc → gmap (string * string) bytes) : Prop :=
  (∀ body bucket key content_type w d w',
     s3_put_object sto body bucket key content_type w = (Returns d, w') →
     content_of w' = <[(bucket, key) := body]> (content_of w))
  ∧ (∀ bucket key w,
       content_of (s3_get_object sto bucket key w).2 = content_of w
       ∧ ∀ body, content_of w !! (bucket, key) = Some body →
                 (s3_get_object sto bucket key w).1 = Returns body)
  ∧ (∀ url w, content_of (requests_get sto url w).2 = content_of w)
  ∧ (∀ op w, content_of (control svc op w).2 = content_of w)
  ∧ (∀ data w, content_of (predictor_predict svc data w).2 = content_of w).

(** An event other than an invocation of the endpoint. *)
Definition no_invocation {value} (ev : event value) : Prop :=
  match ev with Predict _ _ => False | _ => True end.

(** In every run of [m], each event satisfies [P] and the run leaves the
    view [f] of the world as it found it. *)
Definition along {value} {svc : Service value} {A X}
    (P : event value → Prop) (f : World svc → X) (m : M svc A) : Prop :=
  ∀ w, Forall P (trace (m w)) ∧ f (world_after (m w)) = f w.

(** ** Reading a trace of these cells *)

Section StorageTraces.
Context {value : Type}.

(** The events of the service cells run in between. *)
Definition cell_events (t : list (storage_event value)) : list (event value) :=
  omap (λ ev, match ev with Cell ev' => Some ev' | _ => None end) t.

(** The URLs requested, in order. *)
Definition urls (t : list (storage_event value)) : list string :=
  omap (λ ev, match ev with Got url _ => Some url | _ => None end) t.

(** The answered downloads: status code and content, in order. *)
Definition downloads (t : list (storage_event value)) : list (nat * bytes) :=
  omap (λ ev, match ev with Got _ (Returns r) => Some r | _ => None end) t.

(** The upload requests: body, bucket, key and content type, in order. *)
Definition uploads (t : list (storage_event value))
    : list (bytes * string * string * string) :=
  omap (λ ev, match ev with
              | Put body bucket key content_type _ =>
                  Some (body, bucket, key, content_type)
              | _ => None
              end) t.

(** The objects asked of the bucket: bucket and key, in order. *)
Definition fetches (t : list (storage_event value)) : list (string * string) :=
  omap (λ ev, match ev with
              | Fetched bucket key _ => Some (bucket, key)
              | _ => None
              end) t.
End StorageTraces.

(** A service whose world is the content of a bucket, with the storage
    that goes with it: a download answers the bytes of its URL, the reader
    makes a frame of one column that holds the size of what it read. *)
Definition shelf : Service Z :=
  {| World := gmap (string * string) bytes;
     control := λ op w, (Returns (demo_answer 0 "InService" op 0), w);
     predictor_predict := λ _ w, (Returns [Byte.x6f; Byte.x6b], w);
     decode_utf8 := λ b, Some (String.string_of_list_byte b);
     strftime_gmtime := λ _, "2021-03-01-12-00-00";
     role := "arn:aws:iam::000000000000:role/notebook";
     BUCKET := "sagemaker-us-east-1-000000000000" |}.

Definition shelf_storage : Storage Z shelf :=
  {| requests_get := λ url (w : World shelf),
       (Returns (200, String.list_byte_of_string url), w);
     s3_put_object := λ body bucket key _ (w : World shelf),
       (Returns ∅, <[(bucket, key) := body]> w);
     s3_get_object := λ bucket key (w : World shelf),
       (match w !! (bucket, key) with
        | Some body => Returns body
        | None => Raises (ClientError "NoSuchKey")
        end, w);
     read_csv := λ data, Returns [[Z.of_nat (length data)]] |}.

(** A storage to run the cells against: its world is that of [calm]; a
    download answers status 404 and the bytes of ["no"], the bucket
    answers every request. *)
Definition missing_files : Storage Z calm :=
  {| requests_get := λ _ (w : World calm), (Returns (404, [Byte.x6e; Byte.x6f]), S w);
     s3_put_object := λ _ _ _ _ (w : World calm), (Returns ∅, S w);
     s3_get_object := λ _ _ (w : World calm), (Returns [Byte.x31], S w);
     read_csv := λ _, Returns [[1; 2; 3]; [4; 5; 6]]%Z |}.

(** * Facts about cells and traces *)

Section TraceFacts.
Context {value : Type}.
Implicit Types t : list (event value).

Lemma issued_app t1 t2 : issued (t1 ++ t2) = issued t1 ++ issued t2.
Proof. apply omap_app. Qed.

Lemma submitted_app t1 t2 : submitted (t1 ++ t2) = submitted t1 ++ submitted t2.
Proof. apply omap_app. Qed.

Lemma responses_app t1 t2 : responses (t1 ++ t2) = responses t1 ++ responses t2.
Proof. apply omap_app. Qed.

Lemma triples_app t1 t2 : triples (t1 ++ t2) = triples t1 ++ triples t2.
Proof. apply omap_app. Qed.

Lemma sleeps_app t1 t2 : sleeps (t1 ++ t2) = sleeps t1 ++ sleeps t2.
Proof. apply omap_app. Qed.

Lemma answers_app t1 t2 : answers (t1 ++ t2) = answers t1 ++ answers t2.
Proof. apply omap_app. Qed.
End TraceFacts.

Section MonadFacts.
Context {value : Type} {svc : Service value}.

Lemma bind_Ok {A B} (m : M svc A) (k : A → M svc B) w a :
  result (m w) = Ok a →
  bind m k w =
    Run (result (k a (world_after (m w))))
        (world_after (k a (world_after (m w))))
        (trace (m w) ++ trace (k a (world_after (m w)))).
Proof. intros H. unfold bind. by rewrite H. Qed.

Lemma bind_Raise {A B} (m : M svc A) (k : A → M svc B) w e :
  result (m w) = Raise e →
  bind m k w = Run (Raise e) (world_after (m w)) (trace (m w)).
Proof. intros H. unfold bind. by rewrite H. Qed.

Lemma bind_OutOfFuel {A B} (m : M svc A) (k : A → M svc B) w :
  result (m w) = OutOfFuel →
  bind m k w = Run OutOfFuel (world_after (m w)) (trace (m w)).
Proof. intros H. unfold bind. by rewrite H. Qed.

(** A sequence that ends normally has run both parts. *)
Lemma bind_Ok_inv {A B} (m : M svc A) (k : A → M svc B) w b :
  result (bind m k w) = Ok b →
  ∃ a, result (m w) = Ok a ∧ result (k a (world_after (m w))) = Ok b.
Proof.
  unfold bind. destruct (result (m w)) as [a| |] eqn:E; simpl; try done.
  intros H. by exists a.
Qed.

(** Whatever follows, the trace of the first part stays in front. *)
Lemma bind_trace_prefix {A B} (m : M svc A) (k : A → M svc B) w :
  trace (m w) `prefix_of` trace (bind m k w).
Proof.
  unfold bind. destruct (result (m w)); simpl; [by apply prefix_app_r|done..].
Qed.

Lemma bind_assoc {A B C} (m : M svc A) (k : A → M svc B) (h : B → M svc C) w :
  bind (bind m k) h w = bind m (λ a, bind (k a) h) w.
Proof.
  unfold bind. destruct (result (m w)) as [a| |]; simpl; try done.
  destruct (result (k a _)) as [b| |]; simpl; try done.
  by rewrite (assoc_L (++)).
Qed.

Lemma bind_ext {A B} (m : M svc A) (k k' : A → M svc B) w :
  (∀ a w', k a w' = k' a w') → bind m k w = bind m k' w.
Proof.
  intros H. unfold bind. destruct (result (m w)); simpl; try done.
  by rewrite H.
Qed.

Lemma ret_bind {A B} (a : A) (k : A → M svc B) w : bind (ret a) k w = k a w.
Proof. unfold bind, ret; simpl. by destruct (k a w). Qed.

Lemma for_enumerate_cons {A} (body : nat → A → M svc unit) start x l :
  for_enumerate body start (x :: l)
  = (body start x ;; for_enumerate body (S start) l)%cell.
Proof. done. Qed.

(** A loop over [l1 ++ l2] is the loop over [l1] followed by the loop over
    [l2], the index running on. *)
Lemma for_enumerate_app {A} (body : nat → A → M svc unit) start l1 l2 w :
  for_enumerate body start (l1 ++ l2) w
  = (for_enumerate body start l1 ;;
     for_enumerate body (start + length l1) l2)%cell w.
Proof.
  revert start w. induction l1 as [|x l1 IH]; intros start w.
  - simpl. by rewrite ret_bind, Nat.add_0_r.
  - simpl. rewrite bind_assoc. apply bind_ext. intros _ w'.
    rewrite IH. by replace (start + S (length l1)) with (S start + length l1) by lia.
Qed.
End MonadFacts.

(** * Replay loops *)

Section Replay.
Context {value : Type} {svc : Service value} {A : Type}.
Implicit Types (w : World svc) (l : list A).

Lemma keyed_app (t1 t2 : list (event value)) :
  keyed (t1 ++ t2) = keyed t1 ++ keyed t2.
Proof. unfold keyed. by rewrite triples_app, filter_app. Qed.

Variable data : A → sample value.
Variable tail : nat → A → string → list (event value).
Variable skip : nat → A → list (event value).

Hypothesis tail_submitted : ∀ i x p, submitted (tail i x p) = [].
Hypothesis tail_responses : ∀ i x p, responses (tail i x p) = [].
Hypothesis tail_triples : ∀ i x p, triples (tail i x p) = [(i, data x, Some p)].
Hypothesis skip_submitted : ∀ i x, submitted (skip i x) = [].
Hypothesis skip_responses : ∀ i x, responses (skip i x) = [].
Hypothesis skip_triples : ∀ i x,
  triples (skip i x) = [] ∨ triples (skip i x) = [(i, data x, None)].

Variable body : nat → A → M svc unit.
Hypothesis body_guarded : ∀ i x w, body i x w = guarded data tail skip i x w.

Lemma rows_in_order_cons start x l :
  rows_in_order data start (x :: l) =
    (if decide (nonempty (data x)) then [(start, data x)] else [])
    ++ rows_in_order data (S start) l.
Proof.
  unfold rows_in_order. rewrite imap_cons, filter_cons. simpl.
  rewrite Nat.add_0_r.
  rewrite (imap_ext _ (λ i x, (S start + i, data x))).
  - by destruct (decide (nonempty (data x))).
  - intros i y _. simpl. f_equal. lia.
Qed.

(** All runs: what was submitted is an initial part of the non-empty
    rows, in order. *)
Lemma replay_submitted_prefix start l w :
  submitted (trace (for_enumerate body start l w))
  `prefix_of` (rows_in_order data start l).*2.
Proof.
  revert start w. induction l as [|x l IH]; intros start w.
  - done.
  - rewrite rows_in_order_cons, fmap_app, for_enumerate_cons.
    unfold bind. rewrite body_guarded. unfold guarded.
    destruct (decide (nonempty (data x))) as [Hx|Hx]; simpl.
    + destruct (predictor_predict svc (data x) w) as [[b|e] w'].
      * destruct (decode_utf8 svc b) as [p|]; simpl.
        -- rewrite submitted_app. simpl. rewrite tail_submitted. simpl.
           apply prefix_cons, IH.
        -- apply prefix_cons, prefix_nil.
      * simpl. apply prefix_cons, prefix_nil.
    + rewrite submitted_app, skip_submitted. apply IH.
Qed.

(** Runs that end normally: every non-empty row was submitted once, in
    order; each has its triple, carrying the decoded response. *)
Lemma replay_Ok start l w :
  result (for_enumerate body start l w) = Ok tt →
  let t := trace (for_enumerate body start l w) in
  submitted t = (rows_in_order data start l).*2
  ∧ (keyed t).*1 = rows_in_order data start l
  ∧ (keyed t).*2 = decode_utf8 svc <$> responses t
  ∧ length (responses t) = length (submitted t).
Proof.
  revert start w. induction l as [|x l IH]; intros start w.
  - done.
  - rewrite rows_in_order_cons, fmap_app, for_enumerate_cons.
    unfold bind. rewrite body_guarded. unfold guarded.
    destruct (decide (nonempty (data x))) as [Hx|Hx];
      cbn [result world_after trace].
    + destruct (predictor_predict svc (data x) w) as [[b|e] w']; [|done].
      destruct (decode_utf8 svc b) as [p|] eqn:Ep;
        cbn [result world_after trace]; [|done].
      intros Hok. destruct (IH _ _ Hok) as (IH1 & IH2 & IH3 & IH4).
      rewrite !submitted_app, !responses_app, !keyed_app.
      change (Predict (data x) (Returns b) :: tail start x p)
        with ([Predict (data x) (Returns b)] ++ tail start x p).
      rewrite !submitted_app, !responses_app, !keyed_app.
      rewrite tail_submitted, tail_responses.
      unfold keyed at 1 2 4 5. rewrite tail_triples.
      rewrite filter_cons_True, filter_nil by done.
      rewrite !fmap_app, !length_app, IH1, IH2, IH3, IH4, IH1. simpl.
      by rewrite Ep.
    + intros Hok. destruct (IH _ _ Hok) as (IH1 & IH2 & IH3 & IH4).
      rewrite !submitted_app, !responses_app, !keyed_app.
      rewrite skip_submitted, skip_responses.
      assert (keyed (skip start x) = []) as ->.
      { unfold keyed. destruct (skip_triples start x) as [->| ->]; [done|].
        by rewrite filter_cons_False, filter_nil. }
      by rewrite !fmap_app, !length_app, IH1, IH2, IH3, IH4, IH1.
Qed.

(** Runs that end with an exception: the non-empty rows before the one
    that failed have their triples, that row was submitted, and no row
    after it was submitted or has a triple. *)
Lemma replay_Raise start l w e :
  result (for_enumerate body start l w) = Raise e →
  let t := trace (for_enumerate body start l w) in
  ∃ n, n < length (rows_in_order data start l)
    ∧ submitted t = take (S n) (rows_in_order data start l).*2
    ∧ (keyed t).*1 = take n (rows_in_order data start l)
    ∧ (keyed t).*2 = decode_utf8 svc <$> take n (responses t).
Proof.
  revert start w. induction l as [|x l IH]; intros start w.
  - done.
  - rewrite rows_in_order_cons, fmap_app, for_enumerate_cons.
    unfold bind. rewrite body_guarded. unfold guarded.
    destruct (decide (nonempty (data x))) as [Hx|Hx];
      cbn [result world_after trace].
    + destruct (predictor_predict svc (data x) w) as [[b|e'] w'].
      * destruct (decode_utf8 svc b) as [p|] eqn:Ep;
          cbn [result world_after trace].
        -- intros Hraise.
           destruct (IH _ _ Hraise) as (n & Hn & IH1 & IH2 & IH3).
           exists (S n).
           change (Predict (data x) (Returns b) :: tail start x p)
             with ([Predict (data x) (Returns b)] ++ tail start x p).
           rewrite !submitted_app, !responses_app, !keyed_app.
           rewrite tail_submitted, tail_responses.
           unfold keyed at 1 2 4 5. rewrite tail_triples.
           rewrite filter_cons_True, filter_nil by done.
           rewrite !fmap_app, IH1, IH2, IH3. simpl. rewrite Ep.
           split; [lia|done].
        -- intros _. exists 0. split; [simpl; lia|]. by rewrite take_0.
      * intros _. exists 0. split; [simpl; lia|]. by rewrite take_0.
    + intros Hraise.
      destruct (IH _ _ Hraise) as (n & Hn & IH1 & IH2 & IH3).
      exists n. rewrite !submitted_app, !responses_app, !keyed_app.
      rewrite skip_submitted, skip_responses.
      assert (keyed (skip start x) = []) as ->.
      { unfold keyed. destruct (skip_triples start x) as [->| ->]; [done|].
        by rewrite filter_cons_False, filter_nil. }
      simpl. by rewrite IH1, IH2, IH3.
Qed.

(** A loop that prints nothing for the rows it skips prints triples of
    non-empty rows only. *)
Lemma replay_keyed_all start l w :
  (∀ i x, triples (skip i x) = []) →
  keyed (trace (for_enumerate body start l w))
  = triples (trace (for_enumerate body start l w)).
Proof.
  intros Hskip. revert start w. induction l as [|x l IH]; intros start w.
  - done.
  - rewrite for_enumerate_cons. unfold bind. rewrite body_guarded.
    unfold guarded.
    destruct (decide (nonempty (data x))) as [Hx|Hx];
      cbn [result world_after trace].
    + destruct (predictor_predict svc (data x) w) as [[b|e'] w']; [|done].
      destruct (decode_utf8 svc b) as [p|]; cbn [result world_after trace];
        [|done].
      change (Predict (data x) (Returns b) :: tail start x p)
        with ([Predict (data x) (Returns b)] ++ tail start x p).
      rewrite !keyed_app, !triples_app, IH. unfold keyed.
      rewrite tail_triples. simpl.
      by rewrite filter_cons_True, filter_nil.
    + rewrite keyed_app, triples_app, IH. unfold keyed.
      by rewrite Hskip.
Qed.

(** A raising invocation ends the loop on the spot. *)
Lemma replay_abort start pre x post w e :
  result (for_enumerate body start pre w) = Ok tt →
  nonempty (data x) →
  (predictor_predict svc (data x)
     (world_after (for_enumerate body start pre w))).1 = Raises e →
  let r := for_enumerate body start (pre ++ x :: post) w in
  result r = Raise e
  ∧ trace r = trace (for_enumerate body start pre w)
              ++ [Predict (data x) (Raises e)]
  ∧ world_after r =
      (predictor_predict svc (data x)
         (world_after (for_enumerate body start pre w))).2.
Proof.
  intros Hpre Hx He r. subst r.
  rewrite for_enumerate_app, (bind_Ok _ _ _ tt Hpre).
  rewrite for_enumerate_cons. unfold bind.
  rewrite body_guarded. unfold guarded.
  rewrite decide_True by done.
  destruct (predictor_predict svc (data x) _) as [r' w'].
  simpl in He. subst r'. done.
Qed.
End Replay.

Section Bodies.
Context {value : Type} {svc : Service value}.
Implicit Types (w : World svc).

Ltac unfold_body :=
  intros; unfold guarded, nonempty; simpl;
  case_bool_decide; case_decide; try lia;
  unfold bind, invoke, ret, sleep, print; simpl; try done;
  match goal with
  | |- context [predictor_predict svc ?d ?w] =>
      destruct (predictor_predict svc d w) as [[?|?] ?]
  end; simpl; try done;
  unfold decode, ret, raise;
  match goal with
  | |- context [decode_utf8 svc ?b] => destruct (decode_utf8 svc b)
  end; done.

Lemma baseline_body_guarded i x w :
  Iris.baseline_body i x w = guarded Row (iris_tail Row) (λ _ _, []) i x w.
Proof. unfold Iris.baseline_body. unfold_body. Qed.

Lemma drift_body_guarded i x w :
  Iris.drift_body i x w = guarded Text (iris_tail Text) (λ _ _, []) i x w.
Proof. unfold Iris.drift_body. unfold_body. Qed.

Lemma propensity_body_guarded i x w :
  Propensity.replay_body i x w
  = guarded Row propensity_tail propensity_skip i x w.
Proof. unfold Propensity.replay_body, Propensity.predict. unfold_body. Qed.

Lemma third_party_body_guarded i x w :
  ThirdParty.replay_body i x w
  = guarded Row propensity_tail third_party_skip i x w.
Proof. unfold ThirdParty.replay_body, ThirdParty.predict. unfold_body. Qed.

Lemma third_party2_replay_same :
  @ThirdParty2.replay value svc = @ThirdParty.replay value svc.
Proof. done. Qed.
End Bodies.

(** * Serialization of a row *)

Section Strings.
Implicit Types (s t : string) (c : Ascii.ascii).

Lemma append_String c s t : String c s +:+ t = String c (s +:+ t).
Proof. done. Qed.

Lemma append_empty_r s : s +:+ EmptyString = s.
Proof. induction s as [|c s IH]; [done|]. by rewrite append_String, IH. Qed.

Lemma length_append s t :
  String.length (s +:+ t) = String.length s + String.length t.
Proof.
  induction s as [|c s IH]; [done|]. rewrite append_String. simpl. by rewrite IH.
Qed.

Lemma split_on_cons sep s : ∃ piece pieces, split_on sep s = piece :: pieces.
Proof.
  induction s as [|c s (piece & pieces & IH)]; simpl; [by eauto|].
  case_decide; [by eauto|]. rewrite IH. by eauto.
Qed.

(** A piece without separator in front of [s] extends the first piece of
    [s]. *)
Lemma split_on_append sep t s :
  has_char sep t = false →
  split_on sep (t +:+ s) =
    match split_on sep s with
    | [] => [t]
    | piece :: pieces => (t +:+ piece) :: pieces
    end.
Proof.
  induction t as [|c t IH]; intros Hfree.
  - change (EmptyString +:+ s) with s.
    by destruct (split_on_cons sep s) as (piece & pieces & ->).
  - simpl in Hfree. apply orb_false_iff in Hfree as [Hc Hfree].
    apply bool_decide_eq_false in Hc.
    rewrite append_String. simpl. rewrite decide_False by done.
    rewrite (IH Hfree).
    by destruct (split_on_cons sep s) as (piece & pieces & ->).
Qed.

Lemma split_on_free sep t : has_char sep t = false → split_on sep t = [t].
Proof.
  intros Hfree. rewrite <-(append_empty_r t) at 1.
  rewrite split_on_append by done. simpl. by rewrite append_empty_r.
Qed.

Lemma split_on_sep sep s :
  split_on sep (String sep s) = EmptyString :: split_on sep s.
Proof. simpl. by rewrite decide_True. Qed.

Lemma join_cons_cons sep (f g : string) (fields : list string) :
  join sep (f :: g :: fields) = f +:+ sep +:+ join sep (g :: fields).
Proof. done. Qed.

(** Splitting the joined line at the commas gives the fields back: the
    commas of the line are exactly the boundaries between fields, one
    each, none after the last field. *)
Lemma split_on_join (fields : list string) :
  fields ≠ [] →
  Forall (λ f, has_char comma f = false) fields →
  split_on comma (join "," fields) = fields.
Proof.
  induction fields as [|f fields IH]; [done|]. intros _ Hfree.
  apply Forall_cons in Hfree as [Hf Hfree].
  destruct fields as [|g fields].
  - by apply split_on_free.
  - rewrite join_cons_cons, split_on_append by done.
    change ("," +:+ join "," (g :: fields))
      with (String comma (join "," (g :: fields))).
    rewrite split_on_sep, append_empty_r. f_equal. by apply IH.
Qed.

Lemma join_length_ge sep f fields :
  String.length f ≤ String.length (join sep (f :: fields)).
Proof.
  destruct fields; simpl; [done|]. rewrite length_append. lia.
Qed.

Lemma has_char_append c s t :
  has_char c (s +:+ t) = has_char c s || has_char c t.
Proof.
  induction s as [|a s IH]; [done|].
  rewrite append_String. simpl. by rewrite IH, orb_assoc.
Qed.
End Strings.

Section Decimal.
Local Open Scope N_scope.

Lemma pretty_N_char_not_comma (x : N) : pretty_N_char x ≠ comma.
Proof. unfold pretty_N_char. by repeat case_match. Qed.

Lemma pretty_N_go_has_comma (x : N) (s : string) :
  has_char comma (pretty_N_go x s) = has_char comma s.
Proof.
  revert s. induction (N.lt_wf_0 x) as [x _ IH]; intros s.
  assert (x = 0 ∨ 0 < x) as [->|Hx] by lia; [done|].
  rewrite pretty_N_go_step, IH by (done || by apply N.div_lt). simpl.
  by rewrite bool_decide_eq_false_2 by apply pretty_N_char_not_comma.
Qed.

Lemma pretty_N_go_length (x : N) (s : string) :
  (String.length s ≤ String.length (pretty_N_go x s))%nat.
Proof.
  revert s. induction (N.lt_wf_0 x) as [x _ IH]; intros s.
  assert (x = 0 ∨ 0 < x) as [->|Hx] by lia; [done|].
  rewrite pretty_N_go_step by done.
  etrans; [|by apply IH, N.div_lt]. simpl. lia.
Qed.

Lemma pretty_N_no_comma (x : N) : has_char comma (pretty x) = false.
Proof.
  unfold pretty, pretty_N. case_decide; [done|].
  by rewrite pretty_N_go_has_comma.
Qed.

Lemma pretty_N_length (x : N) : (0 < String.length (pretty x))%nat.
Proof.
  unfold pretty, pretty_N. case_decide; [simpl; lia|].
  rewrite pretty_N_go_step by lia.
  eapply Nat.lt_le_trans; [|apply pretty_N_go_length]. simpl. lia.
Qed.

(** The decimal rendering of an integer holds no comma and is not empty. *)
Lemma pretty_Z_no_comma (z : Z) : has_char comma (pretty z) = false.
Proof.
  destruct z as [|p|p]; [done|apply pretty_N_no_comma|].
  unfold pretty, pretty_Z. rewrite has_char_append.
  apply (pretty_N_no_comma (N.pos p)).
Qed.

Lemma pretty_Z_length (z : Z) : (0 < String.length (pretty z))%nat.
Proof.
  destruct z as [|p|p]; [simpl; lia|apply pretty_N_length|].
  unfold pretty, pretty_Z. rewrite length_append.
  pose proof (pretty_N_length (N.pos p)). simpl. lia.
Qed.
End Decimal.

(** The line built for a row of integers. *)
Lemma drift_line_nonempty (item : list Z) :
  item ≠ [] → nonempty (Text (value := Z) (join "," (pretty <$> item))).
Proof.
  destruct item as [|z item]; [done|]. intros _. unfold nonempty.
  change (0 < String.length (join "," (pretty z :: (pretty <$> item))))%nat.
  eapply Nat.lt_le_trans; [apply (pretty_Z_length z)|apply join_length_ge].
Qed.

(** Two rows with the same line are the same row. *)
Lemma drift_line_inj (item1 item2 : list Z) :
  item1 ≠ [] → item2 ≠ [] →
  join "," (pretty <$> item1) = join "," (pretty <$> item2) → item1 = item2.
Proof.
  intros H1 H2 Heq.
  assert (∀ item : list Z, item ≠ [] →
            split_on comma (join "," (pretty <$> item)) = pretty <$> item) as Hsplit.
  { intros item Hitem. apply split_on_join.
    - by destruct item.
    - apply Forall_fmap, Forall_forall. intros z _. apply pretty_Z_no_comma. }
  apply (inj (fmap pretty)).
  by rewrite <-(Hsplit item1), <-(Hsplit item2), Heq.
Qed.

(** * The replay cells *)

Section ReplayCells.
Context {value : Type} {svc : Service value}.
Implicit Types (w : World svc).

Lemma rows_in_order_nonempty {A} (data : A → sample value) start (l : list A) :
  Forall nonempty (rows_in_order data start l).*2.
Proof.
  apply Forall_fmap, Forall_forall. intros ix Hix.
  by apply list_elem_of_filter in Hix as [? _].
Qed.

(** With no empty row, nothing is filtered. *)
Lemma rows_in_order_all {A} (data : A → sample value) start (l : list A) :
  Forall (λ x, nonempty (data x)) l →
  (rows_in_order data start l).*2 = data <$> l.
Proof.
  revert start. induction l as [|x l IH]; intros start Hl; [done|].
  apply Forall_cons in Hl as [Hx Hl].
  rewrite rows_in_order_cons, decide_True, fmap_app by done.
  simpl. by rewrite IH.
Qed.

Lemma prefix_Forall {A} (P : A → Prop) (l1 l2 : list A) :
  l1 `prefix_of` l2 → Forall P l2 → Forall P l1.
Proof. intros [k ->] H. by apply Forall_app in H as [? _]. Qed.

(** Appending the closing line changes neither the outcome nor what was
    submitted, answered or printed per sample. *)
Lemma then_print_line (m : M svc unit) text w :
  let r := (m ;; print (Line text)) w in
  result r = result (m w)
  ∧ world_after r = world_after (m w)
  ∧ submitted (trace r) = submitted (trace (m w))
  ∧ responses (trace r) = responses (trace (m w))
  ∧ triples (trace r) = triples (trace (m w)).
Proof.
  unfold bind, print. destruct (result (m w)) as [[]| |]; simpl; try done.
  rewrite submitted_app, responses_app, triples_app. simpl.
  by rewrite !(right_id_L [] (++)).
Qed.

Lemma iris_baseline_loop start l w :
  submitted (trace (for_enumerate Iris.baseline_body start l w))
  `prefix_of` (rows_in_order Row start l).*2.
Proof.
  by apply (replay_submitted_prefix Row (iris_tail Row) (λ _ _, []));
    [..|apply baseline_body_guarded].
Qed.

Lemma iris_drift_loop start l w :
  submitted (trace (for_enumerate Iris.drift_body start l w))
  `prefix_of` (rows_in_order Text start l).*2.
Proof.
  by apply (replay_submitted_prefix Text (iris_tail Text) (λ _ _, []));
    [..|apply drift_body_guarded].
Qed.

Lemma propensity_loop start l w :
  submitted (trace (for_enumerate Propensity.replay_body start l w))
  `prefix_of` (rows_in_order Row start l).*2.
Proof.
  by apply (replay_submitted_prefix Row propensity_tail propensity_skip);
    [..|apply propensity_body_guarded].
Qed.

Lemma third_party_loop start l w :
  submitted (trace (for_enumerate ThirdParty.replay_body start l w))
  `prefix_of` (rows_in_order Row start l).*2.
Proof.
  by apply (replay_submitted_prefix Row propensity_tail third_party_skip);
    [..|apply third_party_body_guarded].
Qed.

(** C4.  Whatever the service does and however the run ends, every sample
    that reached [predictor.predict] in a replay loop has non-zero length;
    and the guarded [predict] functions return [None] on the empty row
    without touching the service. *)
Theorem empty_rows_never_submitted (w : World svc) :
  (∀ sigma samples,
     Forall nonempty (submitted (trace (Iris.baseline sigma samples w))))
  ∧ (∀ sample_drift_data,
       Forall nonempty (submitted (trace (Iris.drift sample_drift_data w))))
  ∧ (∀ samples,
       Forall nonempty (submitted (trace (Propensity.replay samples w))))
  ∧ (∀ samples,
       Forall nonempty (submitted (trace (ThirdParty.replay samples w))))
  ∧ (∀ samples,
       Forall nonempty (submitted (trace (ThirdParty2.replay samples w))))
  ∧ Propensity.predict [] w = Run (Ok None) w []
  ∧ (∀ delay, ThirdParty.predict [] delay w = Run (Ok None) w [])
  ∧ (∀ delay, ThirdParty2.predict [] delay w = Run (Ok None) w []).
Proof.
  repeat split; try done.
  - intros sigma samples. unfold Iris.baseline.
    destruct (then_print_line
      (for_enumerate Iris.baseline_body 0
         (slice 0 Iris.batch_size (shuffle sigma (drop 1 samples))))
      "Completed!" w) as (_ & _ & -> & _).
    eapply prefix_Forall; [apply iris_baseline_loop|].
    apply rows_in_order_nonempty.
  - intros sample_drift_data. unfold Iris.drift.
    match goal with |- context [for_enumerate ?b ?s ?l] =>
      destruct (then_print_line (for_enumerate b s l) "Completed!" w)
        as (_ & _ & -> & _) end.
    eapply prefix_Forall; [apply iris_drift_loop|].
    apply rows_in_order_nonempty.
  - intros samples. eapply prefix_Forall; [apply propensity_loop|].
    apply rows_in_order_nonempty.
  - intros samples. eapply prefix_Forall; [apply third_party_loop|].
    apply rows_in_order_nonempty.
  - intros samples. eapply prefix_Forall; [apply third_party_loop|].
    apply rows_in_order_nonempty.
Qed.

Lemma iris_baseline_loop_Ok start l w :
  result (for_enumerate Iris.baseline_body start l w) = Ok tt →
  let t := trace (for_enumerate Iris.baseline_body start l w) in
  submitted t = (rows_in_order Row start l).*2
  ∧ (keyed t).*1 = rows_in_order Row start l
  ∧ (keyed t).*2 = decode_utf8 svc <$> responses t
  ∧ length (responses t) = length (submitted t).
Proof.
  by apply (replay_Ok Row (iris_tail Row) (λ _ _, []));
    [..|apply baseline_body_guarded]; auto.
Qed.

Lemma iris_drift_loop_Ok start l w :
  result (for_enumerate Iris.drift_body start l w) = Ok tt →
  let t := trace (for_enumerate Iris.drift_body start l w) in
  submitted t = (rows_in_order Text start l).*2
  ∧ (keyed t).*1 = rows_in_order Text start l
  ∧ (keyed t).*2 = decode_utf8 svc <$> responses t
  ∧ length (responses t) = length (submitted t).
Proof.
  by apply (replay_Ok Text (iris_tail Text) (λ _ _, []));
    [..|apply drift_body_guarded]; auto.
Qed.

Lemma propensity_loop_Ok start l w :
  result (for_enumerate Propensity.replay_body start l w) = Ok tt →
  let t := trace (for_enumerate Propensity.replay_body start l w) in
  submitted t = (rows_in_order Row start l).*2
  ∧ (keyed t).*1 = rows_in_order Row start l
  ∧ (keyed t).*2 = decode_utf8 svc <$> responses t
  ∧ length (responses t) = length (submitted t).
Proof.
  by apply (replay_Ok Row propensity_tail propensity_skip);
    [..|apply propensity_body_guarded]; auto.
Qed.

Lemma third_party_loop_Ok start l w :
  result (for_enumerate ThirdParty.replay_body start l w) = Ok tt →
  let t := trace (for_enumerate ThirdParty.replay_body start l w) in
  submitted t = (rows_in_order Row start l).*2
  ∧ (keyed t).*1 = rows_in_order Row start l
  ∧ (keyed t).*2 = decode_utf8 svc <$> responses t
  ∧ length (responses t) = length (submitted t).
Proof.
  by apply (replay_Ok Row propensity_tail third_party_skip);
    [..|apply third_party_body_guarded]; auto.
Qed.

Lemma iris_baseline_loop_Raise start l w e :
  result (for_enumerate Iris.baseline_body start l w) = Raise e →
  let t := trace (for_enumerate Iris.baseline_body start l w) in
  ∃ n, n < length (rows_in_order Row start l)
    ∧ submitted t = take (S n) (rows_in_order Row start l).*2
    ∧ (keyed t).*1 = take n (rows_in_order Row start l)
    ∧ (keyed t).*2 = decode_utf8 svc <$> take n (responses t).
Proof.
  by apply (replay_Raise Row (iris_tail Row) (λ _ _, []));
    [..|apply baseline_body_guarded]; auto.
Qed.

Lemma third_party_loop_Raise start l w e :
  result (for_enumerate ThirdParty.replay_body start l w) = Raise e →
  let t := trace (for_enumerate ThirdParty.replay_body start l w) in
  ∃ n, n < length (rows_in_order Row start l)
    ∧ submitted t = take (S n) (rows_in_order Row start l).*2
    ∧ (keyed t).*1 = take n (rows_in_order Row start l)
    ∧ (keyed t).*2 = decode_utf8 svc <$> take n (responses t).
Proof.
  by apply (replay_Raise Row propensity_tail third_party_skip);
    [..|apply third_party_body_guarded]; auto.
Qed.

Lemma iris_baseline_keyed_all start l w :
  keyed (trace (for_enumerate Iris.baseline_body start l w))
  = triples (trace (for_enumerate Iris.baseline_body start l w)).
Proof.
  by apply (replay_keyed_all Row (iris_tail Row) (λ _ _, []));
    [..|apply baseline_body_guarded|].
Qed.

(** C8.  Let the rows before [x] replay without error and let the
    invocation for the non-empty row [x] raise [e].  Then the loop ends
    with [e]; its trace is the trace of the rows before [x] followed by
    the one failed invocation, so [x] is not tried again and no row after
    [x] is submitted; the iris cell does not reach its closing line. *)
Theorem invocation_error_abandons_batch (w : World svc) (e : exn)
    (pre post : list (list value)) (x : list value) :
  nonempty (Row x) →
  (∀ sigma samples,
     slice 0 Iris.batch_size (shuffle sigma (drop 1 samples))
       = pre ++ x :: post →
     let before := for_enumerate Iris.baseline_body 0 pre w in
     result before = Ok tt →
     (predictor_predict svc (Row x) (world_after before)).1 = Raises e →
     let r := Iris.baseline sigma samples w in
     result r = Raise e
     ∧ trace r = trace before ++ [Predict (Row x) (Raises e)]
     ∧ submitted (trace r) = (rows_in_order Row 0 pre).*2 ++ [Row x])
  ∧ (let before := ThirdParty.replay pre w in
     result before = Ok tt →
     (predictor_predict svc (Row x) (world_after before)).1 = Raises e →
     let r := ThirdParty.replay (pre ++ x :: post) w in
     result r = Raise e
     ∧ trace r = trace before ++ [Predict (Row x) (Raises e)]
     ∧ submitted (trace r) = (rows_in_order Row 0 pre).*2 ++ [Row x]).
Proof.
  intros Hx. split.
  - intros sigma samples Hrows before Hbefore He r. subst before r.
    unfold Iris.baseline. rewrite Hrows.
    destruct (replay_abort Row (iris_tail Row) (λ _ _, []) Iris.baseline_body
                baseline_body_guarded 0 pre x post w e Hbefore Hx He)
      as (Hres & Htr & _).
    rewrite (bind_Raise _ _ _ e Hres). simpl. rewrite Htr.
    split; [done|split; [done|]].
    rewrite submitted_app. simpl.
    by destruct (iris_baseline_loop_Ok 0 pre w Hbefore) as (-> & _).
  - intros before Hbefore He r. subst before r.
    destruct (replay_abort Row propensity_tail third_party_skip
                ThirdParty.replay_body third_party_body_guarded
                0 pre x post w e Hbefore Hx He) as (Hres & Htr & _).
    unfold ThirdParty.replay. rewrite Hres, Htr.
    split; [done|split; [done|]].
    rewrite submitted_app. simpl.
    by destruct (third_party_loop_Ok 0 pre w Hbefore) as (-> & _).
Qed.
End ReplayCells.

(** An instance: the third call of the service fails while three rows are
    replayed; the first two rows go through, the third is tried once. *)
Lemma invocation_error_abandons_batch_witness :
  nonempty (Row [3%Z])
  ∧ result (ThirdParty.replay (svc := demo (Some 2) 0 "InService")
              [[1]; [2]; [3]; [4]; [5]]%Z 0)
    = Raise (ClientError "ServiceUnavailable")
  ∧ submitted (trace (ThirdParty.replay (svc := demo (Some 2) 0 "InService")
                        [[1]; [2]; [3]; [4]; [5]]%Z 0))
    = [Row [1]; Row [2]; Row [3]]%Z.
Proof.
  assert (nonempty (Row [3%Z])) as Hx by (unfold nonempty; simpl; lia).
  split; [done|].
  destruct (invocation_error_abandons_batch (svc := demo (Some 2) 0 "InService")
              0 (ClientError "ServiceUnavailable")
              [[1]; [2]]%Z [[4]; [5]]%Z [3%Z] Hx) as [_ H].
  destruct H as (Hres & _ & Hsub); [by vm_compute..|].
  split; [exact Hres|]. etrans; [exact Hsub|]. by vm_compute.
Defined.

Section DriftCells.
Context {value : Type} {svc : Service value}.
Implicit Types (w : World svc).

(** A complete run of the iris drift cell submits the line of every
    non-empty row, in order. *)
Lemma iris_drift_submitted (sample_drift_data : list (list Z)) w :
  Forall (λ item, item ≠ []) sample_drift_data →
  result (Iris.drift sample_drift_data w) = Ok tt →
  submitted (trace (Iris.drift sample_drift_data w))
  = (λ item, Text (join "," (pretty <$> item))) <$> sample_drift_data.
Proof.
  intros Hrows. unfold Iris.drift.
  match goal with |- context [for_enumerate ?b ?s ?l] =>
    destruct (then_print_line (for_enumerate b s l) "Completed!" w)
      as (-> & _ & -> & _) end.
  intros Hok. destruct (iris_drift_loop_Ok _ _ _ Hok) as (-> & _).
  rewrite rows_in_order_all.
  - by rewrite <-!list_fmap_compose.
  - apply Forall_fmap, Forall_fmap. eapply Forall_impl; [done|].
    intros item Hitem. simpl. by apply (drift_line_nonempty item).
Qed.

(** C6.  Replaying drifted rows (none of them empty) to the end submits
    every row as it is: in the iris notebook the line of each row of the
    integer matrix, from which the row can be read back; in the
    marketplace notebook the first ten rows of the drift file, as the
    lists they are. *)
Theorem drifted_rows_submitted_as_given (w : World svc)
    (sample_drift_data : list (list Z)) (samples : list (list value)) :
  Forall (λ item, item ≠ []) sample_drift_data →
  Forall (λ sample, sample ≠ []) (slice 0 10 samples) →
  (result (Iris.drift sample_drift_data w) = Ok tt →
   submitted (trace (Iris.drift sample_drift_data w))
   = (λ item, Text (join "," (pretty <$> item))) <$> sample_drift_data)
  ∧ (∀ item1 item2, item1 ∈ sample_drift_data → item2 ∈ sample_drift_data →
       join "," (pretty <$> item1) = join "," (pretty <$> item2) →
       item1 = item2)
  ∧ (result (Propensity.data_type_check samples w) = Ok tt →
     submitted (trace (Propensity.data_type_check samples w))
     = Row <$> slice 0 10 samples).
Proof.
  intros Hdrift Hsamples. split; [|split].
  - by apply iris_drift_submitted.
  - intros item1 item2 H1 H2.
    apply drift_line_inj; by eapply (proj1 (Forall_forall _ _) Hdrift).
  - unfold Propensity.data_type_check, Propensity.replay. intros Hok.
    destruct (propensity_loop_Ok _ _ _ Hok) as (-> & _).
    apply rows_in_order_all. eapply Forall_impl; [done|].
    intros [|v sample] Hs; [done|]. unfold nonempty. simpl. lia.
Qed.
End DriftCells.

(** An instance: the ten recorded rows, negative entries included. *)
Lemma drifted_rows_submitted_as_given_witness :
  submitted (trace (Iris.drift (svc := calm) recorded_drift 0))
  = [Text "2,4,1,-3"; Text "0,0,-4,3"; Text "-4,2,-4,2"; Text "4,-4,-3,-3";
     Text "2,-2,2,3"; Text "1,-4,3,-4"; Text "2,-1,4,0"; Text "2,-3,-4,-1";
     Text "3,-3,2,1"; Text "1,0,-2,4"]
  ∧ submitted (trace (Propensity.data_type_check (svc := calm) recorded_drift 0))
    = Row <$> recorded_drift.
Proof.
  assert (Forall (λ item : list Z, item ≠ []) recorded_drift) as H
    by (by repeat constructor).
  destruct (drifted_rows_submitted_as_given (svc := calm) 0
              recorded_drift recorded_drift H H) as (H1 & _ & H2).
  split.
  - etrans; [apply H1; by vm_compute|]. by vm_compute.
  - etrans; [apply H2; by vm_compute|]. by vm_compute.
Defined.

(** * The shuffled baseline *)

Section Shuffle.
Context {A : Type}.
Implicit Types (l : list A) (sigma : list nat).

Lemma omap_lookup_seq_app pre l :
  omap (λ i, (pre ++ l) !! i) (seq (length pre) (length l)) = l.
Proof.
  revert pre. induction l as [|x l IH]; intros pre; [done|].
  simpl. rewrite list_lookup_middle by done. f_equal.
  specialize (IH (pre ++ [x])).
  by rewrite <-(assoc_L (++)), length_app, Nat.add_1_r in IH.
Qed.

Lemma omap_lookup_seq l : omap (λ i, l !! i) (seq 0 (length l)) = l.
Proof. apply (omap_lookup_seq_app []). Qed.

(** A shuffle by a permutation of the positions rearranges the list and
    loses nothing. *)
Lemma shuffle_Permutation sigma l :
  sigma ≡ₚ seq 0 (length l) → shuffle sigma l ≡ₚ l.
Proof.
  intros H. unfold shuffle. rewrite H. by rewrite omap_lookup_seq.
Qed.

(** When [sigma] lists positions of [l] only, the shuffle has at each
    position the element [sigma] names there. *)
Lemma shuffle_lookup sigma l j :
  Forall (λ i, i < length l) sigma →
  shuffle sigma l !! j = sigma !! j ≫= (l !!.).
Proof.
  unfold shuffle. intros Hsigma. revert j.
  induction Hsigma as [|i sigma Hi _ IH]; intros j; [done|].
  simpl. destruct (lookup_lt_is_Some_2 l i Hi) as [x Hx]. rewrite Hx.
  destruct j as [|j]; simpl; [done|apply IH].
Qed.

(** Whatever [sigma] is, the elements picked out of a shuffle can be
    traced back to positions listed in [sigma]. *)
Lemma sublist_shuffle_positions {B} (g : A → B) sigma l (k : list B) :
  k `sublist_of` g <$> shuffle sigma l →
  ∃ positions,
    positions `sublist_of` sigma
    ∧ Forall2 (λ y i, ∃ x, y = g x ∧ l !! i = Some x) k positions.
Proof.
  unfold shuffle. revert k. induction sigma as [|i sigma IH]; intros k Hk.
  - apply sublist_nil_r in Hk as ->. exists []. by split; constructor.
  - simpl in Hk. destruct (l !! i) as [x|] eqn:Hi.
    + rewrite fmap_cons in Hk.
      apply sublist_cons_r in Hk as [Hk|(k' & -> & Hk)].
      * destruct (IH _ Hk) as (positions & Hsub & Hall).
        exists positions. split; [by apply sublist_cons|done].
      * destruct (IH _ Hk) as (positions & Hsub & Hall).
        exists (i :: positions). split; [by apply sublist_skip|].
        constructor; [by exists x|done].
    + destruct (IH _ Hk) as (positions & Hsub & Hall).
      exists positions. split; [by apply sublist_cons|done].
Qed.
End Shuffle.

Section Baseline.
Context {value : Type} {svc : Service value}.
Implicit Types (w : World svc).

Lemma prefix_is_sublist {A} (l1 l2 : list A) :
  l1 `prefix_of` l2 → l1 `sublist_of` l2.
Proof. intros [k ->]. by apply sublist_inserts_r. Qed.

Lemma rows_in_order_sublist {A} (data : A → sample value) start (l : list A) :
  (rows_in_order data start l).*2 `sublist_of` data <$> l.
Proof.
  revert start. induction l as [|x l IH]; intros start; [done|].
  rewrite rows_in_order_cons, fmap_app, fmap_cons.
  case_decide; simpl; [by apply sublist_skip|by apply sublist_cons].
Qed.

Lemma iris_baseline_submitted sigma samples w :
  submitted (trace (Iris.baseline sigma samples w))
  `sublist_of` Row <$> slice 0 Iris.batch_size (shuffle sigma (drop 1 samples)).
Proof.
  unfold Iris.baseline.
  match goal with |- context [for_enumerate ?b ?s ?l] =>
    destruct (then_print_line (for_enumerate b s l) "Completed!" w)
      as (_ & _ & -> & _) end.
  etrans; [apply prefix_is_sublist, iris_baseline_loop|].
  apply rows_in_order_sublist.
Qed.

(** C9.  In every run of the baseline cell of the iris notebook, whatever
    the shuffle draws and however the run ends, each submitted row is the
    row at some position [S i] of the list the dataframe was converted to
    (never position 0), distinct submissions come from distinct shuffle
    slots, and at most [batch_size] rows are submitted. *)
Theorem first_row_never_submitted (w : World svc) (sigma : list nat)
    (samples : list (list value)) :
  ∃ positions : list nat,
    positions `sublist_of` sigma
    ∧ length positions ≤ Iris.batch_size
    ∧ Forall2 (λ data i, ∃ row, data = Row row ∧ samples !! (S i) = Some row)
        (submitted (trace (Iris.baseline sigma samples w))) positions.
Proof.
  pose proof (iris_baseline_submitted sigma samples w) as Hsub.
  assert (length (submitted (trace (Iris.baseline sigma samples w)))
          ≤ Iris.batch_size) as Hlen.
  { etrans; [by apply sublist_length|].
    rewrite length_fmap. unfold slice. rewrite drop_0, length_take. lia. }
  unfold slice in Hsub. rewrite drop_0 in Hsub.
  assert (submitted (trace (Iris.baseline sigma samples w))
          `sublist_of` Row <$> shuffle sigma (drop 1 samples)) as Hsub'.
  { etrans; [done|]. apply fmap_sublist, sublist_take. }
  destruct (sublist_shuffle_positions Row sigma (drop 1 samples) _ Hsub')
    as (positions & Hpos & Hall).
  exists positions. split; [done|]. split.
  - by rewrite <-(Forall2_length _ _ _ Hall).
  - eapply Forall2_impl; [done|]. intros data i (row & -> & Hrow).
    exists row. split; [done|]. by rewrite lookup_drop in Hrow.
Qed.

(** C1, as the code has it.  The list a loop replays: in the marketplace
    notebook the rows it is given; in the baseline cell of the iris
    notebook, when the shuffle draws a permutation, the list [replayed]
    whose entry [j], for [j] below [batch_size], is the row the shuffle
    put at position [j], a selection of [batch_size] rows of the dataset
    (all but the first when there are fewer) in shuffled order.  In a
    run that ends normally the triples printed for non-empty rows are
    exactly the non-empty rows of that list with their positions in it,
    in its order, each carrying the decoded response of its own
    invocation.  In a run that ends with an exception the non-empty rows
    before the one whose invocation failed have their triples, that row
    was submitted, and no row after it is submitted or yields a
    triple. *)
Theorem one_triple_per_replayed_row (w : World svc) (sigma : list nat)
    (samples rows : list (list value)) :
  sigma ≡ₚ seq 0 (length (drop 1 samples)) →
  let replayed := slice 0 Iris.batch_size (shuffle sigma (drop 1 samples)) in
  ((∀ j row, replayed !! j = Some row
             ↔ j < Iris.batch_size
               ∧ ∃ i, sigma !! j = Some i ∧ samples !! (S i) = Some row)
   ∧ replayed ⊆+ samples
   ∧ length replayed = Iris.batch_size `min` (length samples - 1))
  ∧ (let r := Iris.baseline sigma samples w in
     let t := trace r in
     (result r = Ok tt →
      submitted t = (rows_in_order Row 0 replayed).*2
      ∧ (triples t).*1 = rows_in_order Row 0 replayed
      ∧ (triples t).*2 = decode_utf8 svc <$> responses t
      ∧ length (responses t) = length (submitted t))
     ∧ (∀ e, result r = Raise e →
        ∃ n, n < length (rows_in_order Row 0 replayed)
          ∧ submitted t = take (S n) (rows_in_order Row 0 replayed).*2
          ∧ (triples t).*1 = take n (rows_in_order Row 0 replayed)
          ∧ (triples t).*2 = decode_utf8 svc <$> take n (responses t)))
  ∧ (let r := ThirdParty.replay rows w in
     let t := trace r in
     (result r = Ok tt →
      submitted t = (rows_in_order Row 0 rows).*2
      ∧ (keyed t).*1 = rows_in_order Row 0 rows
      ∧ (keyed t).*2 = decode_utf8 svc <$> responses t
      ∧ length (responses t) = length (submitted t))
     ∧ (∀ e, result r = Raise e →
        ∃ n, n < length (rows_in_order Row 0 rows)
          ∧ submitted t = take (S n) (rows_in_order Row 0 rows).*2
          ∧ (keyed t).*1 = take n (rows_in_order Row 0 rows)
          ∧ (keyed t).*2 = decode_utf8 svc <$> take n (responses t))).
Proof.
  intros Hsigma replayed.
  assert (Forall (λ i, i < length (drop 1 samples)) sigma) as Hrange.
  { rewrite Hsigma. apply Forall_seq. lia. }
  split; [split; [|split]|split].
  - intros j row. subst replayed. unfold slice. rewrite drop_0.
    destruct (decide (j < Iris.batch_size)) as [Hj|Hj].
    + rewrite lookup_take_lt, (shuffle_lookup _ _ _ Hrange) by done.
      destruct (sigma !! j) as [i|]; simpl.
      * rewrite lookup_drop. simpl. split.
        -- intros Hrow. split; [done|]. by exists i.
        -- by intros (_ & i' & [= <-] & Hrow).
      * split; [done|]. by intros (_ & i' & [=] & _).
    + rewrite lookup_take_ge by lia. split; [done|]. by intros [? _].
  - subst replayed. unfold slice. rewrite drop_0.
    etrans; [apply submseteq_take|].
    rewrite (shuffle_Permutation _ _ Hsigma). apply submseteq_drop.
  - subst replayed. unfold slice.
    rewrite drop_0, length_take, (shuffle_Permutation _ _ Hsigma), length_drop.
    lia.
  - unfold Iris.baseline. fold replayed.
    destruct (then_print_line
                (for_enumerate Iris.baseline_body 0 replayed) "Completed!" w)
      as (-> & _ & -> & -> & ->).
    rewrite <-iris_baseline_keyed_all. split.
    + intros Hok. by apply iris_baseline_loop_Ok.
    + intros e Hraise. by apply iris_baseline_loop_Raise with e.
  - split.
    + intros Hok. by apply third_party_loop_Ok.
    + intros e Hraise. by apply third_party_loop_Raise with e.
Qed.
End Baseline.

(** An instance: three one-field rows, the shuffle swapping the two that
    remain after the first is cut off; and a marketplace run on three
    rows, the second one empty. *)
Lemma one_triple_per_replayed_row_witness :
  [1; 0] ≡ₚ seq 0 (length (drop 1 [[1]; [2]; [3]]%Z))
  ∧ triples (trace (Iris.baseline (svc := calm) [1; 0] [[1]; [2]; [3]]%Z 0))
    = [(0, Row [3%Z], Some "ok"); (1, Row [2%Z], Some "ok")]
  ∧ (triples (trace (Iris.baseline (svc := calm) [1; 0]
                       [[1]; [2]; [3]]%Z 0))).*1
    = rows_in_order Row 0 [[3]; [2]]%Z
  ∧ (keyed (trace (ThirdParty.replay (svc := calm) [[1]; []; [3]]%Z 0))).*1
    = [(0, Row [1%Z]); (2, Row [3%Z])].
Proof.
  assert ([1; 0] ≡ₚ seq 0 (length (drop 1 [[1]; [2]; [3]]%Z))) as Hsigma
    by apply Permutation_swap.
  split; [done|]. split; [by vm_compute|].
  destruct (one_triple_per_replayed_row (svc := calm) 0 [1; 0]
              [[1]; [2]; [3]]%Z [[1]; []; [3]]%Z Hsigma)
    as (_ & [Hiris _] & [Hrows _]).
  destruct Hiris as (_ & Hiris & _); [by vm_compute|].
  destruct Hrows as (_ & Hrows & _); [by vm_compute|].
  split; [exact Hiris|]. etrans; [exact Hrows|]. by vm_compute.
Defined.

(** Two runs on three non-empty rows.  The baseline run of the instance
    above ends normally, yet prints triples for the third and the second
    row only, in that order.  The marketplace run, against a service whose
    second call fails, prints the triple of the first row and stops. *)
Lemma one_triple_per_row_counterexample :
  [1; 0] ≡ₚ seq 0 (length (drop 1 [[1]; [2]; [3]]%Z))
  ∧ result (Iris.baseline (svc := calm) [1; 0] [[1]; [2]; [3]]%Z 0) = Ok tt
  ∧ ¬ replays_dataset_in_order [[1]; [2]; [3]]%Z
        (trace (Iris.baseline (svc := calm) [1; 0] [[1]; [2]; [3]]%Z 0))
  ∧ ¬ (triples (trace (Iris.baseline (svc := calm) [1; 0]
                         [[1]; [2]; [3]]%Z 0))).*1.*2
      `sublist_of` Row <$> [[1]; [2]; [3]]%Z
  ∧ ¬ replays_dataset_in_order [[1]; [2]; [3]]%Z
        (trace (ThirdParty.replay (svc := demo (Some 1) 0 "InService")
                  [[1]; [2]; [3]]%Z 0)).
Proof.
  split; [apply Permutation_swap|]. split; [by vm_compute|].
  split; [|split].
  - unfold replays_dataset_in_order. intros H. vm_compute in H. discriminate H.
  - intros H. vm_compute in H.
    repeat match goal with
    | H : _ `sublist_of` _ |- _ => inversion H; clear H; subst
    end.
  - unfold replays_dataset_in_order. intros H. vm_compute in H. discriminate H.
Qed.

(** * Polling *)

Section Polling.
Context {value : Type} {svc : Service value}.
Variables (op : api) (key in_progress : string) (line : string → string).
Implicit Types (w : World svc) (status : string).

Local Abbreviation cond := (λ status : string, bool_decide (status = in_progress)).
Local Abbreviation body := (poll_body (svc := svc) op key line).

Lemma observed_Call (t : list (event value)) d status :
  d !! key = Some status →
  observed key (Call op (Returns d) :: t) = status :: observed key t.
Proof. intros Hd. unfold observed. simpl. by rewrite Hd. Qed.

(** One turn of the loop, when the request is answered with a status. *)
Lemma poll_body_Returns w d w' status s0 :
  control svc op w = (Returns d, w') →
  d !! key = Some status →
  body s0 w = Run (Ok status) w'
                [Sleep 45000; Call op (Returns d); Printed (Line (line status))].
Proof.
  intros Hc Hd. unfold poll_body, bind, sleep, call, getitem, print, ret.
  simpl. rewrite Hc. simpl. by rewrite Hd.
Qed.

(** A turn that ends normally was answered with a status. *)
Lemma poll_body_Ok_inv w status s0 :
  result (body s0 w) = Ok status →
  ∃ d w', control svc op w = (Returns d, w') ∧ d !! key = Some status.
Proof.
  unfold poll_body, bind, sleep, call, getitem, print, ret. simpl.
  destruct (control svc op w) as [[d|e] w']; simpl; [|done].
  destruct (d !! key) as [s|] eqn:Hd; simpl; [|done].
  intros [= ->]. by exists d, w'.
Qed.

Lemma while_0 s0 :
  while_ 0 cond body s0 = if cond s0 then out_of_fuel else ret s0.
Proof. done. Qed.

Lemma while_S fuel s0 :
  while_ (S fuel) cond body s0
  = if cond s0 then (s' <- body s0 ;; while_ fuel cond body s') else ret s0.
Proof. done. Qed.

Lemma while_poll_Ok fuel s0 w status :
  result (while_ fuel cond body s0 w) = Ok status →
  let t := trace (while_ fuel cond body s0 w) in
  status ≠ in_progress
  ∧ ∃ k, k ≤ fuel
      ∧ s0 :: observed key t = replicate k in_progress ++ [status]
      ∧ sleeps t = replicate k 45000%N
      ∧ issued t = replicate k op.
Proof.
  revert s0 w. induction fuel as [|fuel IH]; intros s0 w.
  - rewrite while_0. case_bool_decide as Hs; [done|]. intros [= ->].
    split; [done|]. by exists 0.
  - rewrite while_S. case_bool_decide as Hs.
    + intros Hok. destruct (bind_Ok_inv _ _ _ _ Hok) as (s1 & Hb & Hrest).
      destruct (poll_body_Ok_inv _ _ _ Hb) as (d & w' & Hc & Hd).
      rewrite (bind_Ok _ _ _ _ Hb).
      rewrite (poll_body_Returns w d w' s1 s0 Hc Hd) in *.
      cbn [result world_after trace] in *.
      destruct (IH _ _ Hrest) as (Hne & k & Hk & Hobs & Hsl & Hiss).
      split; [done|]. exists (S k). split; [lia|].
      unfold observed in *. rewrite answers_app, sleeps_app, issued_app.
      rewrite omap_app. simpl. rewrite Hd. simpl.
      rewrite Hobs, Hsl, Hiss. by subst s0.
    + intros [= ->]. split; [done|]. exists 0. by split; [lia|].
Qed.

(** The first request of the cell, answered with a status. *)
Lemma poll_first fuel w d w0 s0 :
  control svc op w = (Returns d, w0) →
  d !! key = Some s0 →
  poll op key in_progress line fuel w
  = Run (result (while_ fuel cond body s0 w0))
        (world_after (while_ fuel cond body s0 w0))
        (Call op (Returns d) :: trace (while_ fuel cond body s0 w0)).
Proof.
  intros Hc Hd. unfold poll.
  assert (call (svc := svc) op w = Run (Ok d) w0 [Call op (Returns d)]) as Hcall
    by (unfold call; by rewrite Hc).
  rewrite (bind_Ok _ _ _ d) by (by rewrite Hcall). rewrite Hcall.
  cbn [result world_after trace].
  assert (getitem (svc := svc) d key w0 = Run (Ok s0) w0 []) as Hget
    by (unfold getitem; by rewrite Hd).
  rewrite (bind_Ok _ _ _ s0) by (by rewrite Hget). rewrite Hget.
  by cbn [result world_after trace].
Qed.

Lemma poll_Ok_inv fuel w status :
  result (poll op key in_progress line fuel w) = Ok status →
  ∃ d w0 s0, control svc op w = (Returns d, w0) ∧ d !! key = Some s0.
Proof.
  unfold poll. intros Hok.
  apply bind_Ok_inv in Hok as (d & Hcall & Hok).
  apply bind_Ok_inv in Hok as (s0 & Hget & _).
  unfold call in *. destruct (control svc op w) as [[d'|e] w0]; [|done].
  simpl in *. injection Hcall as ->.
  unfold getitem in Hget. destruct (d !! key) as [s|] eqn:Hd; [|done].
  injection Hget as ->. by exists d, w0, s0.
Qed.

(** The cell as a whole: when it ends normally, the statuses it read are
    [in_progress] some [k] times and then the status it ends with, which
    is not [in_progress]; it slept 45 s before each of the [k] further
    requests and made no other request. *)
Lemma poll_Ok fuel w status :
  result (poll op key in_progress line fuel w) = Ok status →
  let t := trace (poll op key in_progress line fuel w) in
  status ≠ in_progress
  ∧ ∃ k, k ≤ fuel
      ∧ observed key t = replicate k in_progress ++ [status]
      ∧ sleeps t = replicate k 45000%N
      ∧ issued t = replicate (S k) op.
Proof.
  intros Hok. destruct (poll_Ok_inv _ _ _ Hok) as (d & w0 & s0 & Hc & Hd).
  rewrite (poll_first fuel w d w0 s0 Hc Hd) in *.
  cbn [result world_after trace] in *.
  apply while_poll_Ok in Hok as (Hne & k & Hk & Hobs & Hsl & Hiss).
  split; [done|]. exists k. split; [done|].
  rewrite (observed_Call _ _ _ Hd), Hobs. simpl. by rewrite Hsl, Hiss.
Qed.

Lemma settles_first k w status w' :
  settles svc op key in_progress k w status w' →
  ∃ d0 w0 s0, control svc op w = (Returns d0, w0) ∧ d0 !! key = Some s0.
Proof. intros Hs. inversion Hs; eauto. Qed.

(** Enough fuel: [k] further turns suffice when the service settles after
    [k] in-progress answers. *)
Lemma while_poll_settles k w status w' :
  settles svc op key in_progress k w status w' →
  ∀ fuel d0 w0 s0,
    k ≤ fuel →
    control svc op w = (Returns d0, w0) →
    d0 !! key = Some s0 →
    let r := while_ fuel cond body s0 w0 in
    result r = Ok status ∧ world_after r = w'
    ∧ sleeps (trace r) = replicate k 45000%N.
Proof.
  induction 1 as [w d w1 status Hc' Hd' Hne
                 |k w d w1 status w2 Hc' Hd' Hs IH];
    intros fuel d0 w0 s0 Hk Hc Hd;
    rewrite Hc' in Hc; injection Hc as <- <-;
    rewrite Hd' in Hd; injection Hd as <-.
  - destruct fuel; [rewrite while_0|rewrite while_S];
      by rewrite bool_decide_eq_false_2.
  - destruct fuel as [|fuel]; [lia|].
    rewrite while_S, bool_decide_eq_true_2 by done.
    destruct (settles_first _ _ _ _ Hs) as (d1 & w1' & s1 & Hc1 & Hd1).
    pose proof (poll_body_Returns w1 d1 w1' s1 in_progress Hc1 Hd1) as Hb.
    rewrite (bind_Ok _ _ _ s1) by (by rewrite Hb). rewrite Hb.
    cbn [result world_after trace].
    destruct (IH fuel d1 w1' s1 ltac:(lia) Hc1 Hd1) as (-> & -> & Hsl).
    rewrite sleeps_app, Hsl. done.
Qed.

Lemma poll_settles k fuel w status w' :
  settles svc op key in_progress k w status w' →
  k ≤ fuel →
  let r := poll op key in_progress line fuel w in
  result r = Ok status ∧ world_after r = w'
  ∧ sleeps (trace r) = replicate k 45000%N.
Proof.
  intros Hs Hk.
  destruct (settles_first _ _ _ _ Hs) as (d0 & w0 & s0 & Hc & Hd).
  destruct (while_poll_settles k w status w' Hs fuel d0 w0 s0 Hk Hc Hd)
    as (Hres & Hw & Hsl).
  rewrite (poll_first fuel w d0 w0 s0 Hc Hd).
  by cbn [result world_after trace].
Qed.

(** A status other than [in_progress] at the first request: one request,
    no sleep, a normal return, whatever the status is and whatever the
    fuel. *)
Lemma poll_settled_at_once fuel w d w' status :
  control svc op w = (Returns d, w') →
  d !! key = Some status →
  status ≠ in_progress →
  poll op key in_progress line fuel w
  = Run (Ok status) w' [Call op (Returns d)].
Proof.
  intros Hc Hd Hne. rewrite (poll_first fuel w d w' status Hc Hd).
  destruct fuel; [rewrite while_0|rewrite while_S];
    by rewrite bool_decide_eq_false_2.
Qed.
End Polling.

Section PollingCells.
Context {value : Type} {svc : Service value}.

Lemma wait_for_endpoint_poll fuel :
  ThirdParty.wait_for_endpoint (svc := svc) fuel
  = poll (sm_describe_endpoint ThirdParty.MODEL_ENDPOINT) "EndpointStatus"
      "Creating"
      (λ status, ">> The current status of model endpoint " +:+ dquote
                 +:+ ThirdParty.MODEL_ENDPOINT +:+ dquote +:+ " is "
                 +:+ status) fuel.
Proof. done. Qed.

Lemma wait_for_processing_job_poll job_name fuel :
  ThirdParty2.wait_for_processing_job (svc := svc) job_name fuel
  = poll (sm_describe_processing_job job_name) "ProcessingJobStatus"
      "InProgress"
      (λ status, ">> The current status of processing_job " +:+ dquote
                 +:+ job_name +:+ dquote +:+ " is " +:+ status) fuel.
Proof. done. Qed.
End PollingCells.

Section PollingClaims.
Context {value : Type} {svc : Service value}.
Implicit Types (w : World svc).

(** C2.  When either polling cell ends normally with [status], the
    statuses it read are the in-progress value [k] times and then
    [status], which is not the in-progress value: the status read last is
    the one that ended the loop, and no earlier one could have.  The cell
    slept 45 s before each of the [k] further requests.  Conversely a
    service that leaves the in-progress value after [k] answers makes the
    cell return, once the bound of the model allows [k] turns. *)
Theorem poller_returns_only_after_leaving (w : World svc) (fuel : nat)
    (job_name status : string) :
  (result (ThirdParty.wait_for_endpoint fuel w) = Ok status →
   let t := trace (ThirdParty.wait_for_endpoint fuel w) in
   status ≠ "Creating"
   ∧ ∃ k, k ≤ fuel
       ∧ observed "EndpointStatus" t = replicate k "Creating" ++ [status]
       ∧ sleeps t = replicate k 45000%N
       ∧ issued t
         = replicate (S k) (sm_describe_endpoint ThirdParty.MODEL_ENDPOINT))
  ∧ (result (ThirdParty2.wait_for_processing_job job_name fuel w) = Ok status →
     let t := trace (ThirdParty2.wait_for_processing_job job_name fuel w) in
     status ≠ "InProgress"
     ∧ ∃ k, k ≤ fuel
         ∧ observed "ProcessingJobStatus" t
           = replicate k "InProgress" ++ [status]
         ∧ sleeps t = replicate k 45000%N
         ∧ issued t = replicate (S k) (sm_describe_processing_job job_name))
  ∧ (∀ k w',
       settles svc (sm_describe_endpoint ThirdParty.MODEL_ENDPOINT)
         "EndpointStatus" "Creating" k w status w' →
       k ≤ fuel →
       result (ThirdParty.wait_for_endpoint fuel w) = Ok status
       ∧ world_after (ThirdParty.wait_for_endpoint fuel w) = w')
  ∧ (∀ k w',
       settles svc (sm_describe_processing_job job_name)
         "ProcessingJobStatus" "InProgress" k w status w' →
       k ≤ fuel →
       result (ThirdParty2.wait_for_processing_job job_name fuel w) = Ok status
       ∧ world_after (ThirdParty2.wait_for_processing_job job_name fuel w) = w').
Proof.
  rewrite wait_for_endpoint_poll, wait_for_processing_job_poll.
  split; [apply poll_Ok|]. split; [apply poll_Ok|]. split.
  - intros k w' Hs Hk.
    edestruct (poll_settles (svc := svc)) as (H1 & H2 & _); [exact Hs|exact Hk|].
    split; [exact H1|exact H2].
  - intros k w' Hs Hk.
    edestruct (poll_settles (svc := svc)) as (H1 & H2 & _); [exact Hs|exact Hk|].
    split; [exact H1|exact H2].
Qed.

(** C10.  Let the service leave the in-progress value for any other
    status, ["Failed"] included, after [k] answers, the bound of the
    model allowing [k] turns.  Then the polling cell returns that status
    normally, and the cell after it runs from the world the poll left,
    with the same requests whichever status it was (in the latest
    snapshot whatever the kernel [g] holds for the globals that cell
    reads). *)
Theorem any_other_status_ends_the_wait (w w' : World svc) (fuel k : nat)
    (job_name hourly status : string) (g : ThirdParty2.namespace) :
  k ≤ fuel →
  (settles svc (sm_describe_endpoint ThirdParty.MODEL_ENDPOINT)
     "EndpointStatus" "Creating" k w status w' →
   let wait := ThirdParty.wait_for_endpoint fuel w in
   let next := ThirdParty.baselining_job w' in
   result wait = Ok status
   ∧ world_after wait = w'
   ∧ ThirdParty.wait_then_baseline fuel w
     = Run (result next) (world_after next) (trace wait ++ trace next))
  ∧ (settles svc (sm_describe_processing_job job_name)
       "ProcessingJobStatus" "InProgress" k w status w' →
     let wait := ThirdParty2.wait_for_processing_job job_name fuel w in
     let next := ThirdParty2.monitoring_schedule g hourly w' in
     result wait = Ok status
     ∧ world_after wait = w'
     ∧ ThirdParty2.wait_then_schedule g hourly job_name fuel w
       = Run (result next) (world_after next) (trace wait ++ trace next)).
Proof.
  intros Hk. split; intros Hs wait next; subst wait next.
  - unfold ThirdParty.wait_then_baseline. rewrite wait_for_endpoint_poll.
    match goal with |- context [poll ?op ?key ?ip ?line fuel w] =>
      destruct (poll_settles op key ip line k fuel w status w' Hs Hk)
        as (Hres & Hw & _) end.
    rewrite (bind_Ok _ _ _ _ Hres), Hw. by rewrite Hres.
  - unfold ThirdParty2.wait_then_schedule. rewrite wait_for_processing_job_poll.
    match goal with |- context [poll ?op ?key ?ip ?line fuel w] =>
      destruct (poll_settles op key ip line k fuel w status w' Hs Hk)
        as (Hres & Hw & _) end.
    rewrite (bind_Ok _ _ _ _ Hres), Hw. by rewrite Hres.
Qed.
End PollingClaims.

(** An instance: the endpoint is ["Creating"] for two answers, then
    ["InService"]; the cell sleeps twice and returns. *)
Lemma poller_returns_only_after_leaving_witness :
  result (ThirdParty.wait_for_endpoint (svc := demo None 2 "InService") 5 0)
  = Ok "InService"
  ∧ "InService" ≠ "Creating"
  ∧ ∃ k, k ≤ 5
      ∧ observed "EndpointStatus"
          (trace (ThirdParty.wait_for_endpoint (svc := demo None 2 "InService") 5 0))
        = replicate k "Creating" ++ ["InService"]
      ∧ sleeps (trace (ThirdParty.wait_for_endpoint
                         (svc := demo None 2 "InService") 5 0))
        = replicate k 45000%N.
Proof.
  assert (result (ThirdParty.wait_for_endpoint
                    (svc := demo None 2 "InService") 5 0) = Ok "InService")
    as Hok by (by vm_compute).
  split; [done|].
  destruct (poller_returns_only_after_leaving (svc := demo None 2 "InService")
              0 5 "job" "InService") as (H & _).
  destruct (H Hok) as (Hne & k & Hk & Hobs & Hsl & _).
  split; [done|]. by exists k.
Defined.

(** An instance: the endpoint reports ["Failed"] at once; the cell returns
    it and the baselining job is requested all the same. *)
Lemma any_other_status_ends_the_wait_witness :
  result (ThirdParty.wait_for_endpoint (svc := demo None 0 "Failed") 0 0)
  = Ok "Failed"
  ∧ issued (trace (ThirdParty.wait_then_baseline (svc := demo None 0 "Failed") 0 0))
    = [sm_describe_endpoint "third-party-model-endpoint";
       dmm_suggest_baseline
         "third-party-model-baseline-job-2021-03-01-12-00-00"
         "s3://sagemaker-us-east-1-000000000000/third-party-model-seller-name/train/baseline.csv"
         "s3://sagemaker-us-east-1-000000000000/third-party-model-seller-name/baselining"
         true false;
       dmm_job_wait false].
Proof.
  assert (settles (demo None 0 "Failed")
            (sm_describe_endpoint ThirdParty.MODEL_ENDPOINT)
            "EndpointStatus" "Creating" 0 (0 : World (demo None 0 "Failed"))
            "Failed" (1 : World (demo None 0 "Failed"))) as Hs.
  { eapply settles_now; [reflexivity|by vm_compute|done]. }
  destruct (any_other_status_ends_the_wait (svc := demo None 0 "Failed")
              0 1 0 0 "job" "cron(0 * ? * * *)" "Failed" ThirdParty2.fresh
              (Nat.le_refl 0))
    as [H _].
  destruct (H Hs) as (Hres & _ & Hrun).
  split; [exact Hres|]. rewrite Hrun. by vm_compute.
Defined.

(** * Teardown and provisioning *)

Section StraightLine.
Context {value : Type} {svc : Service value}.
Implicit Types (w : World svc).

Lemma bind_print {A} o (k : unit → M svc A) w :
  bind (print o) k w
  = Run (result (k tt w)) (world_after (k tt w)) (Printed o :: trace (k tt w)).
Proof. done. Qed.

Lemma bind_sleep {A} ms (k : unit → M svc A) w :
  bind (sleep ms) k w
  = Run (result (k tt w)) (world_after (k tt w)) (Sleep ms :: trace (k tt w)).
Proof. done. Qed.

Lemma bind_call_Returns {A} op (k : dict → M svc A) w d w' :
  control svc op w = (Returns d, w') →
  bind (call op) k w
  = Run (result (k d w')) (world_after (k d w'))
        (Call op (Returns d) :: trace (k d w')).
Proof. intros H. unfold bind, call. by rewrite H. Qed.

Lemma bind_call_Raises {A} op (k : dict → M svc A) w e w' :
  control svc op w = (Raises e, w') →
  bind (call op) k w = Run (Raise e) w' [Call op (Raises e)].
Proof. intros H. unfold bind, call. by rewrite H. Qed.

Lemma bind_getitem_Some {A} d key (k : string → M svc A) w v :
  d !! key = Some v → bind (getitem d key) k w = k v w.
Proof.
  intros H. unfold bind, getitem. rewrite H. simpl. by destruct (k v w).
Qed.

Lemma bind_getitem_None {A} d key (k : string → M svc A) w :
  d !! key = None → bind (getitem d key) k w = Run (Raise (KeyError key)) w [].
Proof. intros H. unfold bind, getitem. by rewrite H. Qed.

Lemma bind_global_Some {A B} name (v : A) (k : A → M svc B) w :
  bind (ThirdParty2.global name (Some v)) k w = k v w.
Proof. unfold bind, ThirdParty2.global. simpl. by destruct (k v w). Qed.

Lemma bind_global_None {A B} name (k : A → M svc B) w :
  bind (ThirdParty2.global name None) k w = Run (Raise (NameError name)) w [].
Proof. done. Qed.

(** Runs a straight-line cell one statement at a time; a request is split
    into the case where it is answered and the case where it raises, a
    dictionary access into the key being there or not, the reading of a
    global into the name being bound or not. *)
Ltac straight_line :=
  repeat first
    [ progress cbn beta iota delta [result world_after trace]
    | rewrite bind_assoc
    | rewrite bind_print
    | rewrite bind_sleep
    | rewrite ret_bind
    | rewrite bind_global_Some
    | rewrite bind_global_None
    | match goal with
      | |- context [bind (ThirdParty2.global ?x ?binding) ?k ?w] =>
          let E := fresh "Eglobal" in destruct binding eqn:E
      end
    | match goal with
      | |- context [bind (call ?op) ?k ?w] =>
          let E := fresh "Ecall" in
          destruct (control svc op w) as [[?|?] ?] eqn:E;
          [ rewrite (bind_call_Returns op k w _ _ E)
          | rewrite (bind_call_Raises op k w _ _ E) ]
      | |- context [bind (getitem ?d ?key) ?k ?w] =>
          let E := fresh "Eget" in
          destruct (d !! key) eqn:E;
          [ rewrite (bind_getitem_Some d key k w _ E)
          | rewrite (bind_getitem_None d key k w E) ]
      end ].

(** C3.  The cleanup cells of the marketplace notebook request, in every
    run, an initial part of one fixed sequence, whatever the service
    answers; a run that completes has requested all of it: the five
    stop and delete operations in the order schedule stop, schedule
    delete, endpoint, endpoint configuration, model, each followed by a
    30 s sleep and a listing.  Nothing the service answers holds a step
    back: a run in which no request raises is a complete run, whatever
    the listings report, so no step waits for the one before it to have
    taken effect. *)
Theorem teardown_order (w : World svc) :
  let script : list (api + N) :=
    [inl (sm_stop_monitoring_schedule ThirdParty.MODEL_MONITOR_SCHEDULE_NAME);
     inr 30000%N;
     inl (sm_list_monitoring_schedules ThirdParty.MODEL_ENDPOINT);
     inl (sm_delete_monitoring_schedule ThirdParty.MODEL_MONITOR_SCHEDULE_NAME);
     inr 30000%N;
     inl (sm_list_monitoring_schedules ThirdParty.MODEL_ENDPOINT);
     inl (sm_delete_endpoint ThirdParty.MODEL_ENDPOINT);
     inr 30000%N;
     inl (sm_list_endpoints ThirdParty.MODEL_ENDPOINT);
     inl (sm_delete_endpoint_config ThirdParty.MODEL_ENDPOINT_CONFIG);
     inr 30000%N;
     inl (sm_list_endpoint_configs ThirdParty.MODEL_ENDPOINT_CONFIG);
     inl (sm_delete_model ThirdParty.MODEL_NAME);
     inr 30000%N;
     inl (sm_list_models ThirdParty.MODEL_NAME)] in
  let t := trace (ThirdParty.cleanup w) in
  timeline t `prefix_of` script
  ∧ (result (ThirdParty.cleanup w) = Ok tt →
     timeline t = script
     ∧ filter tears_down (issued t)
       = [sm_stop_monitoring_schedule ThirdParty.MODEL_MONITOR_SCHEDULE_NAME;
          sm_delete_monitoring_schedule ThirdParty.MODEL_MONITOR_SCHEDULE_NAME;
          sm_delete_endpoint ThirdParty.MODEL_ENDPOINT;
          sm_delete_endpoint_config ThirdParty.MODEL_ENDPOINT_CONFIG;
          sm_delete_model ThirdParty.MODEL_NAME])
  ∧ ((∀ op e, Call op (Raises e) ∉ t) → result (ThirdParty.cleanup w) = Ok tt).
Proof.
  intros script t. subst t.
  remember (ThirdParty.cleanup w) as r eqn:Hr.
  unfold ThirdParty.cleanup, ThirdParty.cleanup_step1,
    ThirdParty.cleanup_step2, ThirdParty.cleanup_step3,
    ThirdParty.cleanup_step4, ThirdParty.cleanup_step5 in Hr.
  revert Hr. straight_line; intros ->;
    (split; [by repeat (apply prefix_cons || apply prefix_nil)|]);
    (split; [done|]); cbn [result trace]; intros Hanswered; try done;
    exfalso; eapply Hanswered;
    repeat first [apply list_elem_of_here | apply list_elem_of_further].
Qed.

(** The latest snapshot provisions through its three functions, in the
    same order, under the names the kernel holds. *)
Remark provisioning_functions_order (g : ThirdParty2.namespace)
    (w : World svc) model_name model_package_name endpoint_config_name
    s3_data_capture_uri instance_count instance_type endpoint_name :
  ThirdParty2.MODEL_NAME g = Some model_name →
  ThirdParty2.MODEL_PACKAGE_ARN g = Some model_package_name →
  ThirdParty2.MODEL_ENDPOINT_CONFIG g = Some endpoint_config_name →
  ThirdParty2.S3_DATA_CAPTURE_URI g = Some s3_data_capture_uri →
  ThirdParty2.MODEL_INSTANCE_COUNT g = Some instance_count →
  ThirdParty2.MODEL_INFERENCE_INSTANCE_TYPE g = Some instance_type →
  ThirdParty2.MODEL_ENDPOINT g = Some endpoint_name →
  issued (trace (ThirdParty2.provision g w))
  `prefix_of`
    [sm_create_model model_name model_package_name (role svc) true;
     sm_create_endpoint_config endpoint_config_name
       [{| VariantName := "AllTraffic";
           ModelName := model_name;
           InitialInstanceCount := instance_count;
           InstanceType := instance_type |}]
       {| EnableCapture := true;
          InitialSamplingPercentage := 100;
          DestinationS3Uri := s3_data_capture_uri;
          CaptureOptions := ["Input"; "Output"];
          CsvContentTypes := ["text/csv"] |};
     sm_create_endpoint endpoint_name endpoint_config_name].
Proof.
  intros H1 H2 H3 H4 H5 H6 H7.
  remember (ThirdParty2.provision g w) as r eqn:Hr.
  unfold ThirdParty2.provision, ThirdParty2.create_model,
    ThirdParty2.create_model_endpoint_config,
    ThirdParty2.create_model_endpoint in Hr.
  rewrite H1, H2, H3, H4, H5, H6, H7 in Hr.
  revert Hr. straight_line; intros ->;
    by repeat (apply prefix_cons || apply prefix_nil).
Qed.

(** The oldest snapshot tears down in the same order but sleeps only
    between the first two requests, and lists nothing. *)
Remark propensity_cleanup_timeline (w : World svc) :
  result (Propensity.cleanup w) = Ok tt →
  timeline (trace (Propensity.cleanup w))
  = [inl (sm_stop_monitoring_schedule Propensity.MODEL_MONITOR_SCHEDULE_NAME);
     inr 30000%N;
     inl (sm_delete_monitoring_schedule Propensity.MODEL_MONITOR_SCHEDULE_NAME);
     inl (sess_delete_endpoint Propensity.MODEL_ENDPOINT);
     inl (sess_delete_endpoint_config Propensity.MODEL_ENDPOINT_CONFIG);
     inl mp_delete_model].
Proof.
  remember (Propensity.cleanup w) as r eqn:Hr.
  unfold Propensity.cleanup in Hr. revert Hr.
  straight_line; by intros ->.
Qed.

(** C5.  In every run of the provisioning cells the requests are an
    initial part of model, endpoint configuration, endpoint: nothing is
    requested out of order and no delete is ever requested.  A run that
    completes made all three and holds the three identifiers the service
    answered.  A request that raises is the last event of the run and its
    exception is the outcome; in particular, when the endpoint request
    raises after the other two succeeded, the run ends in the world that
    request left, model and endpoint configuration untouched by the
    notebook. *)
Theorem provisioning_order_and_failure (w : World svc) :
  let create_model :=
    sm_create_model ThirdParty.MODEL_NAME ThirdParty.MODEL_PACKAGE_ARN
      (role svc) true in
  let create_endpoint_config :=
    sm_create_endpoint_config ThirdParty.MODEL_ENDPOINT_CONFIG
      [ThirdParty.product_variant_params]
      (ThirdParty.data_capture_params (svc := svc)) in
  let create_endpoint :=
    sm_create_endpoint ThirdParty.MODEL_ENDPOINT
      ThirdParty.MODEL_ENDPOINT_CONFIG in
  let r := ThirdParty.provision w in
  issued (trace r)
    `prefix_of` [create_model; create_endpoint_config; create_endpoint]
  ∧ (∀ model_arn endpoint_config_arn endpoint_arn,
       result r = Ok (model_arn, endpoint_config_arn, endpoint_arn) →
       issued (trace r) = [create_model; create_endpoint_config; create_endpoint]
       ∧ ∃ d1 d2 d3,
           answers (trace r) = [Returns d1; Returns d2; Returns d3]
           ∧ d1 !! "ModelArn" = Some model_arn
           ∧ d2 !! "EndpointConfigArn" = Some endpoint_config_arn
           ∧ d3 !! "EndpointArn" = Some endpoint_arn)
  ∧ (∀ op e, Call op (Raises e) ∈ trace r →
       result r = Raise e ∧ last (trace r) = Some (Call op (Raises e)))
  ∧ (∀ d1 w1 model_arn d2 w2 endpoint_config_arn e w3,
       control svc create_model w = (Returns d1, w1) →
       d1 !! "ModelArn" = Some model_arn →
       control svc create_endpoint_config w1 = (Returns d2, w2) →
       d2 !! "EndpointConfigArn" = Some endpoint_config_arn →
       control svc create_endpoint w2 = (Raises e, w3) →
       result r = Raise e
       ∧ world_after r = w3
       ∧ issued (trace r)
         = [create_model; create_endpoint_config; create_endpoint]).
Proof.
  intros create_model create_endpoint_config create_endpoint r.
  subst create_model create_endpoint_config create_endpoint.
  assert (r = ThirdParty.provision w) as Hr by done. clearbody r.
  unfold ThirdParty.provision, ThirdParty.create_model_cells,
    ThirdParty.create_endpoint_config_cells, ThirdParty.create_endpoint_cells
    in Hr.
  revert Hr. straight_line; intros ->;
    (split; [by repeat (apply prefix_cons || apply prefix_nil)|]);
    (split; [intros ??? [=]; subst; by eauto 10|]);
    (split; [intros op e' Hin;
             repeat (apply elem_of_cons in Hin as [[=]|Hin]; subst; try done);
             by apply elem_of_nil in Hin|]);
    intros;
    repeat first
      [ progress simplify_eq
      | match goal with
        | H1 : ?x = _, H2 : ?x = _ |- _ => rewrite H1 in H2
        end ];
    done.
Qed.
End StraightLine.

(** An instance: against a service whose listings keep reporting the
    resource just deleted, the cleanup goes through all the same: five
    stop and delete requests, 30 s of sleep after each. *)
Lemma teardown_order_witness :
  result (ThirdParty.cleanup (svc := lingering) 0) = Ok tt
  ∧ length (filter tears_down
              (issued (trace (ThirdParty.cleanup (svc := lingering) 0))))
    = 5
  ∧ sleeps (trace (ThirdParty.cleanup (svc := lingering) 0))
    = replicate 5 30000%N.
Proof.
  destruct (teardown_order (svc := lingering) 0) as (_ & Hfull & Hgoes).
  assert (result (ThirdParty.cleanup (svc := lingering) 0) = Ok tt) as Hok.
  { apply Hgoes. intros op e Hin. vm_compute in Hin.
    repeat (apply elem_of_cons in Hin as [Hin|Hin]; [discriminate Hin|]).
    by apply elem_of_nil in Hin. }
  split; [exact Hok|]. destruct (Hfull Hok) as [_ ->].
  split; [done|by vm_compute].
Defined.

(** An instance: the third request, the endpoint creation, fails; the run
    ends there and nothing was deleted. *)
Lemma provisioning_order_and_failure_witness :
  result (ThirdParty.provision (svc := demo (Some 2) 0 "InService") 0)
  = Raise (ClientError "ServiceUnavailable")
  ∧ world_after (ThirdParty.provision (svc := demo (Some 2) 0 "InService") 0) = 3
  ∧ filter tears_down
      (issued (trace (ThirdParty.provision (svc := demo (Some 2) 0 "InService") 0)))
    = [].
Proof.
  destruct (provisioning_order_and_failure (svc := demo (Some 2) 0 "InService") 0)
    as (_ & _ & _ & H).
  edestruct H as (Hres & Hw & Hiss); [reflexivity|by vm_compute|reflexivity
                                     |by vm_compute|reflexivity|].
  split; [exact Hres|]. split; [exact Hw|]. rewrite Hiss. by vm_compute.
Defined.

Section Transposition.
Context {A : Type}.
Implicit Types (columns rows : list (list A)) (row : list A).

Lemma mapM_head_Some columns row :
  mapM head columns = Some row ↔ Forall2 (λ c x, c !! 0 = Some x) columns row.
Proof.
  rewrite mapM_Some.
  split; intros H; (eapply Forall2_impl; [exact H|]); intros c x; simpl;
    by rewrite head_lookup.
Qed.

Lemma zip_rows_lookup n columns i row :
  zip_rows n columns !! i = Some row
  ↔ i < n ∧ Forall2 (λ c x, c !! i = Some x) columns row.
Proof.
  revert columns i. induction n as [|n IH]; intros columns i; simpl.
  - split; [done|]. intros [? _]; lia.
  - destruct (mapM head columns) as [row0|] eqn:Hheads.
    + apply mapM_head_Some in Hheads. destruct i as [|i]; simpl.
      * split.
        -- intros [= <-]. split; [lia|done].
        -- intros [_ Hrow]. f_equal.
           eapply Forall2_unique; [exact Hheads|exact Hrow|].
           intros c x y ??. congruence.
      * rewrite IH. rewrite Forall2_fmap_l.
        split; intros [Hi Hrow]; (split; [lia|]);
          (eapply Forall2_impl; [exact Hrow|]); intros c x; simpl;
          by rewrite lookup_tail.
    + split; [done|]. intros [_ Hrow]. exfalso.
      apply mapM_None in Hheads. apply Exists_exists in Hheads as (c & Hc & Hnone).
      apply list_elem_of_lookup in Hc as [j Hj].
      destruct (Forall2_lookup_l _ _ _ _ _ Hrow Hj) as (x & _ & Hx).
      destruct c; simplify_eq/=.
Qed.

(** Row [i] exists exactly when there is a column and every column has an
    entry [i]; it is made of these entries, in column order. *)
Lemma zip_star_lookup columns i row :
  zip_star columns !! i = Some row
  ↔ columns ≠ [] ∧ Forall2 (λ c x, c !! i = Some x) columns row.
Proof.
  destruct columns as [|first columns]; simpl.
  - split; [done|]. by intros [? _].
  - rewrite zip_rows_lookup. split.
    + by intros [_ ?].
    + intros [_ Hrow]. split; [|done].
      inversion Hrow as [|? x ? ? Hx]; simplify_eq.
      by apply lookup_lt_Some in Hx.
Qed.

Lemma zip_rows_length n columns :
  Forall (λ c, n ≤ length c) columns → length (zip_rows n columns) = n.
Proof.
  revert columns. induction n as [|n IH]; intros columns Hlen; [done|]. simpl.
  destruct (mapM head columns) as [row0|] eqn:Hheads.
  - simpl. f_equal. apply IH. apply Forall_fmap.
    eapply Forall_impl; [exact Hlen|]. intros c Hc. simpl.
    destruct c; simpl in *; lia.
  - apply mapM_None, Exists_exists in Hheads as (c & Hc & Hnone).
    rewrite Forall_forall in Hlen. specialize (Hlen c Hc).
    destruct c; simpl in *; [lia|done].
Qed.

Lemma zip_star_row_length columns :
  Forall (λ row, length row = length columns) (zip_star columns).
Proof.
  apply Forall_lookup. intros i row Hrow.
  apply zip_star_lookup in Hrow as [_ Hrow].
  symmetry. by eapply Forall2_length.
Qed.

Lemma zip_star_length columns n :
  columns ≠ [] → Forall (λ c, length c = n) columns →
  length (zip_star columns) = n.
Proof.
  destruct columns as [|first columns]; [done|]. intros _ Hrect. simpl.
  pose proof (Forall_inv Hrect) as Hfirst. simpl in Hfirst. rewrite Hfirst.
  apply zip_rows_length. eapply Forall_impl; [exact Hrect|].
  intros c Hc. simpl in Hc. lia.
Qed.

Lemma zip_star_involutive columns n :
  columns ≠ [] → 0 < n → Forall (λ c, length c = n) columns →
  zip_star (zip_star columns) = columns.
Proof.
  intros Hne Hn Hrect.
  pose proof (zip_star_length columns n Hne Hrect) as Hrows.
  assert (zip_star columns ≠ []) as Hrows_ne.
  { intros Hnil. rewrite Hnil in Hrows. simpl in Hrows. lia. }
  apply list_eq. intros j.
  destruct (columns !! j) as [c|] eqn:Hc.
  - apply zip_star_lookup. split; [done|].
    apply Forall2_same_length_lookup_2.
    + rewrite Hrows. symmetry.
      rewrite Forall_forall in Hrect. apply Hrect.
      by eapply list_elem_of_lookup_2.
    + intros i r x Hr Hx.
      apply zip_star_lookup in Hr as [_ Hr].
      destruct (Forall2_lookup_l _ _ _ _ _ Hr Hc) as (y & Hy & Hcy).
      congruence.
  - destruct (zip_star (zip_star columns) !! j) as [c|] eqn:Hz; [|done].
    exfalso. apply zip_star_lookup in Hz as [_ Hz].
    destruct (zip_star columns) as [|r0 rows] eqn:Hrows0; [done|].
    inversion Hz as [|? x ? ? Hx]; simplify_eq.
    apply lookup_lt_Some in Hx. apply lookup_ge_None in Hc.
    pose proof (zip_star_row_length columns) as Hlen.
    rewrite Hrows0 in Hlen. apply Forall_inv in Hlen. simpl in Hlen. lia.
Qed.

End Transposition.

(** A row of a frame is never empty: it has one field per column. *)
Lemma zip_star_nonempty {value} (frame : list (list value)) :
  Forall (λ row, nonempty (Row row)) (zip_star frame).
Proof.
  destruct frame as [|first frame]; [by constructor|].
  eapply Forall_impl; [apply zip_star_row_length|].
  intros row Hrow. unfold nonempty. simpl in *. lia.
Qed.

(** * Every printed line of a replay loop *)

Section ReplayLines.
Context {value : Type} {svc : Service value} {A : Type}.
Implicit Types (w : World svc) (l : list A).

Variable data : A → sample value.
Variable tail : nat → A → string → list (event value).
Variable skip : nat → A → list (event value).

Hypothesis tail_triples : ∀ i x p, triples (tail i x p) = [(i, data x, Some p)].
Hypothesis skip_triples : ∀ i x, triples (skip i x) = [(i, data x, None)].

Variable body : nat → A → M svc unit.
Hypothesis body_guarded : ∀ i x w, body i x w = guarded data tail skip i x w.

Lemma imap_numbered_cons start x l :
  imap (λ i y, (start + i, data y)) (x :: l)
  = (start, data x) :: imap (λ i y, (S start + i, data y)) l.
Proof.
  rewrite imap_cons. rewrite Nat.add_0_r. f_equal.
  apply imap_ext. intros i y _. simpl. f_equal. lia.
Qed.

(** A loop whose body prints on both sides of the guard: the lines are an
    initial part of the rows with their positions, all of them when the
    run ends normally, and a line carries a prediction exactly when its
    row is not empty. *)
Lemma replay_lines start l w :
  let r := for_enumerate body start l w in
  (triples (trace r)).*1 `prefix_of` imap (λ i x, (start + i, data x)) l
  ∧ (result r = Ok tt →
     (triples (trace r)).*1 = imap (λ i x, (start + i, data x)) l)
  ∧ Forall (λ tr, is_Some tr.2 ↔ nonempty tr.1.2) (triples (trace r)).
Proof.
  revert start w. induction l as [|x l IH]; intros start w.
  - simpl. split; [done|]. split; [done|]. constructor.
  - rewrite imap_numbered_cons, for_enumerate_cons.
    unfold bind. rewrite body_guarded. unfold guarded.
    destruct (decide (nonempty (data x))) as [Hx|Hx];
      cbn [result world_after trace].
    + destruct (predictor_predict svc (data x) w) as [[b|e] w'];
        cbn [result world_after trace];
        [|split; [apply prefix_nil|split; [done|constructor]]].
      destruct (decode_utf8 svc b) as [p|];
        cbn [result world_after trace];
        [|split; [apply prefix_nil|split; [done|constructor]]].
      destruct (IH (S start) w') as (IH1 & IH2 & IH3).
      change (Predict (data x) (Returns b) :: tail start x p)
        with ([Predict (data x) (Returns b)] ++ tail start x p).
      rewrite !triples_app, tail_triples. simpl.
      split; [by apply prefix_cons|]. split.
      * intros Hok. f_equal. exact (IH2 Hok).
      * constructor; [|done]. simpl. split; [done|by eauto].
    + destruct (IH (S start) w) as (IH1 & IH2 & IH3).
      rewrite triples_app, skip_triples. simpl.
      split; [by apply prefix_cons|]. split.
      * intros Hok. f_equal. exact (IH2 Hok).
      * constructor; [|done]. simpl. split; [by intros [? ?]|done].
Qed.
End ReplayLines.

Section MarketplaceLines.
Context {value : Type} {svc : Service value}.
Implicit Types (w : World svc).

Lemma propensity_lines start l w :
  let r := for_enumerate Propensity.replay_body start l w in
  (triples (trace r)).*1 `prefix_of` imap (λ i x, (start + i, Row x)) l
  ∧ (result r = Ok tt →
     (triples (trace r)).*1 = imap (λ i x, (start + i, Row x)) l)
  ∧ Forall (λ tr, is_Some tr.2 ↔ nonempty tr.1.2) (triples (trace r)).
Proof.
  by apply (replay_lines Row propensity_tail propensity_skip);
    [..|apply propensity_body_guarded].
Qed.

Lemma third_party_lines start l w :
  let r := for_enumerate ThirdParty.replay_body start l w in
  (triples (trace r)).*1 `prefix_of` imap (λ i x, (start + i, Row x)) l
  ∧ (result r = Ok tt →
     (triples (trace r)).*1 = imap (λ i x, (start + i, Row x)) l)
  ∧ Forall (λ tr, is_Some tr.2 ↔ nonempty tr.1.2) (triples (trace r)).
Proof.
  by apply (replay_lines Row propensity_tail third_party_skip);
    [..|apply third_party_body_guarded].
Qed.
End MarketplaceLines.

(** * Two loops that differ in what they do for an empty row *)

Section TwoLoops.
Context {value : Type} {svc : Service value} {A : Type}.
Implicit Types (w : World svc) (l : list A).

Variable data : A → sample value.
Variable tail : nat → A → string → list (event value).
Variable skip1 skip2 : nat → A → list (event value).

Hypothesis skip1_submitted : ∀ i x, submitted (skip1 i x) = [].
Hypothesis skip2_submitted : ∀ i x, submitted (skip2 i x) = [].
Hypothesis skip1_responses : ∀ i x, responses (skip1 i x) = [].
Hypothesis skip2_responses : ∀ i x, responses (skip2 i x) = [].
Hypothesis skip_triples : ∀ i x, triples (skip1 i x) = triples (skip2 i x).

Variable body1 body2 : nat → A → M svc unit.
Hypothesis body1_guarded : ∀ i x w, body1 i x w = guarded data tail skip1 i x w.
Hypothesis body2_guarded : ∀ i x w, body2 i x w = guarded data tail skip2 i x w.

Lemma replay_same_output start l w :
  let r1 := for_enumerate body1 start l w in
  let r2 := for_enumerate body2 start l w in
  result r1 = result r2
  ∧ world_after r1 = world_after r2
  ∧ submitted (trace r1) = submitted (trace r2)
  ∧ responses (trace r1) = responses (trace r2)
  ∧ triples (trace r1) = triples (trace r2).
Proof.
  revert start w. induction l as [|x l IH]; intros start w; [done|].
  rewrite !for_enumerate_cons. unfold bind.
  rewrite body1_guarded, body2_guarded. unfold guarded.
  destruct (decide (nonempty (data x))) as [Hx|Hx];
    cbn [result world_after trace].
  - destruct (predictor_predict svc (data x) w) as [[b|e] w'];
      cbn [result world_after trace]; [|done].
    destruct (decode_utf8 svc b) as [p|];
      cbn [result world_after trace]; [|done].
    destruct (IH (S start) w') as (IH1 & IH2 & IH3 & IH4 & IH5).
    rewrite !submitted_app, !responses_app, !triples_app.
    by rewrite IH1, IH2, IH3, IH4, IH5.
  - destruct (IH (S start) w) as (IH1 & IH2 & IH3 & IH4 & IH5).
    rewrite !submitted_app, !responses_app, !triples_app.
    rewrite skip1_submitted, skip2_submitted, skip1_responses, skip2_responses.
    by rewrite skip_triples, IH1, IH2, IH3, IH4, IH5.
Qed.
End TwoLoops.

Section Sleeps.
Context {value : Type} {svc : Service value} {A : Type}.
Implicit Types (w : World svc) (l : list A).

Variable data : A → sample value.
Variable tail : nat → A → string → list (event value).
Variable skip : nat → A → list (event value).

Hypothesis tail_sleeps : ∀ i x p, sleeps (tail i x p) = [500%N].
Hypothesis tail_submitted : ∀ i x p, submitted (tail i x p) = [].
Hypothesis skip_submitted : ∀ i x, submitted (skip i x) = [].

Variable body : nat → A → M svc unit.
Hypothesis body_guarded : ∀ i x w, body i x w = guarded data tail skip i x w.

(** The loop sleeps on the empty rows too: one sleep per row. *)
Lemma replay_sleeps_per_row start l w :
  (∀ i x, sleeps (skip i x) = [500%N]) →
  result (for_enumerate body start l w) = Ok tt →
  sleeps (trace (for_enumerate body start l w)) = replicate (length l) 500%N.
Proof.
  intros skip_sleeps.
  revert start w. induction l as [|x l IH]; intros start w; [done|].
  rewrite for_enumerate_cons. unfold bind. rewrite body_guarded.
  unfold guarded.
  destruct (decide (nonempty (data x))) as [Hx|Hx];
    cbn [result world_after trace].
  - destruct (predictor_predict svc (data x) w) as [[b|e] w'];
      cbn [result world_after trace]; [|done].
    destruct (decode_utf8 svc b) as [p|];
      cbn [result world_after trace]; [|done].
    intros Hok.
    change (Predict (data x) (Returns b) :: tail start x p)
      with ([Predict (data x) (Returns b)] ++ tail start x p).
    rewrite !sleeps_app, tail_sleeps, (IH _ _ Hok). done.
  - intros Hok. by rewrite sleeps_app, skip_sleeps, (IH _ _ Hok).
Qed.

(** The loop sleeps behind the guard only: one sleep per invocation. *)
Lemma replay_sleeps_per_invocation start l w :
  (∀ i x, sleeps (skip i x) = []) →
  result (for_enumerate body start l w) = Ok tt →
  sleeps (trace (for_enumerate body start l w))
  = replicate (length (submitted (trace (for_enumerate body start l w)))) 500%N.
Proof.
  intros skip_sleeps.
  revert start w. induction l as [|x l IH]; intros start w; [done|].
  rewrite for_enumerate_cons. unfold bind. rewrite body_guarded.
  unfold guarded.
  destruct (decide (nonempty (data x))) as [Hx|Hx];
    cbn [result world_after trace].
  - destruct (predictor_predict svc (data x) w) as [[b|e] w'];
      cbn [result world_after trace]; [|done].
    destruct (decode_utf8 svc b) as [p|];
      cbn [result world_after trace]; [|done].
    intros Hok.
    change (Predict (data x) (Returns b) :: tail start x p)
      with ([Predict (data x) (Returns b)] ++ tail start x p).
    rewrite !sleeps_app, !submitted_app, tail_sleeps, tail_submitted.
    rewrite (IH _ _ Hok). done.
  - intros Hok.
    by rewrite sleeps_app, submitted_app, skip_sleeps, skip_submitted,
      (IH _ _ Hok).
Qed.
End Sleeps.

(** * Slices of the drift file *)

Section Slices.
Context {A : Type}.
Implicit Types l : list A.

(** The three slices the violation cells take are the whole list, cut in
    three. *)
Lemma slices_cover l : slice 0 10 l ++ slice 10 20 l ++ drop 20 l = l.
Proof.
  unfold slice. rewrite drop_0, (assoc_L (++)).
  assert (take 10 l ++ drop 10 (take 20 l) = take 20 l) as ->.
  { replace (take 10 l) with (take 10 (take 20 l)); [apply take_drop|].
    rewrite take_take. by rewrite Nat.min_l by lia. }
  apply take_drop.
Qed.
End Slices.

Section RowsInOrder.
Context {value A : Type}.

Lemma rows_in_order_filter (data : A → sample value) start (l : list A) :
  (rows_in_order data start l).*2 = filter nonempty (data <$> l).
Proof.
  revert start. induction l as [|x l IH]; intros start; [done|].
  rewrite rows_in_order_cons, fmap_app, IH, fmap_cons, filter_cons.
  by destruct (decide (nonempty (data x))).
Qed.

Lemma imap_numbered_fst (data : A → sample value) start (l : list A) :
  (imap (λ i x, (start + i, data x)) l).*1 = seq start (length l).
Proof.
  revert start. induction l as [|x l IH]; intros start; [done|].
  rewrite imap_cons. simpl. rewrite Nat.add_0_r. f_equal.
  rewrite <-IH. f_equal. apply imap_ext. intros i y _. simpl. f_equal. lia.
Qed.

Lemma imap_numbered_snd (data : A → sample value) start (l : list A) :
  (imap (λ i x, (start + i, data x)) l).*2 = data <$> l.
Proof.
  revert start. induction l as [|x l IH]; intros start; [done|].
  rewrite imap_cons, !fmap_cons. cbn [snd]. f_equal.
  rewrite <-(IH (S start)). f_equal. apply imap_ext. intros i y _. simpl.
  f_equal. lia.
Qed.
End RowsInOrder.

(** * A frame replayed *)

Section FrameReplayed.
Context {value : Type} {svc : Service value}.
Implicit Types (w : World svc).

(** No row of a frame is turned away by the guard. *)
Lemma replay_frame_Ok w (columns : list (list value)) :
  let samples := zip_star columns in
  let r := ThirdParty.replay samples w in
  result r = Ok tt →
  submitted (trace r) = Row <$> samples
  ∧ length (responses (trace r)) = length samples
  ∧ (triples (trace r)).*1 = imap (λ i row, (i, Row row)) samples
  ∧ Forall (λ tr, is_Some tr.2) (triples (trace r)).
Proof.
  intros samples r Hok.
  subst r. unfold ThirdParty.replay in *.
  destruct (third_party_loop_Ok 0 samples w Hok) as (Hsub & _ & _ & Hlen).
  destruct (third_party_lines 0 samples w) as (_ & Hlines & Hsome).
  specialize (Hlines Hok). cbn zeta in Hsub, Hlen, Hlines, Hsome.
  rewrite rows_in_order_all in Hsub by apply zip_star_nonempty.
  split; [exact Hsub|]. split; [by rewrite Hlen, Hsub, length_fmap|].
  split; [exact Hlines|].
  apply Forall_forall. intros tr Htr.
  rewrite Forall_forall in Hsome. apply (Hsome tr Htr).
  assert (tr.1.2 ∈ Row <$> samples) as Hin.
  { rewrite <-(imap_numbered_snd Row 0 samples), <-Hlines.
    by apply list_elem_of_fmap_2, list_elem_of_fmap_2. }
  apply list_elem_of_fmap in Hin as (row & -> & Hrow).
  pose proof (zip_star_nonempty columns) as Hne.
  rewrite Forall_forall in Hne. by apply Hne.
Qed.
End FrameReplayed.

(** * Pacing of the invocations *)

Section Pace.
Context {value : Type}.
Implicit Types (t : list (event value)) (pending : bool).

Lemma pace_app pending t1 t2 :
  pace pending (t1 ++ t2) = pace pending t1 ≫= λ q, pace q t2.
Proof.
  revert pending. induction t1 as [|ev t1 IH]; intros pending; [done|].
  destruct ev as [op r|data r|ms|o]; simpl; [apply IH| |apply IH..].
  destruct pending; [done|apply IH].
Qed.

(** What [pace] checks, said with the trace alone: between two invocations
    there is a 500 ms sleep. *)
Lemma pace_spaced pending t q t1 a ra mid b rb t2 :
  pace pending t = Some q →
  t = t1 ++ Predict a ra :: mid ++ Predict b rb :: t2 →
  Sleep 500 ∈ mid.
Proof.
  intros Hpace ->. rewrite pace_app in Hpace.
  destruct (pace pending t1) as [p1|]; [|done]. simpl in Hpace.
  destruct p1; [done|]. clear t1 pending.
  induction mid as [|ev mid IH]; simpl in Hpace; [done|].
  destruct ev as [op r|data r|ms|o]; simpl in Hpace.
  - apply elem_of_cons. right. by apply IH.
  - done.
  - case_decide as Hms.
    + subst ms. apply elem_of_cons. by left.
    + apply elem_of_cons. right. by apply IH.
  - apply elem_of_cons. right. by apply IH.
Qed.
End Pace.

Section PacedLoops.
Context {value : Type} {svc : Service value} {A : Type}.
Implicit Types (w : World svc) (l : list A).

Variable data : A → sample value.
Variable tail : nat → A → string → list (event value).
Variable skip : nat → A → list (event value).

Hypothesis tail_paced : ∀ i x p, pace true (tail i x p) = Some false.
Hypothesis skip_paced : ∀ i x, pace false (skip i x) = Some false.

Variable body : nat → A → M svc unit.
Hypothesis body_guarded : ∀ i x w, body i x w = guarded data tail skip i x w.

(** Entered with no invocation pending, a loop never makes an invocation
    while one is pending, and leaves none pending when it ends normally. *)
Lemma replay_paced start l w :
  let r := for_enumerate body start l w in
  ∃ q, pace false (trace r) = Some q ∧ (result r = Ok tt → q = false).
Proof.
  revert start w. induction l as [|x l IH]; intros start w.
  - by exists false.
  - rewrite for_enumerate_cons. unfold bind. rewrite body_guarded.
    unfold guarded.
    destruct (decide (nonempty (data x))) as [Hx|Hx];
      cbn [result world_after trace].
    + destruct (predictor_predict svc (data x) w) as [[b|e] w'];
        cbn [result world_after trace]; [|by exists true].
      destruct (decode_utf8 svc b) as [p|];
        cbn [result world_after trace]; [|by exists true].
      destruct (IH (S start) w') as (q & Hq & Hok).
      exists q. split; [|done].
      change (Predict (data x) (Returns b) :: tail start x p)
        with ([Predict (data x) (Returns b)] ++ tail start x p).
      rewrite <-(assoc_L (++)), pace_app. simpl.
      by rewrite pace_app, tail_paced.
    + destruct (IH (S start) w) as (q & Hq & Hok).
      exists q. split; [|done]. by rewrite pace_app, skip_paced.
Qed.
End PacedLoops.

Section PacedCells.
Context {value : Type} {svc : Service value}.
Implicit Types (w : World svc).

Lemma iris_baseline_paced start l w :
  let r := for_enumerate Iris.baseline_body start l w in
  ∃ q, pace false (trace r) = Some q ∧ (result r = Ok tt → q = false).
Proof.
  by apply (replay_paced Row (iris_tail Row) (λ _ _, []));
    [..|apply baseline_body_guarded].
Qed.

Lemma iris_drift_paced start l w :
  let r := for_enumerate Iris.drift_body start l w in
  ∃ q, pace false (trace r) = Some q ∧ (result r = Ok tt → q = false).
Proof.
  by apply (replay_paced Text (iris_tail Text) (λ _ _, []));
    [..|apply drift_body_guarded].
Qed.

Lemma propensity_paced start l w :
  let r := for_enumerate Propensity.replay_body start l w in
  ∃ q, pace false (trace r) = Some q ∧ (result r = Ok tt → q = false).
Proof.
  by apply (replay_paced Row propensity_tail propensity_skip);
    [..|apply propensity_body_guarded].
Qed.

Lemma third_party_paced start l w :
  let r := for_enumerate ThirdParty.replay_body start l w in
  ∃ q, pace false (trace r) = Some q ∧ (result r = Ok tt → q = false).
Proof.
  by apply (replay_paced Row propensity_tail third_party_skip);
    [..|apply third_party_body_guarded].
Qed.

(** Two paced parts in sequence are paced. *)
Lemma bind_paced {A B} (m : M svc A) (k : A → M svc B) w :
  (∃ q, pace false (trace (m w)) = Some q
        ∧ (∀ a, result (m w) = Ok a → q = false)) →
  (∀ a w', ∃ q, pace false (trace (k a w')) = Some q
                ∧ (∀ b, result (k a w') = Ok b → q = false)) →
  ∃ q, pace false (trace (bind m k w)) = Some q
       ∧ (∀ b, result (bind m k w) = Ok b → q = false).
Proof.
  intros (q & Hq & Hok) Hk. unfold bind.
  destruct (result (m w)) as [a| |] eqn:Hres; cbn [result world_after trace].
  - destruct (Hk a (world_after (m w))) as (q' & Hq' & Hok').
    exists q'. split; [|done].
    rewrite pace_app, Hq. simpl. by rewrite (Hok a).
  - by exists q.
  - by exists q.
Qed.
End PacedCells.

(** * The rows read from the drift file *)

(** X1.  The rows that [zip( *columns)] builds from the columns of the
    frame: row [i] exists exactly when there is at least one column and
    every column has an entry [i], and it then holds entry [i] of each
    column, in column order.  So a column that is shorter than the others
    cuts the rows off at its length, and no column at all gives no row. *)
Theorem rows_are_the_columns_transposed {A} (columns : list (list A))
    (i : nat) (row : list A) :
  zip_star columns !! i = Some row
  ↔ columns ≠ [] ∧ Forall2 (λ column x, column !! i = Some x) columns row.
Proof. apply zip_star_lookup. Qed.

(** X2.  For a frame with at least one column and [n > 0] entries in
    every column, the transposition loses nothing: there are [n] rows,
    each with one field per column, and transposing the rows again gives
    the columns back. *)
Theorem transposing_twice_gives_the_columns_back {A}
    (columns : list (list A)) (n : nat) :
  columns ≠ [] → 0 < n → Forall (λ column, length column = n) columns →
  length (zip_star columns) = n
  ∧ Forall (λ row, length row = length columns) (zip_star columns)
  ∧ zip_star (zip_star columns) = columns.
Proof.
  intros Hne Hn Hrect. split; [by apply zip_star_length|].
  split; [apply zip_star_row_length|]. by eapply zip_star_involutive.
Qed.

(** An instance: two columns of three entries. *)
Lemma transposing_twice_gives_the_columns_back_witness :
  zip_star [[1; 2; 3]; [4; 5; 6]] = [[1; 4]; [2; 5]; [3; 6]]
  ∧ zip_star (zip_star [[1; 2; 3]; [4; 5; 6]]) = [[1; 2; 3]; [4; 5; 6]].
Proof.
  split; [done|].
  apply (transposing_twice_gives_the_columns_back [[1; 2; 3]; [4; 5; 6]] 3);
    [done|lia|by repeat constructor].
Defined.

Section FrameRows.
Context {value : Type} {svc : Service value}.
Implicit Types (w : World svc).

(** X3.  Cell 5.2 of the boto3 snapshot replays the rows it built
    from the columns of the drift file.  Such a row has one field per
    column, so the zero-length guard of [predict] never turns one away: a
    run that ends normally has submitted every row of the file, in file
    order, received one response per row, and printed a prediction on
    every line. *)
Theorem frame_rows_are_never_skipped (w : World svc)
    (columns : list (list value)) :
  let samples := zip_star columns in
  let r := ThirdParty.replay samples w in
  Forall (λ row, length row = length columns) samples
  ∧ (result r = Ok tt →
     submitted (trace r) = Row <$> samples
     ∧ length (responses (trace r)) = length samples
     ∧ (triples (trace r)).*1 = imap (λ i row, (i, Row row)) samples
     ∧ Forall (λ tr, is_Some tr.2) (triples (trace r))).
Proof.
  intros samples r. split; [apply zip_star_row_length|].
  apply replay_frame_Ok.
Qed.
End FrameRows.

(** An instance: a frame of two columns and three rows, against a service
    that answers everything. *)
Lemma frame_rows_are_never_skipped_witness :
  submitted (trace (ThirdParty.replay (svc := calm)
                      (zip_star [[1; 2; 3]; [4; 5; 6]]%Z) 0))
  = [Row [1; 4]; Row [2; 5]; Row [3; 6]]%Z
  ∧ Forall (λ tr, is_Some tr.2)
      (triples (trace (ThirdParty.replay (svc := calm)
                         (zip_star [[1; 2; 3]; [4; 5; 6]]%Z) 0))).
Proof.
  destruct (frame_rows_are_never_skipped (svc := calm) 0
              [[1; 2; 3]; [4; 5; 6]]%Z) as [_ H].
  destruct H as (Hsub & _ & _ & Hsome); [by vm_compute|].
  split; [|exact Hsome]. etrans; [exact Hsub|]. by vm_compute.
Defined.

Section MarketplaceLoops.
Context {value : Type} {svc : Service value}.
Implicit Types (w : World svc).

(** X4.  The loops of the marketplace notebook print on both sides of
    the guard.  In every run the printed lines are an initial part of the
    rows, each with its position in the list; a run that ends normally has
    printed one line for every row, empty rows included; and in every run
    a line shows a prediction exactly when its row is not empty, [None]
    marking the rows that were not submitted. *)
Theorem marketplace_loops_print_every_row (w : World svc)
    (samples : list (list value)) :
  (let r := ThirdParty.replay samples w in
   (triples (trace r)).*1 `prefix_of` imap (λ i row, (i, Row row)) samples
   ∧ (result r = Ok tt →
      (triples (trace r)).*1 = imap (λ i row, (i, Row row)) samples)
   ∧ Forall (λ tr, is_Some tr.2 ↔ nonempty tr.1.2) (triples (trace r)))
  ∧ (let r := Propensity.replay samples w in
     (triples (trace r)).*1 `prefix_of` imap (λ i row, (i, Row row)) samples
     ∧ (result r = Ok tt →
        (triples (trace r)).*1 = imap (λ i row, (i, Row row)) samples)
     ∧ Forall (λ tr, is_Some tr.2 ↔ nonempty tr.1.2) (triples (trace r))).
Proof.
  split.
  - apply (third_party_lines 0 samples w).
  - apply (propensity_lines 0 samples w).
Qed.

(** X5.  Between the oldest snapshot and the later ones the sleep
    moved from the loop into [predict], behind the guard.  On the same
    rows and from the same world the two loops end the same way, leave the
    same world, submit the same samples, receive the same responses and
    print the same lines; they differ in the sleeps only: in a run that
    ends normally the old loop has slept once per row, the new one once
    per invocation. *)
Theorem moving_the_sleep_keeps_the_output (w : World svc)
    (samples : list (list value)) :
  let old := Propensity.replay samples w in
  let new := ThirdParty.replay samples w in
  result old = result new
  ∧ world_after old = world_after new
  ∧ submitted (trace old) = submitted (trace new)
  ∧ responses (trace old) = responses (trace new)
  ∧ triples (trace old) = triples (trace new)
  ∧ (result new = Ok tt →
     sleeps (trace old) = replicate (length samples) 500%N
     ∧ sleeps (trace new)
       = replicate (length (submitted (trace new))) 500%N).
Proof.
  intros old new. subst old new.
  unfold Propensity.replay, ThirdParty.replay.
  destruct (replay_same_output Row propensity_tail
              propensity_skip third_party_skip
              ltac:(done) ltac:(done) ltac:(done) ltac:(done) ltac:(done)
              Propensity.replay_body ThirdParty.replay_body
              propensity_body_guarded third_party_body_guarded
              0 samples w) as (H1 & H2 & H3 & H4 & H5).
  repeat (split; [done|]). intros Hok. split.
  - apply (replay_sleeps_per_row Row propensity_tail propensity_skip
             ltac:(done) _ propensity_body_guarded); [done|].
    by etrans; [exact H1|].
  - by apply (replay_sleeps_per_invocation Row propensity_tail third_party_skip
                ltac:(done) ltac:(done) ltac:(done) _ third_party_body_guarded).
Qed.

(** X6.  The three violation cells of the oldest snapshot take the
    slices [0:10], [10:20] and [20:] of the rows.  The slices are the
    whole list cut in three, a short list leaving the later ones empty.
    Run one after the other to the end, the cells print one line for every
    row, in file order, and submit the non-empty rows; the index on a line
    is the position within the slice, not within the file: it starts
    again at 0 in each cell. *)
Theorem violation_cells_cover_the_file (w : World svc)
    (samples : list (list value)) :
  let r := Violations.run_all samples w in
  slice 0 10 samples ++ slice 10 20 samples ++ drop 20 samples = samples
  ∧ (result r = Ok tt →
     (triples (trace r)).*1.*2 = Row <$> samples
     ∧ (triples (trace r)).*1.*1
       = seq 0 (length (slice 0 10 samples))
         ++ seq 0 (length (slice 10 20 samples))
         ++ seq 0 (length (drop 20 samples))
     ∧ submitted (trace r) = filter nonempty (Row <$> samples)).
Proof.
  intros r. split; [apply slices_cover|]. intros Hok. subst r.
  unfold Violations.run_all in *.
  apply bind_Ok_inv in Hok as ([] & Hok1 & Hok23).
  rewrite (bind_Ok _ _ _ tt Hok1). cbn [result world_after trace].
  set (w1 := world_after (Propensity.data_type_check samples w)) in *.
  apply bind_Ok_inv in Hok23 as ([] & Hok2 & Hok3).
  rewrite (bind_Ok _ _ _ tt Hok2). cbn [result world_after trace].
  set (w2 := world_after (Propensity.completeness_check samples w1)) in *.
  unfold Propensity.data_type_check, Propensity.completeness_check,
    Propensity.baseline_drift_check, Propensity.replay in *.
  destruct (propensity_lines 0 (slice 0 10 samples) w) as (_ & L1 & _).
  destruct (propensity_lines 0 (slice 10 20 samples) w1) as (_ & L2 & _).
  destruct (propensity_lines 0 (drop 20 samples) w2) as (_ & L3 & _).
  specialize (L1 Hok1). specialize (L2 Hok2). specialize (L3 Hok3).
  destruct (propensity_loop_Ok 0 _ w Hok1) as (S1 & _).
  destruct (propensity_loop_Ok 0 _ w1 Hok2) as (S2 & _).
  destruct (propensity_loop_Ok 0 _ w2 Hok3) as (S3 & _).
  cbn zeta in *.
  rewrite !triples_app, !submitted_app, !fmap_app.
  rewrite L1, L2, L3, S1, S2, S3.
  rewrite !(imap_numbered_snd Row 0), !(imap_numbered_fst Row 0).
  rewrite !rows_in_order_filter, <-!filter_app, <-!fmap_app.
  by rewrite slices_cover.
Qed.

(** X7.  In every run of a replay loop, however it ends, two
    invocations of the endpoint are separated by a sleep of 500 ms: the
    loops never send a request on the heels of another. *)
Theorem invocations_are_paced (w : World svc)
    (t1 mid t2 : list (event value)) (a b : sample value)
    (ra rb : reply bytes) :
  (∀ sigma samples,
     trace (Iris.baseline sigma samples w)
       = t1 ++ Predict a ra :: mid ++ Predict b rb :: t2 →
     Sleep 500 ∈ mid)
  ∧ (∀ sample_drift_data,
       trace (Iris.drift sample_drift_data w)
         = t1 ++ Predict a ra :: mid ++ Predict b rb :: t2 →
       Sleep 500 ∈ mid)
  ∧ (∀ samples,
       trace (Violations.run_all samples w)
         = t1 ++ Predict a ra :: mid ++ Predict b rb :: t2 →
       Sleep 500 ∈ mid)
  ∧ (∀ samples,
       trace (ThirdParty.replay samples w)
         = t1 ++ Predict a ra :: mid ++ Predict b rb :: t2 →
       Sleep 500 ∈ mid).
Proof.
  assert (∀ {A} (m : M svc A),
            (∃ q, pace false (trace (m w)) = Some q
                  ∧ (∀ x, result (m w) = Ok x → q = false)) →
            trace (m w) = t1 ++ Predict a ra :: mid ++ Predict b rb :: t2 →
            Sleep 500 ∈ mid) as Hspaced.
  { intros A m (q & Hq & _) Ht. by eapply pace_spaced. }
  assert (∀ {A} (body : nat → A → M svc unit) start l,
            (∀ w', ∃ q, pace false (trace (for_enumerate body start l w')) = Some q
                        ∧ (result (for_enumerate body start l w') = Ok tt
                           → q = false)) →
            ∀ w', ∃ q, pace false (trace (for_enumerate body start l w')) = Some q
                    ∧ (∀ x, result (for_enumerate body start l w') = Ok x
                            → q = false)) as Hunit.
  { intros A body start l H w'. destruct (H w') as (q & Hq & Hok).
    exists q. split; [done|]. by intros []. }
  assert (∀ text w', ∃ q,
            pace false (trace (print (svc := svc) (Line text) w')) = Some q
            ∧ (∀ x, result (print (svc := svc) (Line text) w') = Ok x
                    → q = false)) as Hprint.
  { intros text w'. by exists false. }
  repeat split.
  - intros sigma samples. apply Hspaced. unfold Iris.baseline.
    apply bind_paced; [|intros _ w'; apply Hprint].
    apply Hunit. intros w'. apply iris_baseline_paced.
  - intros sample_drift_data. apply Hspaced. unfold Iris.drift.
    apply bind_paced; [|intros _ w'; apply Hprint].
    apply Hunit. intros w'. apply iris_drift_paced.
  - intros samples. apply Hspaced. unfold Violations.run_all.
    apply bind_paced; [|intros _ w'; apply bind_paced; [|intros _ w'']].
    + apply Hunit. intros w'. apply propensity_paced.
    + apply Hunit. intros w''. apply propensity_paced.
    + apply Hunit. intros w3. apply propensity_paced.
  - intros samples. apply Hspaced.
    apply Hunit. intros w'. apply third_party_paced.
Qed.
End MarketplaceLoops.

(** An instance: three rows, the second one empty. *)
Lemma marketplace_loops_print_every_row_witness :
  triples (trace (ThirdParty.replay (svc := calm) [[1]; []; [3]]%Z 0))
  = [(0, Row [1%Z], Some "ok"); (1, Row [], None); (2, Row [3%Z], Some "ok")]
  ∧ (triples (trace (ThirdParty.replay (svc := calm) [[1]; []; [3]]%Z 0))).*1
    = imap (λ i row, (i, Row row)) [[1]; []; [3]]%Z.
Proof.
  split; [by vm_compute|].
  destruct (marketplace_loops_print_every_row (svc := calm) 0 [[1]; []; [3]]%Z)
    as [(_ & H & _) _].
  apply H. by vm_compute.
Defined.

(** An instance: three rows, the second one empty; the old loop sleeps
    three times, the new one twice. *)
Lemma moving_the_sleep_keeps_the_output_witness :
  sleeps (trace (Propensity.replay (svc := calm) [[1]; []; [3]]%Z 0))
  = [500; 500; 500]%N
  ∧ sleeps (trace (ThirdParty.replay (svc := calm) [[1]; []; [3]]%Z 0))
    = [500; 500]%N
  ∧ triples (trace (Propensity.replay (svc := calm) [[1]; []; [3]]%Z 0))
    = triples (trace (ThirdParty.replay (svc := calm) [[1]; []; [3]]%Z 0)).
Proof.
  destruct (moving_the_sleep_keeps_the_output (svc := calm) 0 [[1]; []; [3]]%Z)
    as (_ & _ & _ & _ & Htriples & Hsleeps).
  destruct Hsleeps as [Hold Hnew]; [by vm_compute|].
  split; [etrans; [exact Hold|by vm_compute]|].
  split; [etrans; [exact Hnew|by vm_compute]|exact Htriples].
Defined.

(** An instance: a file of 23 rows; the indices printed are 0 to 9, 0 to 9
    and 0 to 2. *)
Lemma violation_cells_cover_the_file_witness :
  (triples (trace (Violations.run_all (svc := calm)
                     ((λ z, [z]) <$> seqZ 0 23) 0))).*1.*1
  = seq 0 10 ++ seq 0 10 ++ seq 0 3.
Proof.
  destruct (violation_cells_cover_the_file (svc := calm) 0
              ((λ z, [z]) <$> seqZ 0 23)) as [_ H].
  destruct H as (_ & Hidx & _); [by vm_compute|].
  etrans; [exact Hidx|]. by vm_compute.
Defined.

(** An instance: two rows; between the two invocations the loop slept and
    printed the first line. *)
Lemma invocations_are_paced_witness :
  trace (ThirdParty.replay (svc := calm) [[1]; [2]]%Z 0)
  = [] ++ Predict (Row [1%Z]) (Returns [Byte.x6f; Byte.x6b])
       :: [Sleep 500; Printed (SampleLine 0 (Row [1%Z]) (Some "ok"))]
       ++ Predict (Row [2%Z]) (Returns [Byte.x6f; Byte.x6b])
       :: [Sleep 500; Printed (SampleLine 1 (Row [2%Z]) (Some "ok"))]
  ∧ Sleep 500 ∈ [Sleep (value := Z) 500;
                 Printed (SampleLine 0 (Row [1%Z]) (Some "ok"))].
Proof.
  assert (trace (ThirdParty.replay (svc := calm) [[1]; [2]]%Z 0)
          = [] ++ Predict (Row [1%Z]) (Returns [Byte.x6f; Byte.x6b])
               :: [Sleep 500; Printed (SampleLine 0 (Row [1%Z]) (Some "ok"))]
               ++ Predict (Row [2%Z]) (Returns [Byte.x6f; Byte.x6b])
               :: [Sleep 500; Printed (SampleLine 1 (Row [2%Z]) (Some "ok"))])
    as Ht by (by vm_compute).
  split; [exact Ht|].
  destruct (invocations_are_paced (svc := calm) 0 []
              [Sleep 500; Printed (SampleLine 0 (Row [1%Z]) (Some "ok"))]
              [Sleep 500; Printed (SampleLine 1 (Row [2%Z]) (Some "ok"))]
              (Row [1%Z]) (Row [2%Z])
              (Returns [Byte.x6f; Byte.x6b]) (Returns [Byte.x6f; Byte.x6b]))
    as (_ & _ & _ & H).
  exact (H [[1]; [2]]%Z Ht).
Defined.

(** * Polling, in every run *)

Section TraceFacts2.
Context {value : Type}.
Implicit Types t : list (event value).

Lemma lines_app t1 t2 : lines (t1 ++ t2) = lines t1 ++ lines t2.
Proof. apply omap_app. Qed.

Lemma observed_app key t1 t2 :
  observed key (t1 ++ t2) = observed key t1 ++ observed key t2.
Proof. unfold observed. by rewrite answers_app, omap_app. Qed.
End TraceFacts2.

Section PollingRuns.
Context {value : Type} {svc : Service value}.
Variables (op : api) (key in_progress : string) (line : string → string).
Implicit Types (w : World svc) (status : string).

Local Abbreviation cond := (λ status : string, bool_decide (status = in_progress)).
Local Abbreviation body := (poll_body (svc := svc) op key line).

(** One turn of the loop when the request raises. *)
Lemma poll_body_Raises w e w' s0 :
  control svc op w = (Raises e, w') →
  body s0 w = Run (Raise e) w' [Sleep 45000; Call op (Raises e)].
Proof.
  intros Hc. unfold poll_body, bind, sleep, call. simpl. by rewrite Hc.
Qed.

(** One turn of the loop when the answer has no status. *)
Lemma poll_body_KeyError w d w' s0 :
  control svc op w = (Returns d, w') →
  d !! key = None →
  body s0 w = Run (Raise (KeyError key)) w' [Sleep 45000; Call op (Returns d)].
Proof.
  intros Hc Hd. unfold poll_body, bind, sleep, call, getitem. simpl.
  rewrite Hc. simpl. by rewrite Hd.
Qed.

(** The three ways a turn can go. *)
Lemma poll_body_cases w s0 :
  (∃ d w' status, control svc op w = (Returns d, w') ∧ d !! key = Some status
     ∧ body s0 w = Run (Ok status) w'
         [Sleep 45000; Call op (Returns d); Printed (Line (line status))])
  ∨ (∃ d w', control svc op w = (Returns d, w') ∧ d !! key = None
       ∧ body s0 w = Run (Raise (KeyError key)) w'
           [Sleep 45000; Call op (Returns d)])
  ∨ (∃ e w', control svc op w = (Raises e, w')
       ∧ body s0 w = Run (Raise e) w' [Sleep 45000; Call op (Raises e)]).
Proof.
  destruct (control svc op w) as [[d|e] w'] eqn:Hc.
  - destruct (d !! key) as [status|] eqn:Hd.
    + left. exists d, w', status. by rewrite (poll_body_Returns op key line w d w' status s0).
    + right; left. exists d, w'. by rewrite (poll_body_KeyError w d w' s0).
  - right; right. exists e, w'. by rewrite (poll_body_Raises w e w' s0).
Qed.

(** The first request of the cell, when it raises or lacks the status. *)
Lemma poll_first_Raises fuel w e w' :
  control svc op w = (Raises e, w') →
  poll op key in_progress line fuel w = Run (Raise e) w' [Call op (Raises e)].
Proof. intros Hc. unfold poll, bind, call. by rewrite Hc. Qed.

Lemma poll_first_KeyError fuel w d w' :
  control svc op w = (Returns d, w') →
  d !! key = None →
  poll op key in_progress line fuel w
  = Run (Raise (KeyError key)) w' [Call op (Returns d)].
Proof.
  intros Hc Hd. unfold poll, bind, call, getitem. rewrite Hc. simpl.
  by rewrite Hd.
Qed.

(** Every run of the loop: only status requests, at most one per turn; a
    45 s sleep before each; every status read is printed. *)
Lemma while_poll_run fuel s0 w :
  let t := trace (while_ fuel cond body s0 w) in
  ∃ n, n ≤ fuel
    ∧ issued t = replicate n op
    ∧ sleeps t = replicate n 45000%N
    ∧ submitted t = []
    ∧ lines t = line <$> observed key t.
Proof.
  revert s0 w. induction fuel as [|fuel IH]; intros s0 w.
  - rewrite while_0. exists 0. by case_bool_decide.
  - rewrite while_S. case_bool_decide as Hs; [|by exists 0; split; [lia|]].
    destruct (poll_body_cases w s0)
      as [(d & w' & status & Hc & Hd & Hb)
         |[(d & w' & Hc & Hd & Hb)|(e & w' & Hc & Hb)]].
    + rewrite (bind_Ok _ _ _ status) by (by rewrite Hb). rewrite Hb.
      cbn [result world_after trace].
      destruct (IH status w') as (n & Hn & Hiss & Hsl & Hsub & Hlines).
      exists (S n). split; [lia|].
      rewrite issued_app, sleeps_app, submitted_app, lines_app, observed_app.
      rewrite Hiss, Hsl, Hsub, Hlines. unfold observed. simpl. by rewrite Hd.
    + rewrite (bind_Raise _ _ _ (KeyError key)) by (by rewrite Hb). rewrite Hb.
      cbn [result world_after trace].
      exists 1. split; [lia|]. unfold observed. simpl. by rewrite Hd.
    + rewrite (bind_Raise _ _ _ e) by (by rewrite Hb). rewrite Hb.
      cbn [result world_after trace].
      exists 1. split; [lia|]. done.
Qed.

(** Every run of the cell. *)
Lemma poll_run fuel w :
  let t := trace (poll op key in_progress line fuel w) in
  ∃ n, n ≤ fuel
    ∧ issued t = replicate (S n) op
    ∧ sleeps t = replicate n 45000%N
    ∧ submitted t = []
    ∧ lines t = line <$> tail (observed key t).
Proof.
  destruct (control svc op w) as [[d|e] w'] eqn:Hc.
  - destruct (d !! key) as [status|] eqn:Hd.
    + rewrite (poll_first op key in_progress line fuel w d w' status Hc Hd).
      cbn [result world_after trace].
      destruct (while_poll_run fuel status w')
        as (n & Hn & Hiss & Hsl & Hsub & Hlines).
      exists n. split; [done|].
      rewrite (observed_Call op key _ d status Hd). simpl.
      by rewrite Hiss, Hsl, Hsub, Hlines.
    + rewrite (poll_first_KeyError fuel w d w' Hc Hd). simpl.
      exists 0. split; [lia|]. unfold observed. simpl. by rewrite Hd.
  - rewrite (poll_first_Raises fuel w e w' Hc). simpl.
    exists 0. split; [lia|]. done.
Qed.

Lemma while_poll_stuck fuel w :
  stuck svc op key in_progress →
  let r := while_ fuel cond body in_progress w in
  result r = OutOfFuel
  ∧ issued (trace r) = replicate fuel op
  ∧ sleeps (trace r) = replicate fuel 45000%N.
Proof.
  intros Hstuck. revert w. induction fuel as [|fuel IH]; intros w.
  - rewrite while_0. by rewrite bool_decide_eq_true_2.
  - rewrite while_S, bool_decide_eq_true_2 by done.
    destruct (Hstuck w) as (d & w' & Hc & Hd).
    pose proof (poll_body_Returns op key line w d w' in_progress in_progress Hc Hd) as Hb.
    rewrite (bind_Ok _ _ _ in_progress) by (by rewrite Hb). rewrite Hb.
    cbn [result world_after trace].
    destruct (IH w') as (Hres & Hiss & Hsl).
    rewrite issued_app, sleeps_app, Hres, Hiss, Hsl. done.
Qed.

Lemma poll_stuck fuel w :
  stuck svc op key in_progress →
  let r := poll op key in_progress line fuel w in
  result r = OutOfFuel
  ∧ issued (trace r) = replicate (S fuel) op
  ∧ sleeps (trace r) = replicate fuel 45000%N.
Proof.
  intros Hstuck. destruct (Hstuck w) as (d & w' & Hc & Hd).
  rewrite (poll_first op key in_progress line fuel w d w' in_progress Hc Hd).
  cbn zeta. cbn [result world_after trace].
  destruct (while_poll_stuck fuel w' Hstuck) as (Hres & Hiss & Hsl).
  split; [exact Hres|]. split; [exact (f_equal (cons op) Hiss)|exact Hsl].
Qed.

(** After [k] in-progress answers inside the loop, a request that fails
    ends the loop; [how] is the failure and [last] the failed event. *)
Lemma while_poll_fails k w w1 fuel :
  stalls svc op key in_progress k w w1 →
  k < fuel →
  ∀ e w2 ev,
    body in_progress w1 = Run (Raise e) w2 [Sleep 45000; ev] →
    (∃ r, ev = Call op r) →
    let r := while_ fuel cond body in_progress w in
    result r = Raise e ∧ world_after r = w2
    ∧ sleeps (trace r) = replicate (S k) 45000%N
    ∧ issued (trace r) = replicate (S k) op
    ∧ last (trace r) = Some ev.
Proof.
  intros Hstalls. revert fuel.
  induction Hstalls as [w|k w d w' w'' Hc Hd Hstalls IH];
    intros fuel Hk e w2 ev Hb [r0 ->];
    (destruct fuel as [|fuel]; [lia|]);
    rewrite while_S, bool_decide_eq_true_2 by done.
  - rewrite (bind_Raise _ _ _ e) by (by rewrite Hb). by rewrite Hb.
  - pose proof (poll_body_Returns op key line w d w' in_progress in_progress Hc Hd) as Hb1.
    rewrite (bind_Ok _ _ _ in_progress) by (by rewrite Hb1). rewrite Hb1.
    cbn [result world_after trace].
    destruct (IH fuel ltac:(lia) e w2 (Call op r0) Hb ltac:(by eexists))
      as (Hres & Hw & Hsl & Hiss & Hlast).
    rewrite sleeps_app, issued_app, Hres, Hw, Hsl, Hiss.
    repeat (split; [done|]).
    rewrite last_app, Hlast. done.
Qed.

Lemma poll_fails_raising k w w1 fuel e w2 :
  stalls svc op key in_progress k w w1 →
  k ≤ fuel →
  control svc op w1 = (Raises e, w2) →
  let r := poll op key in_progress line fuel w in
  result r = Raise e ∧ world_after r = w2
  ∧ sleeps (trace r) = replicate k 45000%N
  ∧ issued (trace r) = replicate (S k) op
  ∧ last (trace r) = Some (Call op (Raises e)).
Proof.
  intros Hstalls Hk He.
  inversion Hstalls as [w0|k' w0 d w' w'' Hc Hd Hstalls']; simplify_eq.
  - by rewrite (poll_first_Raises fuel w1 e w2 He).
  - rewrite (poll_first op key in_progress line fuel w d w' in_progress Hc Hd).
    cbn zeta. cbn [result world_after trace].
    destruct (while_poll_fails k' w' w1 fuel Hstalls' ltac:(lia) e w2
                (Call op (Raises e)) (poll_body_Raises w1 e w2 in_progress He)
                ltac:(by eexists))
      as (Hres & Hw & Hsl & Hiss & Hlast).
    split; [exact Hres|]. split; [exact Hw|]. split; [exact Hsl|].
    split; [exact (f_equal (cons op) Hiss)|].
    change (Call op (Returns d) :: ?t) with ([Call op (Returns d)] ++ t).
    by rewrite last_app, Hlast.
Qed.

Lemma poll_fails_missing k w w1 fuel d w2 :
  stalls svc op key in_progress k w w1 →
  k ≤ fuel →
  control svc op w1 = (Returns d, w2) →
  d !! key = None →
  let r := poll op key in_progress line fuel w in
  result r = Raise (KeyError key) ∧ world_after r = w2
  ∧ sleeps (trace r) = replicate k 45000%N
  ∧ issued (trace r) = replicate (S k) op
  ∧ last (trace r) = Some (Call op (Returns d)).
Proof.
  intros Hstalls Hk Hc2 Hd2.
  inversion Hstalls as [w0|k' w0 d' w' w'' Hc Hd Hstalls']; simplify_eq.
  - by rewrite (poll_first_KeyError fuel w1 d w2 Hc2 Hd2).
  - rewrite (poll_first op key in_progress line fuel w d' w' in_progress Hc Hd).
    cbn zeta. cbn [result world_after trace].
    destruct (while_poll_fails k' w' w1 fuel Hstalls' ltac:(lia)
                (KeyError key) w2 (Call op (Returns d))
                (poll_body_KeyError w1 d w2 in_progress Hc2 Hd2)
                ltac:(by eexists))
      as (Hres & Hw & Hsl & Hiss & Hlast).
    split; [exact Hres|]. split; [exact Hw|]. split; [exact Hsl|].
    split; [exact (f_equal (cons op) Hiss)|].
    change (Call op (Returns d') :: ?t) with ([Call op (Returns d')] ++ t).
    by rewrite last_app, Hlast.
Qed.
End PollingRuns.

Section PollingExtras.
Context {value : Type} {svc : Service value}.
Implicit Types (w : World svc).

(** X8.  The polling cells have no timeout.  If the service
    answers the in-progress value to every status request, the cell never
    returns: whatever number of turns the model allows, the loop is still
    running when they are used up, having slept 45 s in each of them and
    asked for the status once more than that. *)
Theorem polling_has_no_timeout (w : World svc) (fuel : nat)
    (job_name : string) :
  (stuck svc (sm_describe_endpoint ThirdParty.MODEL_ENDPOINT)
     "EndpointStatus" "Creating" →
   let r := ThirdParty.wait_for_endpoint fuel w in
   result r = OutOfFuel
   ∧ issued (trace r)
     = replicate (S fuel) (sm_describe_endpoint ThirdParty.MODEL_ENDPOINT)
   ∧ sleeps (trace r) = replicate fuel 45000%N)
  ∧ (stuck svc (sm_describe_processing_job job_name)
       "ProcessingJobStatus" "InProgress" →
     let r := ThirdParty2.wait_for_processing_job job_name fuel w in
     result r = OutOfFuel
     ∧ issued (trace r)
       = replicate (S fuel) (sm_describe_processing_job job_name)
     ∧ sleeps (trace r) = replicate fuel 45000%N).
Proof.
  rewrite wait_for_endpoint_poll, wait_for_processing_job_poll.
  split; intros Hstuck; by apply poll_stuck.
Qed.

(** X9.  A polling cell does not survive a failed status request.
    Let the service answer the in-progress value [k] times and let the
    next request raise [e], or be answered without the status field.
    Then the cell ends with [e], respectively with the [KeyError] of the
    field, in the world that request left; the failed request is the last
    event, so nothing is retried; the cell has slept [k] times. *)
Theorem polling_stops_at_the_first_failure (w w1 w2 : World svc)
    (fuel k : nat) (job_name : string) :
  k ≤ fuel →
  (stalls svc (sm_describe_endpoint ThirdParty.MODEL_ENDPOINT)
     "EndpointStatus" "Creating" k w w1 →
   let op := sm_describe_endpoint ThirdParty.MODEL_ENDPOINT in
   let r := ThirdParty.wait_for_endpoint fuel w in
   (∀ e, control svc op w1 = (Raises e, w2) →
      result r = Raise e ∧ world_after r = w2
      ∧ sleeps (trace r) = replicate k 45000%N
      ∧ issued (trace r) = replicate (S k) op
      ∧ last (trace r) = Some (Call op (Raises e)))
   ∧ (∀ d, control svc op w1 = (Returns d, w2) →
        d !! "EndpointStatus" = None →
        result r = Raise (KeyError "EndpointStatus") ∧ world_after r = w2
        ∧ sleeps (trace r) = replicate k 45000%N
        ∧ issued (trace r) = replicate (S k) op
        ∧ last (trace r) = Some (Call op (Returns d))))
  ∧ (stalls svc (sm_describe_processing_job job_name)
       "ProcessingJobStatus" "InProgress" k w w1 →
     let op := sm_describe_processing_job job_name in
     let r := ThirdParty2.wait_for_processing_job job_name fuel w in
     (∀ e, control svc op w1 = (Raises e, w2) →
        result r = Raise e ∧ world_after r = w2
        ∧ sleeps (trace r) = replicate k 45000%N
        ∧ issued (trace r) = replicate (S k) op
        ∧ last (trace r) = Some (Call op (Raises e)))
     ∧ (∀ d, control svc op w1 = (Returns d, w2) →
          d !! "ProcessingJobStatus" = None →
          result r = Raise (KeyError "ProcessingJobStatus")
          ∧ world_after r = w2
          ∧ sleeps (trace r) = replicate k 45000%N
          ∧ issued (trace r) = replicate (S k) op
          ∧ last (trace r) = Some (Call op (Returns d)))).
Proof.
  intros Hk. rewrite wait_for_endpoint_poll, wait_for_processing_job_poll.
  split; intros Hstalls op r; subst op r; split.
  - intros e He. by eapply poll_fails_raising.
  - intros d Hc Hd. by eapply poll_fails_missing.
  - intros e He. by eapply poll_fails_raising.
  - intros d Hc Hd. by eapply poll_fails_missing.
Qed.

(** X10.  In every run, however it ends, a polling cell makes
    status requests only, at most one more than the turns of its loop; it
    sleeps 45 s before each request but the first, never invokes the
    endpoint, and prints a line for every status it reads except the
    first one: an endpoint that is ready at the first request leaves the
    cell silent. *)
Theorem polling_prints_every_status_but_the_first (w : World svc)
    (fuel : nat) (job_name : string) :
  (let t := trace (ThirdParty.wait_for_endpoint fuel w) in
   ∃ n, n ≤ fuel
     ∧ issued t
       = replicate (S n) (sm_describe_endpoint ThirdParty.MODEL_ENDPOINT)
     ∧ sleeps t = replicate n 45000%N
     ∧ submitted t = []
     ∧ lines t
       = (λ status, ">> The current status of model endpoint " +:+ dquote
                    +:+ ThirdParty.MODEL_ENDPOINT +:+ dquote +:+ " is "
                    +:+ status)
         <$> tail (observed "EndpointStatus" t))
  ∧ (let t := trace (ThirdParty2.wait_for_processing_job job_name fuel w) in
     ∃ n, n ≤ fuel
       ∧ issued t = replicate (S n) (sm_describe_processing_job job_name)
       ∧ sleeps t = replicate n 45000%N
       ∧ submitted t = []
       ∧ lines t
         = (λ status, ">> The current status of processing_job " +:+ dquote
                      +:+ job_name +:+ dquote +:+ " is " +:+ status)
           <$> tail (observed "ProcessingJobStatus" t)).
Proof.
  rewrite wait_for_endpoint_poll, wait_for_processing_job_poll.
  split; apply poll_run.
Qed.
End PollingExtras.

(** An instance: an endpoint that is ["Creating"] whenever it is asked;
    with seven turns allowed, the cell asks eight times and sleeps seven. *)
Lemma polling_has_no_timeout_witness :
  result (ThirdParty.wait_for_endpoint (svc := demo None 0 "Creating") 7 0)
  = OutOfFuel
  ∧ sleeps (trace (ThirdParty.wait_for_endpoint
                     (svc := demo None 0 "Creating") 7 0))
    = replicate 7 45000%N.
Proof.
  destruct (polling_has_no_timeout (svc := demo None 0 "Creating") 0 7 "job")
    as [H _].
  destruct H as (Hres & _ & Hsl).
  { intros w. exists {[ "EndpointStatus" := "Creating" ]}, (S w).
    split; [done|]. by vm_compute. }
  by split.
Defined.

(** An instance: two answers ["Creating"], then the third request fails. *)
Lemma polling_stops_at_the_first_failure_witness :
  result (ThirdParty.wait_for_endpoint (svc := demo (Some 2) 5 "InService") 5 0)
  = Raise (ClientError "ServiceUnavailable")
  ∧ sleeps (trace (ThirdParty.wait_for_endpoint
                     (svc := demo (Some 2) 5 "InService") 5 0))
    = [45000; 45000]%N.
Proof.
  assert (stalls (demo (Some 2) 5 "InService")
            (sm_describe_endpoint ThirdParty.MODEL_ENDPOINT)
            "EndpointStatus" "Creating" 2
            (0 : World (demo (Some 2) 5 "InService"))
            (2 : World (demo (Some 2) 5 "InService"))) as Hstalls.
  { eapply stalls_S; [reflexivity|by vm_compute|].
    eapply stalls_S; [reflexivity|by vm_compute|]. apply stalls_0. }
  destruct (polling_stops_at_the_first_failure
              (svc := demo (Some 2) 5 "InService") 0 2 3 5 2 "job"
              ltac:(lia)) as [H _].
  destruct (H Hstalls) as [Hraise _].
  destruct (Hraise (ClientError "ServiceUnavailable") eq_refl)
    as (Hres & _ & Hsl & _).
  by split.
Defined.

(** * Where failures come from *)

Section Blame.
Context {value : Type} {svc : Service value}.
Implicit Types (w : World svc) (t : list (event value)).

Lemma blames_app t1 t2 e : blames svc t2 e → blames svc (t1 ++ t2) e.
Proof.
  unfold blames. rewrite last_app. by destruct (last t2).
Qed.

Lemma blamed_never {A} (m : M svc A) :
  (∀ w, ∃ a, result (m w) = Ok a) → blamed m.
Proof. intros H w e He. destruct (H w) as [a Ha]. congruence. Qed.

Lemma blamed_ret {A} (a : A) : blamed (ret (svc := svc) a).
Proof. apply blamed_never. intros w. by exists a. Qed.

Lemma blamed_print o : blamed (print (svc := svc) o).
Proof. apply blamed_never. intros w. by exists tt. Qed.

Lemma blamed_sleep ms : blamed (sleep (svc := svc) ms).
Proof. apply blamed_never. intros w. by exists tt. Qed.

Lemma blamed_gmtime_stamp : blamed (gmtime_stamp (svc := svc)).
Proof. apply blamed_never. intros w. by eexists. Qed.

Lemma blamed_call op : blamed (call (svc := svc) op).
Proof.
  intros w e. unfold call. destruct (control svc op w) as [[d|e'] w']; [done|].
  simpl. by intros [= ->].
Qed.

Lemma blamed_bind {A B} (m : M svc A) (k : A → M svc B) :
  blamed m → (∀ a, blamed (k a)) → blamed (bind m k).
Proof.
  intros Hm Hk w e. unfold bind.
  destruct (result (m w)) as [a| |] eqn:Hres; cbn [result world_after trace].
  - intros He. by apply blames_app, Hk.
  - intros [= ->]. by apply Hm.
  - done.
Qed.

Lemma bind_invoke_Returns {A} data (k : bytes → M svc A) w b w' :
  predictor_predict svc data w = (Returns b, w') →
  bind (invoke data) k w
  = Run (result (k b w')) (world_after (k b w'))
        (Predict data (Returns b) :: trace (k b w')).
Proof. intros H. unfold bind, invoke. by rewrite H. Qed.

Lemma bind_invoke_Raises {A} data (k : bytes → M svc A) w e w' :
  predictor_predict svc data w = (Raises e, w') →
  bind (invoke data) k w = Run (Raise e) w' [Predict data (Raises e)].
Proof. intros H. unfold bind, invoke. by rewrite H. Qed.

Lemma bind_decode_Some {A} b (k : string → M svc A) w p :
  decode_utf8 svc b = Some p → bind (decode b) k w = k p w.
Proof.
  intros H. unfold bind, decode. rewrite H. simpl. by destruct (k p w).
Qed.

Lemma bind_decode_None {A} b (k : string → M svc A) w :
  decode_utf8 svc b = None →
  bind (decode b) k w = Run (Raise UnicodeDecodeError) w [].
Proof. intros H. unfold bind, decode. by rewrite H. Qed.

(** A request and the access to a field of its answer. *)
Lemma blamed_call_getitem {B} op key (k : string → M svc B) :
  (∀ x, blamed (k x)) →
  blamed (bind (call op) (λ d, bind (getitem d key) k)).
Proof.
  intros Hk w e. destruct (control svc op w) as [[d|e'] w'] eqn:Hc.
  - rewrite (bind_call_Returns op _ w d w' Hc).
    cbn [result world_after trace].
    destruct (d !! key) as [x|] eqn:Hd.
    + rewrite (bind_getitem_Some d key k w' x Hd). intros He.
      change (Call op (Returns d) :: ?t) with ([Call op (Returns d)] ++ t).
      by apply blames_app, Hk.
    + rewrite (bind_getitem_None d key k w' Hd).
      cbn [result world_after trace]. intros [= <-].
      unfold blames. simpl. by exists key.
  - rewrite (bind_call_Raises op _ w e' w' Hc).
    cbn [result world_after trace]. intros [= ->]. by unfold blames.
Qed.

(** An invocation and the decoding of its response. *)
Lemma blamed_invoke_decode {B} data (k : string → M svc B) :
  (∀ p, blamed (k p)) →
  blamed (bind (invoke data) (λ b, bind (decode b) k)).
Proof.
  intros Hk w e. destruct (predictor_predict svc data w) as [[b|e'] w'] eqn:Hc.
  - rewrite (bind_invoke_Returns data _ w b w' Hc).
    cbn [result world_after trace].
    destruct (decode_utf8 svc b) as [p|] eqn:Hb.
    + rewrite (bind_decode_Some b k w' p Hb). intros He.
      change (Predict data (Returns b) :: ?t)
        with ([Predict data (Returns b)] ++ t).
      by apply blames_app, Hk.
    + rewrite (bind_decode_None b k w' Hb).
      cbn [result world_after trace]. intros [= <-]. by unfold blames.
  - rewrite (bind_invoke_Raises data _ w e' w' Hc).
    cbn [result world_after trace]. intros [= ->]. by unfold blames.
Qed.

Lemma blamed_for_enumerate {A} (body : nat → A → M svc unit) start l :
  (∀ i x, blamed (body i x)) → blamed (for_enumerate body start l).
Proof.
  intros Hbody. revert start. induction l as [|x l IH]; intros start.
  - apply blamed_ret.
  - rewrite for_enumerate_cons. apply blamed_bind; [apply Hbody|].
    intros _. apply IH.
Qed.

Lemma blamed_while {S} fuel (cond : S → bool) (body : S → M svc S) s :
  (∀ s', blamed (body s')) → blamed (while_ fuel cond body s).
Proof.
  intros Hbody. revert s. induction fuel as [|fuel IH]; intros s; simpl.
  - destruct (cond s); [done|apply blamed_ret].
  - destruct (cond s); [|apply blamed_ret].
    apply blamed_bind; [apply Hbody|]. intros s'. apply IH.
Qed.
End Blame.

Section BlameIn.
Context {value : Type} {svc : Service value}.
Variable g : ThirdParty2.namespace.
Implicit Types (w : World svc) (t : list (event value)).

Lemma unbound_intro name :
  (name, false) ∈ ThirdParty2.bindings g → name ∈ ThirdParty2.unbound g.
Proof.
  intros Hin. unfold ThirdParty2.unbound. apply list_elem_of_fmap.
  exists (name, false). split; [done|]. by apply list_elem_of_filter.
Qed.




End BlameIn.

(** Takes a cell apart along its statements. *)
Ltac blame :=
  repeat first
    [ apply blamed_call_getitem; intros
    | apply blamed_invoke_decode; intros
    | apply blamed_bind; [|intros]
    | apply blamed_for_enumerate; intros
    | apply blamed_while; intros
    | apply blamed_call
    | apply blamed_ret
    | apply blamed_print
    | apply blamed_sleep
    | apply blamed_gmtime_stamp
    | case_bool_decide ].

(** Shows that a name whose binding is [None] is among the unbound
    ones. *)
Ltac unbound_name :=
  let H := fresh in
  intros H; apply unbound_intro; unfold ThirdParty2.bindings; rewrite H;
  cbn [ThirdParty2.is_bound];
  repeat first [apply list_elem_of_here | apply list_elem_of_further].


Section BlamedCells.
Context {value : Type} {svc : Service value}.




Lemma blamed_wait_for_processing_job job_name fuel :
  blamed (ThirdParty2.wait_for_processing_job (svc := svc) job_name fuel).
Proof.
  unfold ThirdParty2.wait_for_processing_job, ThirdParty2.job_poll_body. blame.
Qed.










End BlamedCells.

(** * Resources in scope *)

Section Scope.
Context {value : Type} {svc : Service value}.
Variable endpoint : string.
Implicit Types (w : World svc) (t : list (event value)) (live : list resource).

Lemma scope_app live t1 t2 :
  scope endpoint live (t1 ++ t2)
  = scope endpoint live t1 ≫= λ live', scope endpoint live' t2.
Proof.
  revert live. induction t1 as [|ev t1 IH]; intros live; [done|]. simpl.
  destruct (scope_step endpoint live ev) as [live'|]; [apply IH|done].
Qed.

Lemma keeps_scope_ret {A} live (a : A) (post : A → list resource → Prop) :
  post a live → keeps_scope endpoint live (ret (svc := svc) a) post.
Proof. intros H w. exists live. split; [done|]. by intros a' [= <-]. Qed.

Lemma keeps_scope_print live o (post : unit → list resource → Prop) :
  post tt live → keeps_scope endpoint live (print (svc := svc) o) post.
Proof. intros H w. exists live. split; [done|]. by intros []. Qed.

Lemma keeps_scope_sleep live ms (post : unit → list resource → Prop) :
  post tt live → keeps_scope endpoint live (sleep (svc := svc) ms) post.
Proof. intros H w. exists live. split; [done|]. by intros []. Qed.

Lemma keeps_scope_gmtime_stamp live (post : string → list resource → Prop) :
  (∀ stamp, post stamp live) →
  keeps_scope endpoint live (gmtime_stamp (svc := svc)) post.
Proof. intros H w. exists live. split; [done|]. by intros a [= <-]. Qed.

Lemma keeps_scope_getitem live d key (post : string → list resource → Prop) :
  (∀ x, post x live) →
  keeps_scope endpoint live (getitem (svc := svc) d key) post.
Proof.
  intros H w. exists live. unfold getitem.
  destruct (d !! key); (split; [done|]); [|done]. by intros a [= <-].
Qed.

Lemma keeps_scope_decode live b (post : string → list resource → Prop) :
  (∀ p, post p live) →
  keeps_scope endpoint live (decode (svc := svc) b) post.
Proof.
  intros H w. exists live. unfold decode.
  destruct (decode_utf8 svc b); (split; [done|]); [|done]. by intros a [= <-].
Qed.

Lemma keeps_scope_call live op (post : dict → list resource → Prop) :
  requires live op = true →
  (∀ d, post d (settle live op)) →
  keeps_scope endpoint live (call (svc := svc) op) post.
Proof.
  intros Hreq H w. unfold call.
  destruct (control svc op w) as [[d|e] w']; simpl; rewrite Hreq; simpl.
  - exists (settle live op). split; [done|]. by intros a [= <-].
  - exists live. by split.
Qed.

Lemma keeps_scope_invoke live data (post : bytes → list resource → Prop) :
  endpoint_named endpoint ∈ live →
  (∀ b, post b live) →
  keeps_scope endpoint live (invoke (svc := svc) data) post.
Proof.
  intros Hin H w. unfold invoke.
  destruct (predictor_predict svc data w) as [[b|e] w']; simpl;
    rewrite bool_decide_eq_true_2 by done; simpl; exists live.
  - split; [done|]. by intros a [= <-].
  - by split.
Qed.

Lemma keeps_scope_bind {A B} live (m : M svc A) (k : A → M svc B)
    (post : B → list resource → Prop) :
  keeps_scope endpoint live m (λ a live', keeps_scope endpoint live' (k a) post) →
  keeps_scope endpoint live (bind m k) post.
Proof.
  intros Hm w. destruct (Hm w) as (live' & Hscope & Hk). unfold bind.
  destruct (result (m w)) as [a| |] eqn:Hres; cbn [result world_after trace].
  - destruct (Hk a eq_refl (world_after (m w))) as (live'' & Hscope' & Hpost).
    exists live''. split; [|done]. rewrite scope_app, Hscope. done.
  - exists live'. by split.
  - exists live'. by split.
Qed.

Lemma keeps_scope_for_enumerate {A} live (body : nat → A → M svc unit) start l
    (post : unit → list resource → Prop) :
  (∀ i x, keeps_scope endpoint live (body i x) (λ _ live', live' = live)) →
  post tt live →
  keeps_scope endpoint live (for_enumerate body start l) post.
Proof.
  intros Hbody Hpost. revert start. induction l as [|x l IH]; intros start.
  - by apply keeps_scope_ret.
  - rewrite for_enumerate_cons. apply keeps_scope_bind.
    intros w. destruct (Hbody start x w) as (live' & Hscope & Hlive).
    exists live'. split; [done|]. intros [] Hok. rewrite (Hlive tt Hok).
    apply IH.
Qed.

Lemma keeps_scope_while {S} live fuel (cond : S → bool) (body : S → M svc S) s
    (post : S → list resource → Prop) :
  (∀ s', keeps_scope endpoint live (body s') (λ _ live', live' = live)) →
  (∀ s', post s' live) →
  keeps_scope endpoint live (while_ fuel cond body s) post.
Proof.
  intros Hbody Hpost. revert s. induction fuel as [|fuel IH]; intros s; simpl.
  - destruct (cond s); [|by apply keeps_scope_ret].
    intros w. exists live. by split.
  - destruct (cond s); [|by apply keeps_scope_ret].
    apply keeps_scope_bind.
    intros w. destruct (Hbody s w) as (live' & Hscope & Hlive).
    exists live'. split; [done|]. intros s' Hok. rewrite (Hlive s' Hok).
    apply IH.
Qed.
End Scope.

(** Takes a cell apart along its statements, the resources alive carried
    from one statement to the next. *)
Ltac scoped :=
  repeat
    (cbv beta;
     lazymatch goal with
     | |- keeps_scope _ _ (bind _ _) _ => apply keeps_scope_bind
     | |- keeps_scope _ ?live (call ?op) _ =>
         apply keeps_scope_call;
         [ vm_compute; reflexivity
         | intros ?;
           let live' := eval vm_compute in (settle live op) in
           change (settle live op) with live' ]
     | |- keeps_scope _ _ (invoke _) _ =>
         apply keeps_scope_invoke;
         [ apply (bool_decide_unpack _); vm_compute; exact I | intros ? ]
     | |- keeps_scope _ _ (ret _) _ => apply keeps_scope_ret
     | |- keeps_scope _ _ (print _) _ => apply keeps_scope_print
     | |- keeps_scope _ _ (sleep _) _ => apply keeps_scope_sleep
     | |- keeps_scope _ _ gmtime_stamp _ =>
         apply keeps_scope_gmtime_stamp; intros ?
     | |- keeps_scope _ _ (getitem _ _) _ =>
         apply keeps_scope_getitem; intros ?
     | |- keeps_scope _ _ (decode _) _ => apply keeps_scope_decode; intros ?
     | |- keeps_scope _ _ (for_enumerate _ _ _) _ =>
         apply keeps_scope_for_enumerate; [intros ? ?|]
     | |- keeps_scope _ _ (while_ _ _ _ _) _ =>
         apply keeps_scope_while; [intros ?|intros ?]
     | |- keeps_scope _ _ (if _ then _ else _) _ => case_bool_decide
     | |- keeps_scope _ _ (let _ := _ in _) _ => cbv zeta
     end).

Section ScopedNotebook.
Context {value : Type} {svc : Service value}.

Lemma notebook_keeps_scope fuel hourly (samples : list (list value)) :
  keeps_scope ThirdParty.MODEL_ENDPOINT []
    (Notebook.run_all (svc := svc) fuel hourly samples)
    (λ _ live, ∃ job_name, live = [baseline_job_named job_name]).
Proof.
  unfold Notebook.run_all, ThirdParty.provision, ThirdParty.create_model_cells,
    ThirdParty.create_endpoint_config_cells, ThirdParty.create_endpoint_cells,
    ThirdParty.wait_for_endpoint, ThirdParty.endpoint_poll_body,
    ThirdParty.baselining_job, ThirdParty.monitoring_schedule,
    ThirdParty.replay, ThirdParty.replay_body, ThirdParty.predict,
    ThirdParty.cleanup, ThirdParty.cleanup_step1, ThirdParty.cleanup_step2,
    ThirdParty.cleanup_step3, ThirdParty.cleanup_step4, ThirdParty.cleanup_step5.
  scoped; try done.
  by eexists.
Qed.
End ScopedNotebook.

(** * The requests of each cell *)

Section LoopRequests.
Context {value : Type} {svc : Service value} {A : Type}.
Implicit Types (w : World svc) (l : list A).

Variable data : A → sample value.
Variable tail : nat → A → string → list (event value).
Variable skip : nat → A → list (event value).

Hypothesis tail_issued : ∀ i x p, issued (tail i x p) = [].
Hypothesis skip_issued : ∀ i x, issued (skip i x) = [].

Variable body : nat → A → M svc unit.
Hypothesis body_guarded : ∀ i x w, body i x w = guarded data tail skip i x w.

(** A replay loop makes no control-plane request. *)
Lemma replay_issued start l w :
  issued (trace (for_enumerate body start l w)) = [].
Proof.
  revert start w. induction l as [|x l IH]; intros start w; [done|].
  rewrite for_enumerate_cons. unfold bind. rewrite body_guarded.
  unfold guarded.
  destruct (decide (nonempty (data x))) as [Hx|Hx];
    cbn [result world_after trace].
  - destruct (predictor_predict svc (data x) w) as [[b|e] w'];
      cbn [result world_after trace]; [|done].
    destruct (decode_utf8 svc b) as [p|];
      cbn [result world_after trace]; [|done].
    change (Predict (data x) (Returns b) :: tail start x p)
      with ([Predict (data x) (Returns b)] ++ tail start x p).
    by rewrite !issued_app, tail_issued, IH.
  - by rewrite issued_app, skip_issued, IH.
Qed.
End LoopRequests.

Section CellRequests.
Context {value : Type} {svc : Service value}.
Implicit Types (w : World svc).

Lemma third_party_replay_issued samples w :
  issued (trace (ThirdParty.replay samples w)) = [].
Proof.
  by apply (replay_issued Row propensity_tail third_party_skip);
    [..|apply third_party_body_guarded].
Qed.

(** Runs a straight-line cell one statement at a time, splitting on what
    the service answers. *)
Ltac run_cell :=
  repeat first
    [ progress cbn beta iota delta [result world_after trace]
    | rewrite bind_assoc
    | rewrite bind_print
    | rewrite bind_sleep
    | rewrite ret_bind
    | match goal with
      | |- context [bind (call ?op) ?k ?w] =>
          let E := fresh "Ecall" in
          destruct (control svc op w) as [[?|?] ?] eqn:E;
          [ rewrite (bind_call_Returns op k w _ _ E)
          | rewrite (bind_call_Raises op k w _ _ E) ]
      | |- context [bind (getitem ?d ?key) ?k ?w] =>
          let E := fresh "Eget" in
          destruct (d !! key) eqn:E;
          [ rewrite (bind_getitem_Some d key k w _ E)
          | rewrite (bind_getitem_None d key k w E) ]
      end ].

Lemma provision_Ok w arns :
  result (ThirdParty.provision w) = Ok arns →
  issued (trace (ThirdParty.provision w))
  = [sm_create_model ThirdParty.MODEL_NAME ThirdParty.MODEL_PACKAGE_ARN
       (role svc) true;
     sm_create_endpoint_config ThirdParty.MODEL_ENDPOINT_CONFIG
       [ThirdParty.product_variant_params]
       (ThirdParty.data_capture_params (svc := svc));
     sm_create_endpoint ThirdParty.MODEL_ENDPOINT
       ThirdParty.MODEL_ENDPOINT_CONFIG].
Proof.
  remember (ThirdParty.provision w) as r eqn:Hr.
  unfold ThirdParty.provision, ThirdParty.create_model_cells,
    ThirdParty.create_endpoint_config_cells, ThirdParty.create_endpoint_cells
    in Hr.
  revert Hr. run_cell; by intros ->.
Qed.

Lemma gmtime_stamp_bind {A} (k : string → M svc A) w :
  bind gmtime_stamp k w = k (strftime_gmtime svc w) w.
Proof. unfold bind, gmtime_stamp. simpl. by destruct (k _ w). Qed.

Lemma baselining_job_Ok w job_name :
  result (ThirdParty.baselining_job w) = Ok job_name →
  job_name = ThirdParty.MODEL_BASELINE_JOB +:+ "-" +:+ strftime_gmtime svc w
  ∧ issued (trace (ThirdParty.baselining_job w))
    = [dmm_suggest_baseline job_name
         (ThirdParty.S3_BASELINE_DATASET_URI (svc := svc))
         (ThirdParty.S3_BASELINE_ANALYSIS_RESULTS_URI (svc := svc)) true false;
       dmm_job_wait false].
Proof.
  remember (ThirdParty.baselining_job w) as r eqn:Hr.
  unfold ThirdParty.baselining_job in Hr. rewrite gmtime_stamp_bind in Hr.
  cbv zeta in Hr. revert Hr. run_cell; intros ->; try done.
  cbn [result trace]. by intros [= <-].
Qed.

Lemma monitoring_schedule_Ok hourly w :
  result (ThirdParty.monitoring_schedule hourly w) = Ok tt →
  ∃ statistics constraints,
    issued (trace (ThirdParty.monitoring_schedule hourly w))
    = [dmm_baseline_statistics; dmm_suggested_constraints;
       dmm_create_monitoring_schedule ThirdParty.MODEL_MONITOR_SCHEDULE_NAME
         ThirdParty.MODEL_ENDPOINT
         (ThirdParty.S3_DATA_QUALITY_RPT_URI (svc := svc))
         statistics constraints hourly;
       dmm_describe_schedule].
Proof.
  remember (ThirdParty.monitoring_schedule hourly w) as r eqn:Hr.
  unfold ThirdParty.monitoring_schedule in Hr.
  revert Hr. run_cell; intros ->; try done.
  intros _. by eexists _, _.
Qed.

Lemma cleanup_Ok w :
  result (ThirdParty.cleanup w) = Ok tt →
  issued (trace (ThirdParty.cleanup w))
  = [sm_stop_monitoring_schedule ThirdParty.MODEL_MONITOR_SCHEDULE_NAME;
     sm_list_monitoring_schedules ThirdParty.MODEL_ENDPOINT;
     sm_delete_monitoring_schedule ThirdParty.MODEL_MONITOR_SCHEDULE_NAME;
     sm_list_monitoring_schedules ThirdParty.MODEL_ENDPOINT;
     sm_delete_endpoint ThirdParty.MODEL_ENDPOINT;
     sm_list_endpoints ThirdParty.MODEL_ENDPOINT;
     sm_delete_endpoint_config ThirdParty.MODEL_ENDPOINT_CONFIG;
     sm_list_endpoint_configs ThirdParty.MODEL_ENDPOINT_CONFIG;
     sm_delete_model ThirdParty.MODEL_NAME;
     sm_list_models ThirdParty.MODEL_NAME].
Proof.
  remember (ThirdParty.cleanup w) as r eqn:Hr.
  unfold ThirdParty.cleanup, ThirdParty.cleanup_step1,
    ThirdParty.cleanup_step2, ThirdParty.cleanup_step3,
    ThirdParty.cleanup_step4, ThirdParty.cleanup_step5 in Hr.
  revert Hr. run_cell; by intros ->.
Qed.

Lemma omap_replicate_None {A B} (f : A → option B) n x :
  f x = None → omap f (replicate n x) = [].
Proof. intros Hf. induction n as [|n IH]; [done|]. simpl. by rewrite Hf. Qed.

(** A complete run of the notebook: its requests, in order. *)
Lemma notebook_issued fuel hourly (samples : list (list value)) w :
  result (Notebook.run_all fuel hourly samples w) = Ok tt →
  ∃ k job_name statistics constraints,
    issued (trace (Notebook.run_all fuel hourly samples w))
    = [sm_create_model ThirdParty.MODEL_NAME ThirdParty.MODEL_PACKAGE_ARN
         (role svc) true;
       sm_create_endpoint_config ThirdParty.MODEL_ENDPOINT_CONFIG
         [ThirdParty.product_variant_params]
         (ThirdParty.data_capture_params (svc := svc));
       sm_create_endpoint ThirdParty.MODEL_ENDPOINT
         ThirdParty.MODEL_ENDPOINT_CONFIG]
      ++ replicate (S k) (sm_describe_endpoint ThirdParty.MODEL_ENDPOINT)
      ++ [dmm_suggest_baseline job_name
            (ThirdParty.S3_BASELINE_DATASET_URI (svc := svc))
            (ThirdParty.S3_BASELINE_ANALYSIS_RESULTS_URI (svc := svc))
            true false;
          dmm_job_wait false;
          dmm_baseline_statistics; dmm_suggested_constraints;
          dmm_create_monitoring_schedule
            ThirdParty.MODEL_MONITOR_SCHEDULE_NAME ThirdParty.MODEL_ENDPOINT
            (ThirdParty.S3_DATA_QUALITY_RPT_URI (svc := svc))
            statistics constraints hourly;
          dmm_describe_schedule;
          sm_stop_monitoring_schedule ThirdParty.MODEL_MONITOR_SCHEDULE_NAME;
          sm_list_monitoring_schedules ThirdParty.MODEL_ENDPOINT;
          sm_delete_monitoring_schedule ThirdParty.MODEL_MONITOR_SCHEDULE_NAME;
          sm_list_monitoring_schedules ThirdParty.MODEL_ENDPOINT;
          sm_delete_endpoint ThirdParty.MODEL_ENDPOINT;
          sm_list_endpoints ThirdParty.MODEL_ENDPOINT;
          sm_delete_endpoint_config ThirdParty.MODEL_ENDPOINT_CONFIG;
          sm_list_endpoint_configs ThirdParty.MODEL_ENDPOINT_CONFIG;
          sm_delete_model ThirdParty.MODEL_NAME;
          sm_list_models ThirdParty.MODEL_NAME].
Proof.
  intros Hok. unfold Notebook.run_all in *.
  apply bind_Ok_inv in Hok as (arns & Hok1 & Hok).
  rewrite (bind_Ok _ _ _ arns Hok1). cbn [result world_after trace].
  set (w1 := world_after (ThirdParty.provision w)) in *.
  apply bind_Ok_inv in Hok as (status & Hok2 & Hok).
  rewrite (bind_Ok _ _ _ status Hok2). cbn [result world_after trace].
  set (w2 := world_after (ThirdParty.wait_for_endpoint fuel w1)) in *.
  apply bind_Ok_inv in Hok as (job_name & Hok3 & Hok).
  rewrite (bind_Ok _ _ _ job_name Hok3). cbn [result world_after trace].
  set (w3 := world_after (ThirdParty.baselining_job w2)) in *.
  apply bind_Ok_inv in Hok as ([] & Hok4 & Hok).
  rewrite (bind_Ok _ _ _ tt Hok4). cbn [result world_after trace].
  set (w4 := world_after (ThirdParty.monitoring_schedule hourly w3)) in *.
  apply bind_Ok_inv in Hok as ([] & Hok5 & Hok6).
  rewrite (bind_Ok _ _ _ tt Hok5). cbn [result world_after trace].
  set (w5 := world_after (ThirdParty.replay samples w4)) in *.
  rewrite !issued_app.
  rewrite (provision_Ok w arns Hok1).
  rewrite wait_for_endpoint_poll in Hok2 |- *.
  destruct (poll_Ok _ _ _ _ fuel w1 status Hok2) as (_ & k & _ & _ & _ & ->).
  destruct (baselining_job_Ok w2 job_name Hok3) as (_ & ->).
  destruct (monitoring_schedule_Ok hourly w3 Hok4) as (s & c & ->).
  rewrite third_party_replay_issued, (cleanup_Ok w5 Hok6).
  by exists k, job_name, s, c.
Qed.

(** A complete run of the notebook: what it created and what it deleted,
    in order. *)
Lemma notebook_Ok fuel hourly (samples : list (list value)) w :
  result (Notebook.run_all fuel hourly samples w) = Ok tt →
  let t := trace (Notebook.run_all fuel hourly samples w) in
  ∃ job_name,
    omap creates (issued t)
    = [model_named ThirdParty.MODEL_NAME;
       endpoint_config_named ThirdParty.MODEL_ENDPOINT_CONFIG;
       endpoint_named ThirdParty.MODEL_ENDPOINT;
       baseline_job_named job_name;
       schedule_named ThirdParty.MODEL_MONITOR_SCHEDULE_NAME]
    ∧ omap deletes (issued t)
      = [schedule_named ThirdParty.MODEL_MONITOR_SCHEDULE_NAME;
         endpoint_named ThirdParty.MODEL_ENDPOINT;
         endpoint_config_named ThirdParty.MODEL_ENDPOINT_CONFIG;
         model_named ThirdParty.MODEL_NAME].
Proof.
  intros Hok t. subst t.
  destruct (notebook_issued fuel hourly samples w Hok)
    as (k & job_name & s & c & ->).
  exists job_name. rewrite !omap_app.
  rewrite !(omap_replicate_None _ (S k)) by done. done.
Qed.

(** Requests that create, delete and list nothing leave the listings as
    they are. *)
Lemma listings_replicate live n op ops :
  listed op = None → creates op = None → deletes op = None →
  listings live (replicate n op ++ ops) = listings live ops.
Proof.
  intros Hl Hc Hd. induction n as [|n IH]; [done|]. simpl.
  rewrite Hl. unfold settle. by rewrite Hc, Hd.
Qed.

(** A complete run of the notebook: what is there when it lists. *)
Lemma notebook_listings fuel hourly (samples : list (list value)) w :
  result (Notebook.run_all fuel hourly samples w) = Ok tt →
  listings [] (issued (trace (Notebook.run_all fuel hourly samples w)))
  = [(sm_list_monitoring_schedules ThirdParty.MODEL_ENDPOINT, true);
     (sm_list_monitoring_schedules ThirdParty.MODEL_ENDPOINT, true);
     (sm_list_endpoints ThirdParty.MODEL_ENDPOINT, false);
     (sm_list_endpoint_configs ThirdParty.MODEL_ENDPOINT_CONFIG, false);
     (sm_list_models ThirdParty.MODEL_NAME, false)].
Proof.
  intros Hok.
  destruct (notebook_issued fuel hourly samples w Hok)
    as (k & job_name & s & c & ->).
  cbn [app listings listed settle creates deletes].
  rewrite listings_replicate by done. by vm_compute.
Qed.
End CellRequests.

Section NotebookExtras.
Context {value : Type} {svc : Service value}.
Implicit Types (w : World svc).




(** X12.  In every run of the boto3 notebook, however it ends, each
    request that creates, describes, stops or deletes a resource, and
    each request of the monitor object, names only resources that an
    earlier, answered request of the run created and that no request has
    deleted since; nothing is created under a name that is taken; the
    requests of the monitor object come after its baselining job was
    submitted; and the endpoint is invoked only between its creation and
    its deletion.  The listings are no part of this: they filter by a
    name, and in a run that ends normally the two listings of schedules
    ask about the endpoint while it is there, whereas the listings of
    endpoints, endpoint configurations and models each ask about the
    resource that was deleted just before.  After a run that ends
    normally the only resource left is the baselining job. *)
Theorem notebook_requests_stay_in_scope (fuel : nat) (hourly : string)
    (samples : list (list value)) (w : World svc) :
  let r := Notebook.run_all fuel hourly samples w in
  ∃ live,
    scope ThirdParty.MODEL_ENDPOINT [] (trace r) = Some live
    ∧ (result r = Ok tt →
       (∃ job_name, live = [baseline_job_named job_name])
       ∧ listings [] (issued (trace r))
         = [(sm_list_monitoring_schedules ThirdParty.MODEL_ENDPOINT, true);
            (sm_list_monitoring_schedules ThirdParty.MODEL_ENDPOINT, true);
            (sm_list_endpoints ThirdParty.MODEL_ENDPOINT, false);
            (sm_list_endpoint_configs ThirdParty.MODEL_ENDPOINT_CONFIG, false);
            (sm_list_models ThirdParty.MODEL_NAME, false)]).
Proof.
  intros r. subst r.
  destruct (notebook_keeps_scope fuel hourly samples w) as (live & Hscope & Hpost).
  exists live. split; [exact Hscope|]. intros Hok. split.
  - by apply (Hpost tt).
  - by apply notebook_listings.
Qed.

(** X13.  A run of the boto3 notebook that ends normally has created
    the model, the endpoint configuration, the endpoint, the baselining
    job and the schedule, in this order, and has deleted the schedule, the
    endpoint, the endpoint configuration and the model, in this order:
    the teardown deletes what was created, under the same names, last
    created first; only the baselining job is not deleted. *)
Theorem teardown_mirrors_provisioning (fuel : nat) (hourly : string)
    (samples : list (list value)) (w : World svc) :
  let r := Notebook.run_all fuel hourly samples w in
  result r = Ok tt →
  ∃ job_name,
    omap creates (issued (trace r))
    = [model_named ThirdParty.MODEL_NAME;
       endpoint_config_named ThirdParty.MODEL_ENDPOINT_CONFIG;
       endpoint_named ThirdParty.MODEL_ENDPOINT;
       baseline_job_named job_name;
       schedule_named ThirdParty.MODEL_MONITOR_SCHEDULE_NAME]
    ∧ omap deletes (issued (trace r))
      = reverse (filter (λ res, ¬ is_baseline_job res)
                   (omap creates (issued (trace r)))).
Proof.
  intros r Hok. subst r.
  destruct (notebook_Ok fuel hourly samples w Hok) as (job_name & Hc & Hd).
  exists job_name. split; [exact Hc|]. by rewrite Hc, Hd.
Qed.
End NotebookExtras.


(** An instance: a complete run against a service that answers
    everything. *)
Lemma notebook_requests_stay_in_scope_witness :
  result (Notebook.run_all (svc := calm) 3 "cron(0 * ? * * *)" [[1]; [2]]%Z 0)
  = Ok tt
  ∧ scope ThirdParty.MODEL_ENDPOINT []
      (trace (Notebook.run_all (svc := calm) 3 "cron(0 * ? * * *)"
                [[1]; [2]]%Z 0))
    = Some [baseline_job_named
              "third-party-model-baseline-job-2021-03-01-12-00-00"]
  ∧ (listings []
       (issued (trace (Notebook.run_all (svc := calm) 3 "cron(0 * ? * * *)"
                         [[1]; [2]]%Z 0)))).*2
    = [true; true; false; false; false].
Proof.
  assert (result (Notebook.run_all (svc := calm) 3 "cron(0 * ? * * *)"
                    [[1]; [2]]%Z 0) = Ok tt) as Hres by (by vm_compute).
  split; [exact Hres|].
  destruct (notebook_requests_stay_in_scope (svc := calm) 3
              "cron(0 * ? * * *)" [[1]; [2]]%Z 0) as (live & Hscope & Hok).
  destruct (Hok Hres) as [_ Hlistings]. split.
  - etrans; [exact Hscope|]. rewrite <-Hscope. by vm_compute.
  - by rewrite Hlistings.
Defined.

(** An instance: the same complete run. *)
Lemma teardown_mirrors_provisioning_witness :
  omap deletes
    (issued (trace (Notebook.run_all (svc := calm) 3 "cron(0 * ? * * *)"
                      [[1]; [2]]%Z 0)))
  = [schedule_named "third-party-model-data-quality-schedule";
     endpoint_named "third-party-model-endpoint";
     endpoint_config_named "third-party-model-endpoint-config";
     model_named "third-party-model"].
Proof.
  destruct (teardown_mirrors_provisioning (svc := calm) 3 "cron(0 * ? * * *)"
              [[1]; [2]]%Z 0) as (job_name & Hc & Hd); [by vm_compute|].
  rewrite Hd, Hc. by vm_compute.
Defined.

Section ScheduleExtras.
Context {value : Type} {svc : Service value}.
Implicit Types (w : World svc).

Ltac run_cell :=
  repeat first
    [ progress cbn beta iota delta [result world_after trace]
    | rewrite bind_assoc
    | rewrite bind_print
    | rewrite bind_sleep
    | rewrite ret_bind
    | rewrite bind_global_Some
    | rewrite bind_global_None
    | match goal with
      | |- context [bind (ThirdParty2.global ?x ?binding) ?k ?w] =>
          let E := fresh "Eglobal" in destruct binding eqn:E
      end
    | match goal with
      | |- context [bind (call ?op) ?k ?w] =>
          let E := fresh "Ecall" in
          destruct (control svc op w) as [[?|?] ?] eqn:E;
          [ rewrite (bind_call_Returns op k w _ _ E)
          | rewrite (bind_call_Raises op k w _ _ E) ]
      | |- context [bind (getitem ?d ?key) ?k ?w] =>
          let E := fresh "Eget" in
          destruct (d !! key) eqn:E;
          [ rewrite (bind_getitem_Some d key k w _ E)
          | rewrite (bind_getitem_None d key k w E) ]
      end ].

Ltac find_call :=
  repeat match goal with
         | H : _ ∈ _ :: _ |- _ => apply elem_of_cons in H as [H|H]
         | H : _ ∈ [] |- _ => by apply elem_of_nil in H
         | H : _ ∈ trace (print _ _) |- _ => unfold print in H; cbn [trace] in H
         | H : Call _ _ = Call _ _ |- _ => injection H as H ?
         | H : Call _ _ = Sleep _ |- _ => discriminate H
         | H : Call _ _ = Printed _ |- _ => discriminate H
         | H : dmm_create_monitoring_schedule _ _ _ _ _ _ = _ |- _ =>
             first [discriminate H|injection H as ??????]
         end.

(** X14.  The schedule is registered only with what the monitor object
    handed out: whenever a run of the scheduling cell, of either
    snapshot, makes the create request, the statistics and the
    constraints it passes are the answers to the two requests made just
    before, in this order; the schedule is named by the schedule
    constant, bound to the endpoint the notebook created, reports to the
    reports location, and carries the hourly expression.  No create
    request is made when one of the two could not be fetched.  In the
    latest snapshot the three names are what the kernel [g] holds for
    the globals the cell reads, and a globals cell that ran to its end
    has bound them to the constants. *)
Theorem schedule_is_created_from_the_fetched_baseline (w : World svc)
    (hourly name endpoint output cron : string)
    (statistics constraints : dict) (r : reply dict) :
  (Call (dmm_create_monitoring_schedule name endpoint output statistics
           constraints cron) r
     ∈ trace (ThirdParty.monitoring_schedule hourly w) →
   name = ThirdParty.MODEL_MONITOR_SCHEDULE_NAME
   ∧ endpoint = ThirdParty.MODEL_ENDPOINT
   ∧ output = ThirdParty.S3_DATA_QUALITY_RPT_URI (svc := svc)
   ∧ cron = hourly
   ∧ ∃ w1 w2,
       control svc dmm_baseline_statistics w = (Returns statistics, w1)
       ∧ control svc dmm_suggested_constraints w1 = (Returns constraints, w2)
       ∧ (control svc (dmm_create_monitoring_schedule name endpoint output
                         statistics constraints cron) w2).1 = r)
  ∧ (∀ g,
       Call (dmm_create_monitoring_schedule name endpoint output statistics
               constraints cron) r
         ∈ trace (ThirdParty2.monitoring_schedule g hourly w) →
       ThirdParty2.MODEL_MONITOR_SCHEDULE_NAME g = Some name
       ∧ ThirdParty2.MODEL_ENDPOINT g = Some endpoint
       ∧ ThirdParty2.S3_DATA_QUALITY_RPT_URI g = Some output
       ∧ cron = hourly
       ∧ ∃ w1 w2,
           control svc dmm_baseline_statistics w = (Returns statistics, w1)
           ∧ control svc dmm_suggested_constraints w1
             = (Returns constraints, w2)
           ∧ (control svc (dmm_create_monitoring_schedule name endpoint
                             output statistics constraints cron) w2).1 = r)
  ∧ (∀ g g',
       ThirdParty2.globals_cell (svc := svc) g = (Ok tt, g') →
       ThirdParty2.MODEL_MONITOR_SCHEDULE_NAME g'
       = Some "third-party-model-data-quality-schedule-2"
       ∧ ThirdParty2.MODEL_ENDPOINT g' = Some "third-party-model-endpoint-2"
       ∧ ThirdParty2.S3_DATA_QUALITY_RPT_URI g'
         = Some ("s3://" +:+ BUCKET svc +:+ "/"
                 +:+ "third-party-model-seller-name" +:+ "/reports")).
Proof.
  split; [|split].
  - remember (ThirdParty.monitoring_schedule hourly w) as run eqn:Hr.
    unfold ThirdParty.monitoring_schedule in Hr.
    revert Hr. run_cell; intros -> Hin; cbn [trace] in Hin; find_call;
      simplify_eq; (repeat (split; [done|])); do 2 eexists;
      (split; [done|]); (split; [done|]);
      match goal with H : control _ _ _ = _ |- _ => by rewrite H end.
  - intros g.
    remember (ThirdParty2.monitoring_schedule g hourly w) as run eqn:Hr.
    unfold ThirdParty2.monitoring_schedule,
      ThirdParty2.create_monitoring_schedule in Hr.
    revert Hr. run_cell; intros -> Hin; cbn [trace] in Hin; find_call;
      simplify_eq; (repeat (split; [done|])); do 2 eexists;
      (split; [done|]); (split; [done|]);
      match goal with H : control _ _ _ = _ |- _ => by rewrite H end.
  - intros g g'. unfold ThirdParty2.globals_cell.
    destruct (ThirdParty2.TRAINING_KEYS g) as [[|key keys]|]; try done.
    by intros [= <-].
Qed.
End ScheduleExtras.

(** An instance: against a service that answers everything with an empty
    dictionary, the schedule is created from two empty dictionaries. *)
Lemma schedule_is_created_from_the_fetched_baseline_witness :
  Call (value := Z)
    (dmm_create_monitoring_schedule "third-party-model-data-quality-schedule"
       "third-party-model-endpoint"
       "s3://sagemaker-us-east-1-000000000000/third-party-model-seller-name/reports"
       ∅ ∅ "cron(0 * ? * * *)") (Returns ∅)
  ∈ trace (ThirdParty.monitoring_schedule (svc := mute) "cron(0 * ? * * *)" 0)
  ∧ ∃ w1 w2 : nat,
      control mute dmm_baseline_statistics 0 = (Returns ∅, w1)
      ∧ control mute dmm_suggested_constraints w1 = (Returns ∅, w2).
Proof.
  assert (Call (value := Z)
            (dmm_create_monitoring_schedule
               "third-party-model-data-quality-schedule"
               "third-party-model-endpoint"
               "s3://sagemaker-us-east-1-000000000000/third-party-model-seller-name/reports"
               ∅ ∅ "cron(0 * ? * * *)") (Returns ∅)
          ∈ trace (ThirdParty.monitoring_schedule (svc := mute)
                     "cron(0 * ? * * *)" 0)) as Hin.
  { apply list_elem_of_lookup. exists 2. by vm_compute. }
  split; [exact Hin|].
  destruct (schedule_is_created_from_the_fetched_baseline (svc := mute) 0
              "cron(0 * ? * * *)" "third-party-model-data-quality-schedule"
              "third-party-model-endpoint"
              "s3://sagemaker-us-east-1-000000000000/third-party-model-seller-name/reports"
              "cron(0 * ? * * *)" ∅ ∅ (Returns ∅)) as [H _].
  destruct (H Hin) as (_ & _ & _ & _ & w1 & w2 & Hs & Hc & _).
  by exists w1, w2.
Defined.

Section BaselineJobExtras.
Context {value : Type} {svc : Service value}.
Implicit Types (w : World svc).

(** X15.  In the latest snapshot the baselining job is submitted without
    waiting and the next cell polls it by the name the function
    returned.  The calling cell and the function read five globals
    before the request.  When the kernel [g] binds all five, the first
    request of every run submits the job under the job constant followed
    by a dash and the time stamp taken at the call, for the dataset and
    the output location [g] holds, and every request after it asks for
    the status of the job of exactly that name; when the run ends
    normally, at least one status was read and the last one is not
    ["InProgress"].  When [g] leaves one of the five unbound, the run
    ends with the [NameError] of an unbound name and has requested
    nothing.  A globals cell that ran to its end has bound the five,
    the dataset to the file [TRAINING_KEYS[0]] names; as the notebook is
    written it stops before, and the calling cell submits nothing. *)
Theorem the_job_polled_is_the_job_submitted (g : ThirdParty2.namespace)
    (w : World svc) (fuel : nat) :
  let r := Baselining.baseline_and_wait g fuel w in
  (∀ job count type uri out,
     ThirdParty2.MODEL_BASELINE_JOB g = Some job →
     ThirdParty2.MODEL_INSTANCE_COUNT g = Some count →
     ThirdParty2.MODEL_MONITOR_INSTANCE_TYPE g = Some type →
     ThirdParty2.S3_BASELINE_DATASET_URI g = Some uri →
     ThirdParty2.S3_BASELINE_ANALYSIS_RESULTS_URI g = Some out →
     let job_name := job +:+ "-" +:+ strftime_gmtime svc w in
     ∃ n, n ≤ S fuel
       ∧ issued (trace r)
         = dmm_suggest_baseline job_name uri out false false
           :: replicate n (sm_describe_processing_job job_name)
       ∧ (∀ status, result r = Ok status → status ≠ "InProgress" ∧ 0 < n))
  ∧ (ThirdParty2.MODEL_BASELINE_JOB g = None
     ∨ ThirdParty2.MODEL_INSTANCE_COUNT g = None
     ∨ ThirdParty2.MODEL_MONITOR_INSTANCE_TYPE g = None
     ∨ ThirdParty2.S3_BASELINE_DATASET_URI g = None
     ∨ ThirdParty2.S3_BASELINE_ANALYSIS_RESULTS_URI g = None →
     ∃ name, result r = Raise (NameError name)
       ∧ name ∈ ThirdParty2.unbound g
       ∧ trace r = [] ∧ world_after r = w)
  ∧ (∀ g0 g',
       ThirdParty2.globals_cell (svc := svc) g0 = (Ok tt, g') →
       ∃ key keys,
         ThirdParty2.TRAINING_KEYS g0 = Some (key :: keys)
         ∧ ThirdParty2.MODEL_BASELINE_JOB g'
           = Some "third-party-model-baseline-job-2"
         ∧ ThirdParty2.MODEL_INSTANCE_COUNT g' = Some 1
         ∧ ThirdParty2.MODEL_MONITOR_INSTANCE_TYPE g' = Some "ml.m4.xlarge"
         ∧ ThirdParty2.S3_BASELINE_DATASET_URI g'
           = Some ("s3://" +:+ BUCKET svc +:+ "/"
                   +:+ "third-party-model-seller-name" +:+ "/train/" +:+ key)
         ∧ ThirdParty2.S3_BASELINE_ANALYSIS_RESULTS_URI g'
           = Some ("s3://" +:+ BUCKET svc +:+ "/"
                   +:+ "third-party-model-seller-name" +:+ "/baselining"))
  ∧ Baselining.baseline_and_wait
      (ThirdParty2.globals_cell (svc := svc) ThirdParty2.fresh).2 fuel w
    = Run (Raise (NameError "MODEL_BASELINE_JOB")) w [].
Proof.
  intros r. subst r. split; [|split; [|split]].
  - intros job count type uri out Hjob Hcount Htype Huri Hout job_name.
    unfold Baselining.baseline_and_wait, Baselining.baselining_job,
      Baselining.create_baselining_job.
    rewrite Hjob, Hcount, Htype, Huri, Hout.
    repeat first [rewrite bind_assoc | rewrite bind_global_Some].
    rewrite gmtime_stamp_bind. cbv zeta. fold job_name.
    repeat first [rewrite bind_assoc | rewrite bind_global_Some].
    destruct (control svc
                (dmm_suggest_baseline job_name uri out false false) w)
      as [[d|e] w'] eqn:Hc.
    + rewrite (bind_call_Returns _ _ w d w' Hc). rewrite ret_bind.
      cbn [result world_after trace].
      rewrite wait_for_processing_job_poll.
      match goal with |- context [poll ?op ?key ?ip ?line fuel w'] =>
        destruct (poll_run op key ip line fuel w') as (n & Hn & Hiss & _);
        pose proof (poll_Ok op key ip line fuel w') as Hok
      end.
      exists (S n). split; [lia|]. split.
      * change (issued (Call ?op ?r :: ?t)) with (op :: issued t).
        by rewrite Hiss.
      * intros status Hres. destruct (Hok status Hres) as [Hne _].
        split; [done|lia].
    + rewrite (bind_call_Raises _ _ w e w' Hc). cbn [result world_after trace].
      exists 0. split; [lia|]. by split.
  - intros Hnone.
    unfold Baselining.baseline_and_wait, Baselining.baselining_job,
      Baselining.create_baselining_job.
    destruct (ThirdParty2.MODEL_BASELINE_JOB g) as [job|] eqn:Hjob.
    2:{ exists "MODEL_BASELINE_JOB". split; [done|].
        split; [revert Hjob; unbound_name|done]. }
    repeat first [rewrite bind_assoc | rewrite bind_global_Some].
    destruct (ThirdParty2.MODEL_INSTANCE_COUNT g) as [count|] eqn:Hcount.
    2:{ exists "MODEL_INSTANCE_COUNT". split; [done|].
        split; [revert Hcount; unbound_name|done]. }
    repeat first [rewrite bind_assoc | rewrite bind_global_Some].
    destruct (ThirdParty2.MODEL_MONITOR_INSTANCE_TYPE g) as [type|] eqn:Htype.
    2:{ exists "MODEL_MONITOR_INSTANCE_TYPE". split; [done|].
        split; [revert Htype; unbound_name|done]. }
    repeat first [rewrite bind_assoc | rewrite bind_global_Some].
    rewrite gmtime_stamp_bind. cbv zeta.
    destruct (ThirdParty2.S3_BASELINE_DATASET_URI g) as [uri|] eqn:Huri.
    2:{ exists "S3_BASELINE_DATASET_URI". split; [done|].
        split; [revert Huri; unbound_name|done]. }
    repeat first [rewrite bind_assoc | rewrite bind_global_Some].
    destruct (ThirdParty2.S3_BASELINE_ANALYSIS_RESULTS_URI g) as [out|] eqn:Hout.
    2:{ exists "S3_BASELINE_ANALYSIS_RESULTS_URI". split; [done|].
        split; [revert Hout; unbound_name|done]. }
    by destruct Hnone as [?|[?|[?|[?|?]]]].
  - intros g0 g'. unfold ThirdParty2.globals_cell.
    destruct (ThirdParty2.TRAINING_KEYS g0) as [[|key keys]|]; try done.
    intros [= <-]. by exists key, keys.
  - done.
Qed.
End BaselineJobExtras.

(** An instance: a kernel in which [TRAINING_KEYS] was bound by hand
    before the globals cell ran; the job is in progress for two answers,
    then completed. *)
Lemma the_job_polled_is_the_job_submitted_witness :
  issued (trace (Baselining.baseline_and_wait
                   (svc := demo None 3 "Completed")
                   (ThirdParty2.globals_cell (svc := demo None 3 "Completed")
                      (ThirdParty2.with_training_keys ["train.csv"])).2 5 0))
  = dmm_suggest_baseline
      "third-party-model-baseline-job-2-2021-03-01-12-00-00"
      "s3://sagemaker-us-east-1-000000000000/third-party-model-seller-name/train/train.csv"
      "s3://sagemaker-us-east-1-000000000000/third-party-model-seller-name/baselining"
      false false
    :: replicate 3
         (sm_describe_processing_job
            "third-party-model-baseline-job-2-2021-03-01-12-00-00")
  ∧ result (Baselining.baseline_and_wait
              (svc := demo None 3 "Completed")
              (ThirdParty2.globals_cell (svc := demo None 3 "Completed")
                 (ThirdParty2.with_training_keys ["train.csv"])).2 5 0)
    = Ok "Completed"
  ∧ "Completed" ≠ "InProgress".
Proof.
  assert (result (Baselining.baseline_and_wait
                    (svc := demo None 3 "Completed")
                    (ThirdParty2.globals_cell (svc := demo None 3 "Completed")
                       (ThirdParty2.with_training_keys ["train.csv"])).2 5 0)
          = Ok "Completed") as Hres by (by vm_compute).
  destruct (the_job_polled_is_the_job_submitted
              (svc := demo None 3 "Completed")
              (ThirdParty2.globals_cell (svc := demo None 3 "Completed")
                 (ThirdParty2.with_training_keys ["train.csv"])).2 0 5)
    as (Hbound & _).
  destruct (Hbound "third-party-model-baseline-job-2" 1 "ml.m4.xlarge"
              "s3://sagemaker-us-east-1-000000000000/third-party-model-seller-name/train/train.csv"
              "s3://sagemaker-us-east-1-000000000000/third-party-model-seller-name/baselining"
              eq_refl eq_refl eq_refl eq_refl eq_refl)
    as (n & _ & Hiss & Hok).
  destruct (Hok "Completed" Hres) as [Hne _].
  split; [by vm_compute|]. by split.
Defined.

(** * The cells that move the datasets *)

Section StorageFacts.
Context {value : Type} {svc : Service value} (sto : Storage value svc).
Implicit Types (w : World svc) (t : list (storage_event value)).

Lemma cell_events_app t1 t2 :
  cell_events (t1 ++ t2) = cell_events t1 ++ cell_events t2.
Proof. apply omap_app. Qed.

Lemma urls_app t1 t2 : urls (t1 ++ t2) = urls t1 ++ urls t2.
Proof. apply omap_app. Qed.

Lemma downloads_app t1 t2 : downloads (t1 ++ t2) = downloads t1 ++ downloads t2.
Proof. apply omap_app. Qed.

Lemma uploads_app t1 t2 : uploads (t1 ++ t2) = uploads t1 ++ uploads t2.
Proof. apply omap_app. Qed.

Lemma fetches_app t1 t2 : fetches (t1 ++ t2) = fetches t1 ++ fetches t2.
Proof. apply omap_app. Qed.

Lemma cell_events_lift (t : list (event value)) : cell_events (Cell <$> t) = t.
Proof. induction t as [|ev t IH]; [done|]. simpl. f_equal. exact IH. Qed.

Lemma then_Ok {A B} (m : MS A) (k : A → MS B) w a :
  outcome_of (m w) = Ok a →
  then_ m k w
  = StorageRun (outcome_of (k a (world_of (m w))))
      (world_of (k a (world_of (m w))))
      (events_of (m w) ++ events_of (k a (world_of (m w)))).
Proof. intros H. unfold then_. by rewrite H. Qed.

Lemma then_Ok_inv {A B} (m : MS A) (k : A → MS B) w b :
  outcome_of (then_ m k w) = Ok b →
  ∃ a, outcome_of (m w) = Ok a ∧ outcome_of (k a (world_of (m w))) = Ok b.
Proof.
  unfold then_. destruct (outcome_of (m w)) as [a| |]; simpl; try done.
  intros H. by exists a.
Qed.

(** One turn of the upload loop, by what the two clients answer. *)
Lemma upload_body_run file_name w :
  let url := Datasets.TRAINING_DATASET_URI +:+ "/" +:+ file_name in
  let key := ThirdParty.PREFIX +:+ "/train/" +:+ file_name in
  match requests_get sto url w with
  | (Returns response, w1) =>
      match s3_put_object sto response.2 (BUCKET svc) key "text/csv" w1 with
      | (Returns d, w2) =>
          Datasets.upload_body sto file_name w
          = StorageRun (Ok tt) w2
              [Got url (Returns response);
               Put response.2 (BUCKET svc) key "text/csv" (Returns d);
               PrintedDict d]
      | (Raises e, w2) =>
          Datasets.upload_body sto file_name w
          = StorageRun (Raise e) w2
              [Got url (Returns response);
               Put response.2 (BUCKET svc) key "text/csv" (Raises e)]
      end
  | (Raises e, w1) =>
      Datasets.upload_body sto file_name w
      = StorageRun (Raise e) w1 [Got url (Raises e)]
  end.
Proof.
  intros url key. unfold Datasets.upload_body, then_, get, put, show, answered.
  fold url key.
  destruct (requests_get sto url w) as [[response|e] w1]; [|done]. simpl.
  by destruct (s3_put_object sto response.2 (BUCKET svc) key "text/csv" w1)
    as [[d|e] w2].
Qed.

(** The upload loop over any list of file names. *)
Lemma upload_loop files w :
  let r := for_each (Datasets.upload_body sto) files w in
  let t := events_of r in
  urls t `prefix_of`
    (λ f, Datasets.TRAINING_DATASET_URI +:+ "/" +:+ f) <$> files
  ∧ uploads t
    = (λ fd : string * (nat * bytes),
         (fd.2.2, BUCKET svc, ThirdParty.PREFIX +:+ "/train/" +:+ fd.1,
          "text/csv"))
      <$> zip files (downloads t)
  ∧ cell_events t = []
  ∧ fetches t = []
  ∧ (outcome_of r = Ok tt →
     length (downloads t) = length files ∧ length (uploads t) = length files).
Proof.
  revert w. induction files as [|f files IH]; intros w; [done|].
  simpl for_each. unfold then_.
  pose proof (upload_body_run f w) as Hbody. cbv zeta in Hbody.
  destruct (requests_get sto _ w) as [[response|e] w1].
  - destruct (s3_put_object sto _ _ _ _ w1) as [[d|e] w2];
      rewrite Hbody; cbn [outcome_of world_of events_of].
    + destruct (IH w2) as (IH1 & IH2 & IH3 & IH4 & IH5).
      cbn zeta in IH1, IH2, IH3, IH4, IH5.
      change (Got ?u ?r :: Put ?b ?bk ?k ?ct ?r' :: PrintedDict ?d' :: ?t)
        with ([Got u r; Put b bk k ct r'; PrintedDict d'] ++ t).
      rewrite urls_app, uploads_app, downloads_app, cell_events_app, fetches_app.
      rewrite IH2, IH3, IH4. simpl.
      split; [by apply prefix_cons|]. split; [done|].
      split; [done|]. split; [done|].
      intros Hok. destruct (IH5 Hok) as [Hd Hu].
      rewrite Hd. split; [done|]. by rewrite length_fmap, length_zip, Hd, Nat.min_id.
    + simpl. split; [by apply prefix_cons, prefix_nil|].
      by destruct files.
  - rewrite Hbody. simpl. split; [by apply prefix_cons, prefix_nil|]. done.
Qed.

Lemma lift_quiet (l : list (event value)) :
  fetches (Cell <$> l) = [] ∧ urls (Cell <$> l) = []
  ∧ uploads (Cell <$> l) = [] ∧ downloads (Cell <$> l) = [].
Proof. induction l as [|ev l (IH1 & IH2 & IH3 & IH4)]; [done|]. by simpl. Qed.

(** One turn of the outer loop of cell 5.2, by what the bucket and the
    reader answer. *)
Lemma violations_body_run file_name w :
  let key := ThirdParty.PREFIX +:+ "/train/" +:+ file_name in
  match s3_get_object sto (BUCKET svc) key w with
  | (Returns body, w1) =>
      match read_csv sto body with
      | Returns columns =>
          let r := ThirdParty.replay (zip_star columns) w1 in
          Datasets.violations_body sto file_name w
          = StorageRun (result r) (world_after r)
              (Fetched (BUCKET svc) key (Returns body)
               :: Parsed body (Returns columns) :: (Cell <$> trace r))
      | Raises e =>
          Datasets.violations_body sto file_name w
          = StorageRun (Raise e) w1
              [Fetched (BUCKET svc) key (Returns body); Parsed body (Raises e)]
      end
  | (Raises e, w1) =>
      Datasets.violations_body sto file_name w
      = StorageRun (Raise e) w1 [Fetched (BUCKET svc) key (Raises e)]
  end.
Proof.
  intros key. unfold Datasets.violations_body, then_, fetch, parse, answered.
  fold key.
  destruct (s3_get_object sto (BUCKET svc) key w) as [[body|e] w1]; [|done].
  simpl. destruct (read_csv sto body) as [columns|e]; [|done]. simpl.
  unfold lift. simpl.
  by destruct (result (ThirdParty.replay (zip_star columns) w1)).
Qed.

(** Cell 5.2 as a whole. *)
Lemma violations_cell w :
  let key := ThirdParty.PREFIX +:+ "/train/" +:+ "data_quality_drift.csv" in
  let r := Datasets.violations sto w in
  let t := events_of r in
  fetches t = [(BUCKET svc, key)]
  ∧ urls t = []
  ∧ uploads t = []
  ∧ downloads t = []
  ∧ (outcome_of r = Ok tt →
     ∃ body w1 columns,
       s3_get_object sto (BUCKET svc) key w = (Returns body, w1)
       ∧ read_csv sto body = Returns columns
       ∧ submitted (cell_events t) = Row <$> zip_star columns
       ∧ (triples (cell_events t)).*1
         = imap (λ i row, (i, Row row)) (zip_star columns)).
Proof.
  intros key r t. subst r t.
  unfold Datasets.violations. simpl drop. simpl for_each. unfold then_.
  pose proof (violations_body_run "data_quality_drift.csv" w) as Hbody.
  cbv zeta in Hbody. fold key in Hbody.
  destruct (s3_get_object sto (BUCKET svc) key w) as [[body|e] w1];
    [|by rewrite Hbody].
  destruct (read_csv sto body) as [columns|e] eqn:Hcsv; [|by rewrite Hbody].
  rewrite Hbody. cbn [outcome_of world_of events_of].
  destruct (lift_quiet (trace (ThirdParty.replay (zip_star columns) w1)))
    as (Hf & Hu & Hup & Hd).
  change (Fetched ?b ?k ?r :: Parsed ?d ?r' :: ?l)
    with ([Fetched b k r; Parsed d r'] ++ l).
  destruct (result (ThirdParty.replay (zip_star columns) w1)) as [[]| |] eqn:Hres;
    cbn [outcome_of world_of events_of];
    rewrite ?(right_id_L [] (++)), !fetches_app, !urls_app, !uploads_app,
      !downloads_app, Hf, Hu, Hup, Hd; (repeat (split; [done|])); [|done..].
  intros _. exists body, w1, columns. repeat (split; [done|]).
  unfold done_. cbn [events_of].
  rewrite (right_id_L [] (++)), cell_events_app, cell_events_lift. simpl.
  destruct (replay_frame_Ok w1 columns Hres) as (Hsub & _ & Hlines & _).
  by split.
Qed.
End StorageFacts.

Section DatasetExtras.
Context {value : Type} {svc : Service value} (sto : Storage value svc).
Implicit Types (w : World svc).

(** X16.  Cell 1.3 downloads each dataset and uploads it.  In every
    run the URLs requested are an initial part of the dataset names under
    the download location, and the uploads are exactly the answered
    downloads, in order: each goes to the bucket of the session under the
    key of its file in the train folder, as [text/csv], and its body is
    the content of the download whatever the status code of the response
    was, which the cell does not look at.  The cell talks to no SageMaker
    client and reads nothing from the bucket; a run that ends normally
    has downloaded and uploaded every dataset. *)
Theorem uploads_are_the_downloads (w : World svc) :
  let r := Datasets.upload sto w in
  let t := events_of r in
  urls t `prefix_of`
    (λ file_name, Datasets.TRAINING_DATASET_URI +:+ "/" +:+ file_name)
    <$> ThirdParty.DATASETS
  ∧ uploads t
    = (λ fd : string * (nat * bytes),
         (fd.2.2, BUCKET svc, ThirdParty.PREFIX +:+ "/train/" +:+ fd.1,
          "text/csv"))
      <$> zip ThirdParty.DATASETS (downloads t)
  ∧ cell_events t = []
  ∧ fetches t = []
  ∧ (outcome_of r = Ok tt →
     length (downloads t) = length ThirdParty.DATASETS
     ∧ length (uploads t) = length ThirdParty.DATASETS).
Proof. apply upload_loop. Qed.

(** X17.  Cell 5.2 reads back from the bucket only the datasets after
    the first: in every run it asks the bucket for one object, the drift
    file under the key cell 1.3 uploaded it to, and never for the
    baseline file.  When the run ends normally, the object was read as a
    frame, and what the loop submitted is every row of that frame, built
    from its columns, in order, one line printed for each. *)
Theorem only_the_drift_file_is_replayed (w : World svc) :
  let key := ThirdParty.PREFIX +:+ "/train/" +:+ "data_quality_drift.csv" in
  let r := Datasets.violations sto w in
  let t := events_of r in
  fetches t = [(BUCKET svc, key)]
  ∧ urls t = []
  ∧ uploads t = []
  ∧ (outcome_of r = Ok tt →
     ∃ body w1 columns,
       s3_get_object sto (BUCKET svc) key w = (Returns body, w1)
       ∧ read_csv sto body = Returns columns
       ∧ submitted (cell_events t) = Row <$> zip_star columns
       ∧ (triples (cell_events t)).*1
         = imap (λ i row, (i, Row row)) (zip_star columns)).
Proof.
  intros key r t.
  destruct (violations_cell sto w) as (Hf & Hu & Hup & _ & Hok).
  by repeat (split; [done|]).
Qed.
End DatasetExtras.

(** An instance: every download answers 404 with a short body; the body
    is uploaded twice all the same. *)
Lemma uploads_are_the_downloads_witness :
  outcome_of (Datasets.upload missing_files 0) = Ok tt
  ∧ downloads (events_of (Datasets.upload missing_files 0))
    = [(404, [Byte.x6e; Byte.x6f]); (404, [Byte.x6e; Byte.x6f])]
  ∧ length (uploads (events_of (Datasets.upload missing_files 0))) = 2.
Proof.
  assert (outcome_of (Datasets.upload missing_files 0) = Ok tt) as Hok
    by (by vm_compute).
  destruct (uploads_are_the_downloads missing_files 0) as (_ & _ & _ & _ & H).
  destruct (H Hok) as [_ Hup].
  split; [exact Hok|]. split; [by vm_compute|exact Hup].
Defined.

(** An instance: the frame read back has two columns and three rows. *)
Lemma only_the_drift_file_is_replayed_witness :
  outcome_of (Datasets.violations missing_files 0) = Ok tt
  ∧ fetches (events_of (Datasets.violations missing_files 0))
    = [("sagemaker-us-east-1-000000000000",
        "third-party-model-seller-name/train/data_quality_drift.csv")]
  ∧ submitted (cell_events (events_of (Datasets.violations missing_files 0)))
    = [Row [1; 4]; Row [2; 5]; Row [3; 6]]%Z.
Proof.
  assert (outcome_of (Datasets.violations missing_files 0) = Ok tt) as Hok
    by (by vm_compute).
  destruct (only_the_drift_file_is_replayed missing_files 0)
    as (Hf & _ & _ & H).
  destruct (H Hok) as (body & w1 & columns & _ & _ & Hsub & _).
  split; [exact Hok|]. split; [exact Hf|]. by vm_compute.
Defined.

(** * Cells that leave the bucket and the endpoint alone *)

Section Along.
Context {value : Type} {svc : Service value} {X : Type}.
Variable P : event value → Prop.
Variable f : World svc → X.
Implicit Types (w : World svc).

Hypothesis P_Call : ∀ op r, P (Call op r).
Hypothesis P_Sleep : ∀ ms, P (Sleep ms).
Hypothesis P_Printed : ∀ o, P (Printed o).
Hypothesis f_control : ∀ op w, f (control svc op w).2 = f w.

Lemma along_ret {A} (a : A) : along P f (ret (svc := svc) a).
Proof. intros w. by split. Qed.

Lemma along_print o : along P f (print (svc := svc) o).
Proof. intros w. split; [|done]. by repeat constructor. Qed.

Lemma along_sleep ms : along P f (sleep (svc := svc) ms).
Proof. intros w. split; [|done]. by repeat constructor. Qed.

Lemma along_gmtime_stamp : along P f (gmtime_stamp (svc := svc)).
Proof. intros w. by split. Qed.

Lemma along_getitem d key : along P f (getitem (svc := svc) d key).
Proof. intros w. unfold getitem. by destruct (d !! key). Qed.

Lemma along_call op : along P f (call (svc := svc) op).
Proof.
  intros w. unfold call. pose proof (f_control op w) as Hf.
  destruct (control svc op w) as [[d|e] w']; simpl in *;
    (split; [by repeat constructor|done]).
Qed.

Lemma along_bind {A B} (m : M svc A) (k : A → M svc B) :
  along P f m → (∀ a, along P f (k a)) → along P f (bind m k).
Proof.
  intros Hm Hk w. destruct (Hm w) as [Ht Hf]. unfold bind.
  destruct (result (m w)) as [a| |]; cbn [result world_after trace];
    [|done..].
  destruct (Hk a (world_after (m w))) as [Ht' Hf'].
  split; [by apply Forall_app|]. by rewrite Hf'.
Qed.

Lemma along_while {S} fuel (cond : S → bool) (body : S → M svc S) s :
  (∀ s', along P f (body s')) → along P f (while_ fuel cond body s).
Proof.
  intros Hbody. revert s. induction fuel as [|fuel IH]; intros s; simpl.
  - destruct (cond s); [|apply along_ret]. intros w. by split.
  - destruct (cond s); [|apply along_ret].
    apply along_bind; [apply Hbody|apply IH].
Qed.
End Along.

(** Takes a cell apart along its statements. *)
Ltac along_cell :=
  repeat first
    [ apply along_bind; [|intros]
    | apply along_while; intros
    | apply along_call
    | apply along_ret
    | apply along_print
    | apply along_sleep
    | apply along_gmtime_stamp
    | apply along_getitem ];
  try done.

Section QuietCells.
Context {value : Type} {svc : Service value} {X : Type}.
Variable f : World svc → X.
Hypothesis f_control : ∀ op w, f (control svc op w).2 = f w.

Lemma submitted_no_invocation (t : list (event value)) :
  Forall no_invocation t → submitted t = [].
Proof.
  induction 1 as [|ev t Hev _ IH]; [done|]. by destruct ev.
Qed.

Lemma along_provision : along no_invocation f (ThirdParty.provision (svc := svc)).
Proof.
  unfold ThirdParty.provision, ThirdParty.create_model_cells,
    ThirdParty.create_endpoint_config_cells, ThirdParty.create_endpoint_cells.
  along_cell.
Qed.

Lemma along_wait_for_endpoint fuel :
  along no_invocation f (ThirdParty.wait_for_endpoint (svc := svc) fuel).
Proof.
  unfold ThirdParty.wait_for_endpoint, ThirdParty.endpoint_poll_body.
  along_cell.
Qed.

Lemma along_baselining_job :
  along no_invocation f (ThirdParty.baselining_job (svc := svc)).
Proof. unfold ThirdParty.baselining_job. along_cell. Qed.

Lemma along_monitoring_schedule hourly :
  along no_invocation f (ThirdParty.monitoring_schedule (svc := svc) hourly).
Proof. unfold ThirdParty.monitoring_schedule. along_cell. Qed.

Lemma along_cleanup : along no_invocation f (ThirdParty.cleanup (svc := svc)).
Proof.
  unfold ThirdParty.cleanup, ThirdParty.cleanup_step1, ThirdParty.cleanup_step2,
    ThirdParty.cleanup_step3, ThirdParty.cleanup_step4, ThirdParty.cleanup_step5.
  along_cell.
Qed.
End QuietCells.

(** * The whole notebook, datasets included *)

Section WholeNotebook.
Context {value : Type} {svc : Service value} (sto : Storage value svc).
Implicit Types (w : World svc).

(** A complete run, cell by cell: each cell ended normally, from the world
    the one before it left, and the events of the run are theirs in
    order. *)
Lemma run_all_Ok fuel hourly w :
  outcome_of (Datasets.run_all sto fuel hourly w) = Ok tt →
  let w0 := world_of (Datasets.upload sto w) in
  let w1 := world_after (ThirdParty.provision w0) in
  let w2 := world_after (ThirdParty.wait_for_endpoint fuel w1) in
  let w3 := world_after (ThirdParty.baselining_job w2) in
  let w4 := world_after (ThirdParty.monitoring_schedule hourly w3) in
  let w5 := world_of (Datasets.violations sto w4) in
  outcome_of (Datasets.upload sto w) = Ok tt
  ∧ (∃ arns, result (ThirdParty.provision w0) = Ok arns)
  ∧ (∃ status, result (ThirdParty.wait_for_endpoint fuel w1) = Ok status)
  ∧ (∃ job_name, result (ThirdParty.baselining_job w2) = Ok job_name)
  ∧ result (ThirdParty.monitoring_schedule hourly w3) = Ok tt
  ∧ outcome_of (Datasets.violations sto w4) = Ok tt
  ∧ result (ThirdParty.cleanup w5) = Ok tt
  ∧ events_of (Datasets.run_all sto fuel hourly w)
    = events_of (Datasets.upload sto w)
      ++ (Cell <$> trace (ThirdParty.provision w0))
      ++ (Cell <$> trace (ThirdParty.wait_for_endpoint fuel w1))
      ++ (Cell <$> trace (ThirdParty.baselining_job w2))
      ++ (Cell <$> trace (ThirdParty.monitoring_schedule hourly w3))
      ++ events_of (Datasets.violations sto w4)
      ++ (Cell <$> trace (ThirdParty.cleanup w5)).
Proof.
  intros Hok w0 w1 w2 w3 w4 w5. unfold Datasets.run_all in *.
  apply then_Ok_inv in Hok as ([] & Hok0 & Hok).
  rewrite (then_Ok _ _ _ tt Hok0). cbn [outcome_of world_of events_of].
  fold w0 in Hok |- *.
  apply then_Ok_inv in Hok as (arns & Hok1 & Hok).
  rewrite (then_Ok _ _ _ arns Hok1). cbn [outcome_of world_of events_of].
  change (world_of (lift ThirdParty.provision w0)) with w1 in *.
  apply then_Ok_inv in Hok as (status & Hok2 & Hok).
  rewrite (then_Ok _ _ _ status Hok2). cbn [outcome_of world_of events_of].
  change (world_of (lift (ThirdParty.wait_for_endpoint fuel) w1)) with w2 in *.
  apply then_Ok_inv in Hok as (job_name & Hok3 & Hok).
  rewrite (then_Ok _ _ _ job_name Hok3). cbn [outcome_of world_of events_of].
  change (world_of (lift ThirdParty.baselining_job w2)) with w3 in *.
  apply then_Ok_inv in Hok as ([] & Hok4 & Hok).
  rewrite (then_Ok _ _ _ tt Hok4). cbn [outcome_of world_of events_of].
  change (world_of (lift (ThirdParty.monitoring_schedule hourly) w3))
    with w4 in *.
  apply then_Ok_inv in Hok as ([] & Hok5 & Hok6).
  rewrite (then_Ok _ _ _ tt Hok5). cbn [outcome_of world_of events_of].
  fold w5 in Hok6 |- *.
  split; [done|]. split; [by exists arns|]. split; [by exists status|].
  split; [by exists job_name|]. by repeat (split; [done|]).
Qed.

(** The uploads of the upload cell, when it ends normally. *)
Lemma upload_Ok w :
  outcome_of (Datasets.upload sto w) = Ok tt →
  ∃ first second,
    downloads (events_of (Datasets.upload sto w)) = [first; second]
    ∧ uploads (events_of (Datasets.upload sto w))
      = [(first.2, BUCKET svc,
          ThirdParty.PREFIX +:+ "/train/" +:+ "baseline.csv", "text/csv");
         (second.2, BUCKET svc,
          ThirdParty.PREFIX +:+ "/train/" +:+ "data_quality_drift.csv",
          "text/csv")].
Proof.
  intros Hok.
  destruct (upload_loop sto ThirdParty.DATASETS w) as (_ & Hup & _ & _ & Hlen).
  fold (Datasets.upload sto) in Hup, Hlen. cbn zeta in Hup, Hlen.
  destruct (Hlen Hok) as [Hd _].
  destruct (downloads (events_of (Datasets.upload sto w)))
    as [|first [|second [|]]]; try done.
  exists first, second. split; [done|]. by rewrite Hup.
Qed.
End WholeNotebook.

(** * From the download to the endpoint *)

Section Store.
Context {value : Type} {svc : Service value} (sto : Storage value svc).
Variable content_of : World svc → gmap (string * string) bytes.
Hypothesis store : keeps_objects sto content_of.
Implicit Types (w : World svc).

Lemma store_put body bucket key content_type w d w' :
  s3_put_object sto body bucket key content_type w = (Returns d, w') →
  content_of w' = <[(bucket, key) := body]> (content_of w).
Proof. destruct store as (H & _). apply H. Qed.

Lemma store_get bucket key w body :
  content_of w !! (bucket, key) = Some body →
  (s3_get_object sto bucket key w).1 = Returns body.
Proof. destruct store as (_ & H & _). apply H. Qed.

Lemma store_download url w : content_of (requests_get sto url w).2 = content_of w.
Proof. destruct store as (_ & _ & H & _). apply H. Qed.

Lemma store_control op w : content_of (control svc op w).2 = content_of w.
Proof. destruct store as (_ & _ & _ & H & _). apply H. Qed.

(** A complete run of the upload cell: what it downloaded is in the
    bucket. *)
Lemma upload_stores w :
  let r := Datasets.upload sto w in
  outcome_of r = Ok tt →
  ∃ first second,
    downloads (events_of r) = [first; second]
    ∧ content_of (world_of r)
      = <[(BUCKET svc, ThirdParty.PREFIX +:+ "/train/" +:+ "data_quality_drift.csv")
            := second.2]>
          (<[(BUCKET svc, ThirdParty.PREFIX +:+ "/train/" +:+ "baseline.csv")
               := first.2]> (content_of w)).
Proof.
  intros r. subst r. unfold Datasets.upload. simpl for_each. unfold then_.
  pose proof (upload_body_run sto "baseline.csv" w) as Hb1. cbv zeta in Hb1.
  pose proof (store_download
                (Datasets.TRAINING_DATASET_URI +:+ "/" +:+ "baseline.csv") w)
    as Hd1.
  destruct (requests_get sto _ w) as [[first|e] w1]; [|by rewrite Hb1].
  pose proof (store_put first.2 (BUCKET svc)
                (ThirdParty.PREFIX +:+ "/train/" +:+ "baseline.csv")
                "text/csv" w1) as Hp1.
  destruct (s3_put_object sto first.2 _ _ _ w1) as [[d1|e] w2];
    [|by rewrite Hb1].
  rewrite Hb1. cbn [outcome_of world_of events_of].
  pose proof (upload_body_run sto "data_quality_drift.csv" w2) as Hb2.
  cbv zeta in Hb2.
  pose proof (store_download
                (Datasets.TRAINING_DATASET_URI +:+ "/"
                 +:+ "data_quality_drift.csv") w2) as Hd2.
  destruct (requests_get sto _ w2) as [[second|e] w3]; [|by rewrite Hb2].
  pose proof (store_put second.2 (BUCKET svc)
                (ThirdParty.PREFIX +:+ "/train/" +:+ "data_quality_drift.csv")
                "text/csv" w3) as Hp2.
  destruct (s3_put_object sto second.2 _ _ _ w3) as [[d2|e] w4];
    [|by rewrite Hb2].
  rewrite Hb2. unfold done_. cbn [outcome_of world_of events_of]. intros _.
  exists first, second. split; [done|].
  simpl in Hd1, Hd2.
  by rewrite (Hp2 d2 w4 eq_refl), Hd2, (Hp1 d1 w2 eq_refl), Hd1.
Qed.

(** A complete run of the notebook: the frame replayed is the one read
    from the content of the second download. *)
Lemma notebook_replays_the_download fuel hourly w :
  let r := Datasets.run_all sto fuel hourly w in
  outcome_of r = Ok tt →
  ∃ first second columns,
    downloads (events_of r) = [first; second]
    ∧ read_csv sto second.2 = Returns columns
    ∧ submitted (cell_events (events_of r)) = Row <$> zip_star columns.
Proof.
  intros r Hok. subst r.
  destruct (run_all_Ok sto fuel hourly w Hok)
    as (Hok0 & _ & _ & _ & _ & Hok5 & _ & ->).
  destruct (upload_stores w Hok0) as (first & second & Hdown & Hcontent).
  destruct (upload_loop sto ThirdParty.DATASETS w) as (_ & _ & Hcells0 & _).
  fold (Datasets.upload sto) in Hcells0. cbn zeta in Hcells0, Hdown, Hcontent.
  set (w0 := world_of (Datasets.upload sto w)) in *.
  destruct (along_provision content_of store_control w0) as [Hq1 Hw1].
  set (w1 := world_after (ThirdParty.provision w0)) in *.
  destruct (along_wait_for_endpoint content_of store_control fuel w1)
    as [Hq2 Hw2].
  set (w2 := world_after (ThirdParty.wait_for_endpoint fuel w1)) in *.
  destruct (along_baselining_job content_of store_control w2) as [Hq3 Hw3].
  set (w3 := world_after (ThirdParty.baselining_job w2)) in *.
  destruct (along_monitoring_schedule content_of store_control hourly w3)
    as [Hq4 Hw4].
  set (w4 := world_after (ThirdParty.monitoring_schedule hourly w3)) in *.
  destruct (violations_cell sto w4) as (_ & _ & _ & Hdown5 & Hcell5).
  destruct (Hcell5 Hok5) as (body & w4' & columns & Hget & Hcsv & Hsub & _).
  set (w5 := world_of (Datasets.violations sto w4)) in *.
  destruct (along_cleanup content_of store_control w5) as [Hq6 _].
  assert (body = second.2) as ->.
  { assert (content_of w4 !! (BUCKET svc,
              ThirdParty.PREFIX +:+ "/train/" +:+ "data_quality_drift.csv")
            = Some second.2) as Hthere.
    { rewrite Hw4, Hw3, Hw2, Hw1, Hcontent. apply lookup_insert_eq. }
    apply store_get in Hthere. rewrite Hget in Hthere. simpl in Hthere.
    by injection Hthere. }
  exists first, second, columns.
  rewrite !downloads_app, !cell_events_app, !submitted_app.
  destruct (lift_quiet (trace (ThirdParty.provision w0))) as (_ & _ & _ & ->).
  destruct (lift_quiet (trace (ThirdParty.wait_for_endpoint fuel w1)))
    as (_ & _ & _ & ->).
  destruct (lift_quiet (trace (ThirdParty.baselining_job w2)))
    as (_ & _ & _ & ->).
  destruct (lift_quiet (trace (ThirdParty.monitoring_schedule hourly w3)))
    as (_ & _ & _ & ->).
  destruct (lift_quiet (trace (ThirdParty.cleanup w5))) as (_ & _ & _ & ->).
  rewrite !cell_events_lift.
  rewrite (submitted_no_invocation _ Hq1), (submitted_no_invocation _ Hq2),
    (submitted_no_invocation _ Hq3), (submitted_no_invocation _ Hq4),
    (submitted_no_invocation _ Hq6).
  cbn zeta in Hdown5, Hsub. rewrite Hdown, Hdown5, Hcells0, Hsub.
  split; [done|]. split; [done|]. by rewrite !(right_id_L [] (++)).
Qed.
End Store.

(** * Where the cells look for the datasets *)

Section Locations.
Context {value : Type} {svc : Service value} (sto : Storage value svc).
Implicit Types (w : World svc).

Lemma issued_replicate_not_suggest n op (t : list api) job_name d o wt lg :
  (∀ j d' o' wt' lg', op ≠ dmm_suggest_baseline j d' o' wt' lg') →
  dmm_suggest_baseline job_name d o wt lg ∈ replicate n op ++ t →
  dmm_suggest_baseline job_name d o wt lg ∈ t.
Proof.
  intros Hop Hin. apply elem_of_app in Hin as [Hin|Hin]; [|done].
  apply elem_of_replicate in Hin as [Heq _]. by destruct (Hop _ _ _ _ _ (eq_sym Heq)).
Qed.

(** A complete run: the requests of the service cells, in order. *)
Lemma run_all_issued fuel hourly w :
  outcome_of (Datasets.run_all sto fuel hourly w) = Ok tt →
  ∃ k job_name statistics constraints,
    issued (cell_events (events_of (Datasets.run_all sto fuel hourly w)))
    = [sm_create_model ThirdParty.MODEL_NAME ThirdParty.MODEL_PACKAGE_ARN
         (role svc) true;
       sm_create_endpoint_config ThirdParty.MODEL_ENDPOINT_CONFIG
         [ThirdParty.product_variant_params]
         (ThirdParty.data_capture_params (svc := svc));
       sm_create_endpoint ThirdParty.MODEL_ENDPOINT
         ThirdParty.MODEL_ENDPOINT_CONFIG]
      ++ replicate (S k) (sm_describe_endpoint ThirdParty.MODEL_ENDPOINT)
      ++ [dmm_suggest_baseline job_name
            (ThirdParty.S3_BASELINE_DATASET_URI (svc := svc))
            (ThirdParty.S3_BASELINE_ANALYSIS_RESULTS_URI (svc := svc))
            true false;
          dmm_job_wait false;
          dmm_baseline_statistics; dmm_suggested_constraints;
          dmm_create_monitoring_schedule
            ThirdParty.MODEL_MONITOR_SCHEDULE_NAME ThirdParty.MODEL_ENDPOINT
            (ThirdParty.S3_DATA_QUALITY_RPT_URI (svc := svc))
            statistics constraints hourly;
          dmm_describe_schedule;
          sm_stop_monitoring_schedule ThirdParty.MODEL_MONITOR_SCHEDULE_NAME;
          sm_list_monitoring_schedules ThirdParty.MODEL_ENDPOINT;
          sm_delete_monitoring_schedule ThirdParty.MODEL_MONITOR_SCHEDULE_NAME;
          sm_list_monitoring_schedules ThirdParty.MODEL_ENDPOINT;
          sm_delete_endpoint ThirdParty.MODEL_ENDPOINT;
          sm_list_endpoints ThirdParty.MODEL_ENDPOINT;
          sm_delete_endpoint_config ThirdParty.MODEL_ENDPOINT_CONFIG;
          sm_list_endpoint_configs ThirdParty.MODEL_ENDPOINT_CONFIG;
          sm_delete_model ThirdParty.MODEL_NAME;
          sm_list_models ThirdParty.MODEL_NAME].
Proof.
  intros Hok.
  destruct (run_all_Ok sto fuel hourly w Hok)
    as (Hok0 & [arns Hok1] & [status Hok2] & [job_name Hok3] & Hok4 & Hok5
        & Hok6 & ->).
  cbv zeta in *.
  set (w0 := world_of (Datasets.upload sto w)) in *.
  set (w1 := world_after (ThirdParty.provision w0)) in *.
  set (w2 := world_after (ThirdParty.wait_for_endpoint fuel w1)) in *.
  set (w3 := world_after (ThirdParty.baselining_job w2)) in *.
  set (w4 := world_after (ThirdParty.monitoring_schedule hourly w3)) in *.
  set (w5 := world_of (Datasets.violations sto w4)) in *.
  rewrite !cell_events_app, !cell_events_lift, !issued_app.
  destruct (upload_loop sto ThirdParty.DATASETS w) as (_ & _ & Hcells0 & _).
  fold (Datasets.upload sto) in Hcells0. cbn zeta in Hcells0.
  rewrite Hcells0.
  rewrite (provision_Ok w0 arns Hok1).
  rewrite wait_for_endpoint_poll in Hok2 |- *.
  destruct (poll_Ok _ _ _ _ fuel w1 status Hok2) as (_ & k & _ & _ & _ & ->).
  destruct (baselining_job_Ok w2 job_name Hok3) as (_ & ->).
  destruct (monitoring_schedule_Ok hourly w3 Hok4) as (s & c & ->).
  rewrite (cleanup_Ok w5 Hok6).
  assert (issued (cell_events (events_of (Datasets.violations sto w4))) = [])
    as ->.
  { pose proof (violations_body_run sto "data_quality_drift.csv" w4) as Hbody.
    cbv zeta in Hbody. unfold Datasets.violations. simpl drop. simpl for_each.
    unfold then_.
    destruct (s3_get_object sto _ _ w4) as [[body|e] w4']; [|by rewrite Hbody].
    destruct (read_csv sto body) as [columns|e]; [|by rewrite Hbody].
    rewrite Hbody. cbn [outcome_of world_of events_of].
    destruct (result (ThirdParty.replay (zip_star columns) w4')) as [[]| |];
      cbn [outcome_of world_of events_of]; unfold done_;
      cbn [events_of]; rewrite ?(right_id_L [] (++));
      change (Fetched ?b ?k ?r :: Parsed ?d ?r' :: ?l)
        with ([Fetched b k r; Parsed d r'] ++ l);
      by rewrite cell_events_app, cell_events_lift, issued_app,
        third_party_replay_issued. }
  exists k, job_name, s, c. simpl. done.
Qed.
End Locations.

Section StoreExtras.
Context {value : Type} {svc : Service value} (sto : Storage value svc).
Implicit Types (w : World svc).

(** X18.  From the download to the endpoint.  Let the bucket keep
    what is put into it, and let the SageMaker requests and the
    invocations leave it alone.  Then in a run of the whole notebook that
    ends normally, cell 1.3 has made two downloads, and what cell 5.2
    submitted to the endpoint is, row by row and in order, the frame read
    from the content of the second download: the drift file goes into the
    bucket and comes out of it unchanged, and no other cell invokes the
    endpoint. *)
Theorem what_is_replayed_is_what_was_downloaded
    (content_of : World svc → gmap (string * string) bytes)
    (fuel : nat) (hourly : string) (w : World svc) :
  keeps_objects sto content_of →
  let r := Datasets.run_all sto fuel hourly w in
  outcome_of r = Ok tt →
  ∃ first second columns,
    downloads (events_of r) = [first; second]
    ∧ read_csv sto second.2 = Returns columns
    ∧ submitted (cell_events (events_of r)) = Row <$> zip_star columns.
Proof. intros Hstore r. by apply notebook_replays_the_download with content_of. Qed.
End StoreExtras.

(** An instance: a bucket that is a finite map from bucket and key to
    body; the second download has 122 bytes and the reader makes a frame
    of that number. *)
Lemma what_is_replayed_is_what_was_downloaded_witness :
  keeps_objects shelf_storage (λ w : World shelf, w)
  ∧ outcome_of (Datasets.run_all shelf_storage 3 "cron(0 * ? * * *)" ∅) = Ok tt
  ∧ submitted (cell_events
                 (events_of (Datasets.run_all shelf_storage 3
                               "cron(0 * ? * * *)" ∅)))
    = [Row [122%Z]].
Proof.
  assert (keeps_objects shelf_storage (λ w : World shelf, w)) as Hstore.
  { repeat split; try done.
    - intros body bucket key content_type w d w' [= _ <-]. done.
    - intros body Hbody. simpl. by rewrite Hbody. }
  assert (outcome_of (Datasets.run_all shelf_storage 3 "cron(0 * ? * * *)" ∅)
          = Ok tt) as Hok by (by vm_compute).
  split; [exact Hstore|]. split; [exact Hok|].
  destruct (what_is_replayed_is_what_was_downloaded shelf_storage
              (λ w : World shelf, w) 3 "cron(0 * ? * * *)" ∅ Hstore Hok)
    as (first & second & columns & Hdown & Hcsv & Hsub).
  etrans; [exact Hsub|].
  vm_compute in Hdown. injection Hdown as <- <-.
  injection Hcsv as <-. by vm_compute.
Defined.

(** X19.  The cells of the boto3 snapshot build the dataset locations
    separately (the globals cell a URI, the upload cell and cell 5.2 a
    key each), and they agree: in a complete run of the notebook the
    upload cell writes two objects under different keys of the session's
    bucket, the only baselining request names the first of them as its
    dataset, and cell 5.2 reads the second. *)
Theorem cells_agree_on_the_dataset_locations {value} {svc : Service value}
    (sto : Storage value svc) (fuel : nat) (hourly : string) (w : World svc) :
  let r := Datasets.run_all sto fuel hourly w in
  outcome_of r = Ok tt →
  ∃ body1 body2 key1 key2,
    uploads (events_of r)
    = [(body1, BUCKET svc, key1, "text/csv");
       (body2, BUCKET svc, key2, "text/csv")]
    ∧ key1 ≠ key2
    ∧ baseline_datasets (issued (cell_events (events_of r)))
      = ["s3://" +:+ BUCKET svc +:+ "/" +:+ key1]
    ∧ fetches (events_of r) = [(BUCKET svc, key2)].
Proof.
  intros r Hok. subst r.
  destruct (run_all_issued sto fuel hourly w Hok)
    as (k & job_name & s & c & Hissued).
  rewrite Hissued. clear Hissued.
  destruct (run_all_Ok sto fuel hourly w Hok) as (Hok0 & _ & _ & _ & _ & _ & _ & ->).
  destruct (upload_Ok sto w Hok0) as (first & second & _ & Hup).
  exists first.2, second.2,
    (ThirdParty.PREFIX +:+ "/train/" +:+ "baseline.csv"),
    (ThirdParty.PREFIX +:+ "/train/" +:+ "data_quality_drift.csv").
  destruct (upload_loop sto ThirdParty.DATASETS w) as (_ & _ & _ & Hf0 & _).
  fold (Datasets.upload sto) in Hf0. cbn zeta in Hf0.
  rewrite !uploads_app, !fetches_app, Hup, Hf0.
  set (w0 := world_of (Datasets.upload sto w)).
  set (w1 := world_after (ThirdParty.provision w0)).
  set (w2 := world_after (ThirdParty.wait_for_endpoint fuel w1)).
  set (w3 := world_after (ThirdParty.baselining_job w2)).
  set (w4 := world_after (ThirdParty.monitoring_schedule hourly w3)).
  destruct (violations_cell sto w4) as (Hf5 & _ & Hup5 & _).
  cbn zeta in Hf5, Hup5. rewrite Hf5, Hup5.
  set (w5 := world_of (Datasets.violations sto w4)).
  destruct (lift_quiet (trace (ThirdParty.provision w0))) as (-> & _ & -> & _).
  destruct (lift_quiet (trace (ThirdParty.wait_for_endpoint fuel w1)))
    as (-> & _ & -> & _).
  destruct (lift_quiet (trace (ThirdParty.baselining_job w2)))
    as (-> & _ & -> & _).
  destruct (lift_quiet (trace (ThirdParty.monitoring_schedule hourly w3)))
    as (-> & _ & -> & _).
  destruct (lift_quiet (trace (ThirdParty.cleanup w5))) as (-> & _ & -> & _).
  split; [done|]. split; [done|]. split; [|done].
  unfold baseline_datasets. rewrite !omap_app.
  by rewrite (omap_replicate_None _ (S k)).
Qed.

Lemma cells_agree_on_the_dataset_locations_witness :
  ∃ body1 body2 key1 key2,
    uploads (events_of (Datasets.run_all shelf_storage 1 "cron(0 * ? * * *)"
                          (∅ : World shelf)))
    = [(body1, BUCKET shelf, key1, "text/csv");
       (body2, BUCKET shelf, key2, "text/csv")]
    ∧ key1 ≠ key2
    ∧ baseline_datasets
        (issued (cell_events
           (events_of (Datasets.run_all shelf_storage 1 "cron(0 * ? * * *)"
                         (∅ : World shelf)))))
      = ["s3://" +:+ BUCKET shelf +:+ "/" +:+ key1]
    ∧ fetches (events_of (Datasets.run_all shelf_storage 1 "cron(0 * ? * * *)"
                            (∅ : World shelf)))
      = [(BUCKET shelf, key2)].
Proof.
  apply (cells_agree_on_the_dataset_locations shelf_storage 1
           "cron(0 * ? * * *)" (∅ : World shelf)).
  vm_compute. reflexivity.
Defined.
